(** * MCP-freeCAD: the design-intent pipeline

    A shallow embedding of the Model Context Protocol core of the
    repository (intent parser, design generator, safety validator,
    execution engine, feedback collector and the integration module), and
    the properties its specification states about it.

    Conventions of the embedding.
    - A JavaScript string is a [string]; the model covers ASCII text, so
      [toLowerCase] acts on the letters 'A'..'Z' and leaves every other
      character alone.
    - A JavaScript number is an IEEE 754 binary64 value; its text is the
      shortest decimal that reads back as the same value, laid out as
      [Number.prototype.toString] does.
    - An object used as a parameter bag is a [gmap string JsValue]; a
      missing key reads as [undefined].
    - [async] functions are run to completion; the observable effects
      (console output, timers) are collected in a trace, and a thrown
      value is an explicit outcome. *)

From Stdlib Require Import Ascii String List ZArith Bool Lia DecimalString DecimalN.
From Stdlib Require Import Floats.SpecFloat.
From stdpp Require Import base option gmap strings.

(** ** JavaScript strings *)

Module Js.

Definition isUpper (c : ascii) : bool :=
  (65 <=? nat_of_ascii c)%nat && (nat_of_ascii c <=? 90)%nat.

Definition isDigit (c : ascii) : bool :=
  (48 <=? nat_of_ascii c)%nat && (nat_of_ascii c <=? 57)%nat.

Definition isLower (c : ascii) : bool :=
  (97 <=? nat_of_ascii c)%nat && (nat_of_ascii c <=? 122)%nat.

(** [\s] restricted to ASCII: tab, line feed, vertical tab, form feed,
    carriage return and space. *)
Definition isSpace (c : ascii) : bool :=
  ((9 <=? nat_of_ascii c)%nat && (nat_of_ascii c <=? 13)%nat)
  || (nat_of_ascii c =? 32)%nat.

(** A character of ASCII text: on such text a character of the model
    is a code unit of the JavaScript string. *)
Definition isAscii (c : ascii) : bool := (nat_of_ascii c <? 128)%nat.

(** [[a-zA-Z0-9]] *)
Definition isAlnum (c : ascii) : bool := isLower c || isUpper c || isDigit c.

Definition lowerChar (c : ascii) : ascii :=
  if isUpper c then ascii_of_nat (nat_of_ascii c + 32) else c.

Definition upperChar (c : ascii) : ascii :=
  if isLower c then ascii_of_nat (nat_of_ascii c - 32) else c.

(** Apply [f] to every character. *)
Fixpoint mapChars (f : ascii -> ascii) (s : string) : string :=
  match s with
  | EmptyString => EmptyString
  | String c s' => String (f c) (mapChars f s')
  end.

(** [s.toLowerCase()] *)
Definition toLowerCase (s : string) : string := mapChars lowerChar s.

(** [s.startsWith(pat)] *)
Fixpoint startsWith (s pat : string) {struct pat} : bool :=
  match pat with
  | EmptyString => true
  | String a pat' =>
      match s with
      | EmptyString => false
      | String b s' => Ascii.eqb a b && startsWith s' pat'
      end
  end.

(** [s.includes(pat)] *)
Fixpoint includes (s pat : string) : bool :=
  startsWith s pat ||
  match s with
  | EmptyString => false
  | String _ s' => includes s' pat
  end.

(** The characters of [s] in reverse order. *)
Fixpoint reverse (s : string) : string :=
  match s with
  | EmptyString => EmptyString
  | String c s' => reverse s' +:+ String c EmptyString
  end.

(** [xs.join(sep)] *)
Fixpoint join (sep : string) (xs : list string) : string :=
  match xs with
  | [] => ""
  | [x] => x
  | x :: rest => x +:+ sep +:+ join sep rest
  end.

(** [s.charAt(0).toUpperCase() + s.slice(1)] *)
Definition capitalize (s : string) : string :=
  match s with
  | EmptyString => EmptyString
  | String c s' => String (upperChar c) s'
  end.

(** Every character of [s] satisfies [p]. *)
Fixpoint allChars (p : ascii -> bool) (s : string) : bool :=
  match s with
  | EmptyString => true
  | String c s' => p c && allChars p s'
  end.

(** Some character of [s] satisfies [p]. *)
Fixpoint someChar (p : ascii -> bool) (s : string) : bool :=
  match s with
  | EmptyString => false
  | String c s' => p c || someChar p s'
  end.

(** [s] has [pat] as a contiguous substring. *)
Definition Contains (s pat : string) : Prop :=
  exists pre post, s = pre +:+ pat +:+ post.

End Js.

(** The double-quote and line-feed characters. *)
Definition dquote : string :=
  String (Ascii false true false false false true false false) "".
Definition newline : string :=
  String (Ascii false true false true false false false false) "".

(** ** JavaScript numbers and values *)

(** A number is an IEEE 754 binary64 value, as [spec_float] of the
    Standard Library describes it: a signed zero, a signed infinity, NaN,
    or the finite value [(-1)^s * m * 2^e]. *)
Definition number : Set := spec_float.

Module Number.

Definition prec : Z := 53.
Definition emax : Z := 1024.

(** The number value of an integer: the nearest binary64 value, ties to
    the even significand, infinity from [2^1024 - 2^970] on. *)
Definition ofZ (z : Z) : number := binary_normalize prec emax z 0 false.

(** [n / 2] *)
Definition half (n : number) : number := SFdiv prec emax n (ofZ 2).

(** [n] is [+0] or [-0]. *)
Definition isZero (n : number) : bool :=
  match n with S754_zero _ => true | _ => false end.

Definition isNaN (n : number) : bool :=
  match n with S754_nan => true | _ => false end.

Definition digits (n : N) : string := NilZero.string_of_uint (N.to_uint n).

Fixpoint zeros (k : nat) : string :=
  match k with O => "" | S k' => String "0"%char (zeros k') end.

(** [s * 10^q] and [u * 2^t] over a common denominator, so that the two
    reals compare as these two integers do. *)
Definition decimalSide (s q t : Z) : Z :=
  (s * 10 ^ Z.max q 0 * 2 ^ Z.max (- t) 0)%Z.
Definition binarySide (u q t : Z) : Z :=
  (u * 2 ^ Z.max t 0 * 10 ^ Z.max (- q) 0)%Z.

(** The decimal digits [sh_digits] (there are [sh_count] of them) and the
    position [sh_point] of the decimal point: the value
    [sh_digits * 10^(sh_point - sh_count)]. *)
Record Shortest := { sh_digits : Z; sh_count : Z; sh_point : Z }.

(** The [n] with [10^(n-1) <= m * 2^e < 10^n], found next to the
    estimate [log10 2 * log2 (m * 2^e)]. The value is counted in quarters
    of the unit in the last place, [2^(e-2)]. *)
Definition decimalPoint (m : positive) (e : Z) : Z :=
  let t := (e - 2)%Z in
  let bits := (Z.log2 (Z.pos m) + 1 + e)%Z in
  let guess := ((bits - 1) * 30103 / 100000)%Z in
  let below n := (decimalSide 1 n t >? binarySide (4 * Z.pos m) n t)%Z in
  if below (guess - 1)%Z then (guess - 1)%Z
  else if below guess then guess
  else if below (guess + 1)%Z then (guess + 1)%Z
  else (guess + 2)%Z.

(** The [k]-digit decimal with the point at [n] that reads back as
    [m * 2^e], if there is one: the value cut after [k] digits or the
    next one up, whichever lies between the midpoints to the neighbouring
    binary64 values (the midpoints themselves count when [m] is even; the
    neighbour below a power of two is half as far). Of two, the closer
    one, and the even one when they are equally close. *)
Definition candidate (m : positive) (e n k : Z) : option Z :=
  let t := (e - 2)%Z in
  let q := (n - k)%Z in
  let x := (4 * Z.pos m)%Z in
  let up := (x + 2)%Z in
  let down :=
    if (Z.pos m =? 2 ^ (prec - 1))%Z && (3 - emax - prec <? e)%Z
    then (x - 1)%Z else (x - 2)%Z in
  let closed := Z.even (Z.pos m) in
  let inside s :=
    let d := decimalSide s q t in
    if closed then (binarySide down q t <=? d)%Z && (d <=? binarySide up q t)%Z
    else (binarySide down q t <? d)%Z && (d <? binarySide up q t)%Z in
  let lo := (binarySide x q t / decimalSide 1 q t)%Z in
  let hi := (lo + 1)%Z in
  let dlo := (binarySide x q t - decimalSide lo q t)%Z in
  let dhi := (decimalSide hi q t - binarySide x q t)%Z in
  match inside lo, inside hi with
  | true, true =>
      Some (if (dlo <? dhi)%Z then lo
            else if (dhi <? dlo)%Z then hi
            else if Z.even lo then lo else hi)
  | true, false => Some lo
  | false, true => Some hi
  | false, false => None
  end.

(** The least number of digits, from [k] on, that has a candidate. *)
Fixpoint search (m : positive) (e n k : Z) (fuel : nat) : Shortest :=
  match candidate m e n k, fuel with
  | Some s, _ =>
      if (s =? 10 ^ k)%Z
      then {| sh_digits := 1; sh_count := 1; sh_point := (n + 1)%Z |}
      else {| sh_digits := s; sh_count := k; sh_point := n |}
  | None, S fuel' => search m e n (k + 1)%Z fuel'
  | None, O =>
      {| sh_digits := (binarySide (4 * Z.pos m) (n - k) (e - 2)
                         / decimalSide 1 (n - k) (e - 2))%Z;
         sh_count := k; sh_point := n |}
  end.

(** The shortest decimal that reads back as [m * 2^e]; 17 digits are
    enough for every binary64 value. *)
Definition shortest (m : positive) (e : Z) : Shortest :=
  search m e (decimalPoint m e) 1 16.

(** The text of the digits: plain up to [10^21], with leading zeros down
    to [10^-7], and in exponent form outside. *)
Definition layout (sh : Shortest) : string :=
  let digs := digits (Z.to_N (sh_digits sh)) in
  let k := sh_count sh in
  let n := sh_point sh in
  if (k <=? n)%Z && (n <=? 21)%Z then digs +:+ zeros (Z.to_nat (n - k))
  else if (0 <? n)%Z && (n <=? 21)%Z then
    String.substring 0 (Z.to_nat n) digs +:+ "."
      +:+ String.substring (Z.to_nat n) (Z.to_nat (k - n)) digs
  else if (-6 <? n)%Z && (n <=? 0)%Z then
    "0." +:+ zeros (Z.to_nat (- n)) +:+ digs
  else
    let exponent :=
      "e" +:+ (if (n - 1 <? 0)%Z then "-" else "+")
          +:+ digits (Z.abs_N (n - 1)) in
    if (k =? 1)%Z then digs +:+ exponent
    else String.substring 0 1 digs +:+ "."
           +:+ String.substring 1 (Z.to_nat (k - 1)) digs +:+ exponent.

(** [String(n)], as a template literal interpolates a number. *)
Definition toString (n : number) : string :=
  match n with
  | S754_nan => "NaN"
  | S754_zero _ => "0"
  | S754_infinity s => (if s then "-" else "") +:+ "Infinity"
  | S754_finite s m e => (if s then "-" else "") +:+ layout (shortest m e)
  end.

(** [parseInt(ds, 10)] on a run of decimal digits: the number value of
    the integer the digits write. (All the digits count, as V8 reads
    them; the language lets an implementation read the digits after the
    20th as zeros.) *)
Definition parseDigits (ds : string) : number :=
  ofZ (Z.of_N (fold_left
    (fun acc c => (10 * acc + (N_of_ascii c - 48))%N)
    (list_ascii_of_string ds) 0%N)).

End Number.

(** What a property of a parameter bag can hold at run time. *)
Inductive JsValue :=
| JUndefined
| JNum (n : number)
| JStr (s : string).

Module Value.

(** Interpolation in a template literal. *)
Definition toString (v : JsValue) : string :=
  match v with
  | JUndefined => "undefined"
  | JNum n => Number.toString n
  | JStr s => s
  end.

Definition truthy (v : JsValue) : bool :=
  match v with
  | JUndefined => false
  | JNum n => negb (Number.isZero n || Number.isNaN n)
  | JStr s => negb (String.eqb s "")
  end.

(** [v || d] *)
Definition or (v d : JsValue) : JsValue := if truthy v then v else d.

(** [obj.key] on a parameter bag. *)
Definition prop (obj : gmap string JsValue) (key : string) : JsValue :=
  default JUndefined (obj !! key).

(** [obj?.key] on an optional parameter bag. *)
Definition optProp (obj : option (gmap string JsValue)) (key : string) : JsValue :=
  match obj with
  | Some m => prop m key
  | None => JUndefined
  end.

End Value.

(** ** Schema *)

Inductive ConstraintType := CDimension | CMaterial | CTolerance | CRelationship.

Record DesignConstraint := {
  c_type : ConstraintType;
  c_parameter : string;
  c_value : JsValue;
  c_unit : option string
}.

Record DesignIntent := {
  prompt : string;
  contextId : string;
  constraints : option (list DesignConstraint)
}.

Inductive PrimitiveType := cube | sphere | cylinder | cone | torus.

Record Position := { pos_x : number; pos_y : number; pos_z : number }.
Record Rotation := { rot_x : number; rot_y : number; rot_z : number }.

Record PrimitiveShape := {
  p_id : string;
  p_type : PrimitiveType;
  p_parameters : gmap string JsValue;
  p_position : option Position;
  p_rotation : option Rotation
}.

Inductive OperationType := union | difference | intersection | fillet | chamfer.

Record Operation := {
  o_type : OperationType;
  o_targetIds : list string;
  o_parameters : option (gmap string JsValue)
}.

Inductive Units := mm | cm | inches.

Record DesignMetadata := {
  name : string;
  description : string;
  author : string;
  createdAt : string;
  units : Units
}.

Record StructuredDesign := {
  primitives : list PrimitiveShape;
  operations : list Operation;
  metadata : DesignMetadata
}.

Record FreeCADScript := {
  code : string;
  imports : list string;
  safeToExecute : bool
}.

Record ExecutionResult := {
  success : bool;
  objectIds : option (list string);
  errorMessage : option string;
  warnings : option (list string);
  renderUrl : option string
}.

Inductive Status := StSuccess | StError | StWarning | StInfo | StClarification.

Inductive ActionType := clarify | modify | regenerate | accept.

Record SuggestedAction := {
  a_type : ActionType;
  a_description : string;
  a_parameters : option (gmap string JsValue)
}.

Record UserFeedback := {
  status : Status;
  message : string;
  details : option string;
  suggestedActions : option (list SuggestedAction)
}.

(** The string a [PrimitiveShape.type] / [Operation.type] is in the source. *)
Definition primitiveTypeName (t : PrimitiveType) : string :=
  match t with
  | cube => "cube" | sphere => "sphere" | cylinder => "cylinder"
  | cone => "cone" | torus => "torus"
  end.

Definition operationTypeName (t : OperationType) : string :=
  match t with
  | union => "union" | difference => "difference"
  | intersection => "intersection" | fillet => "fillet" | chamfer => "chamfer"
  end.

(** ** Design generator *)

(** [generatePrimitiveCode]: the lines that create one primitive. *)
Definition generatePrimitiveCode (primitive : PrimitiveShape) : list string :=
  let varName := p_id primitive in
  let params := p_parameters primitive in
  let lines : list string :=
    match p_type primitive with
    | cube =>
        let length := Value.prop params "length" in
        let width := Value.prop params "width" in
        let height := Value.prop params "height" in
        [varName +:+ " = Part.makeBox(" +:+ Value.toString length +:+ ", " +:+ Value.toString width
           +:+ ", " +:+ Value.toString height +:+ ")"]
    | sphere =>
        let radius := Value.prop params "radius" in
        [varName +:+ " = Part.makeSphere(" +:+ Value.toString radius +:+ ")"]
    | cylinder =>
        let cylRadius := Value.prop params "radius" in
        let cylHeight := Value.prop params "height" in
        [varName +:+ " = Part.makeCylinder(" +:+ Value.toString cylRadius +:+ ", "
           +:+ Value.toString cylHeight +:+ ")"]
    | cone =>
        let coneRadius1 := Value.prop params "radius1" in
        let coneRadius2 :=
          Value.or (Value.prop params "radius2") (JNum (Number.ofZ 0)) in
        let coneHeight := Value.prop params "height" in
        [varName +:+ " = Part.makeCone(" +:+ Value.toString coneRadius1 +:+ ", "
           +:+ Value.toString coneRadius2 +:+ ", " +:+ Value.toString coneHeight +:+ ")"]
    | torus =>
        let torusRadius1 := Value.prop params "radius1" in
        let torusRadius2 := Value.prop params "radius2" in
        [varName +:+ " = Part.makeTorus(" +:+ Value.toString torusRadius1 +:+ ", "
           +:+ Value.toString torusRadius2 +:+ ")"]
    end in
  let lines :=
    match p_position primitive with
    | Some pos =>
        lines ++ [varName +:+ ".translate(Base.Vector(" +:+ Number.toString (pos_x pos)
                    +:+ ", " +:+ Number.toString (pos_y pos) +:+ ", " +:+ Number.toString (pos_z pos)
                    +:+ "))"]
    | None => lines
    end in
  let lines :=
    match p_rotation primitive with
    | Some rot =>
        lines ++
        [varName +:+ ".rotate(Base.Vector(0,0,0), Base.Vector(1,0,0), "
           +:+ Number.toString (rot_x rot) +:+ ")";
         varName +:+ ".rotate(Base.Vector(0,0,0), Base.Vector(0,1,0), "
           +:+ Number.toString (rot_y rot) +:+ ")";
         varName +:+ ".rotate(Base.Vector(0,0,0), Base.Vector(0,0,1), "
           +:+ Number.toString (rot_z rot) +:+ ")"]
    | None => lines
    end in
  lines ++
  ["shape_obj = doc.addObject(" +:+ dquote +:+ "Part::Feature" +:+ dquote
     +:+ ", " +:+ dquote +:+ Js.capitalize (primitiveTypeName (p_type primitive))
     +:+ dquote +:+ ")";
   "shape_obj.Shape = " +:+ varName].

(** [targetIds[0]] inside a template literal: [undefined] when the
    array is empty. *)
Definition firstTarget (targetIds : list string) : string :=
  match targetIds with
  | [] => "undefined"
  | t :: _ => t
  end.

(** [generateOperationCode]: the lines that apply one operation. *)
Definition generateOperationCode (operation : Operation) : list string :=
  let targetIds := o_targetIds operation in
  let resultName :=
    "result_" +:+ operationTypeName (o_type operation) +:+ "_"
      +:+ Js.join "_" targetIds in
  let lines : list string :=
    match o_type operation with
    | union =>
        [resultName +:+ " = " +:+ firstTarget targetIds +:+ ".fuse("
           +:+ Js.join ", " (tail targetIds) +:+ ")"]
    | difference =>
        [resultName +:+ " = " +:+ firstTarget targetIds +:+ ".cut("
           +:+ Js.join ", " (tail targetIds) +:+ ")"]
    | intersection =>
        [resultName +:+ " = " +:+ firstTarget targetIds +:+ ".common("
           +:+ Js.join ", " (tail targetIds) +:+ ")"]
    | fillet =>
        let radius :=
          Value.or (Value.optProp (o_parameters operation) "radius")
                   (JNum (Number.ofZ 1)) in
        [resultName +:+ " = " +:+ firstTarget targetIds +:+ ".makeFillet("
           +:+ Value.toString radius +:+ ", " +:+ firstTarget targetIds +:+ ".Edges)"]
    | chamfer =>
        let distance :=
          Value.or (Value.optProp (o_parameters operation) "distance")
                   (JNum (Number.ofZ 1)) in
        [resultName +:+ " = " +:+ firstTarget targetIds +:+ ".makeChamfer("
           +:+ Value.toString distance +:+ ", " +:+ firstTarget targetIds +:+ ".Edges)"]
    end in
  lines ++
  ["result_obj = doc.addObject(" +:+ dquote +:+ "Part::Feature" +:+ dquote
     +:+ ", " +:+ dquote +:+ Js.capitalize (operationTypeName (o_type operation))
     +:+ dquote +:+ ")";
   "result_obj.Shape = " +:+ resultName].

(** [name.replace(/[^a-zA-Z0-9]/g, '_')] *)
Definition sanitizeName (s : string) : string :=
  Js.mapChars (fun c => if Js.isAlnum c then c else "_"%char) s.

Definition standardImports : list string :=
  ["import FreeCAD as App"; "import Part"; "from FreeCAD import Base"].

(** The [codeLines] array of [generateFreeCADCode] just before it is
    joined: every [forEach] pushes onto the array built so far. *)
Definition generateCodeLines (design : StructuredDesign) : list string :=
  let codeLines :=
    standardImports ++ [""; "# Create a new document"; "doc = App.newDocument()"; ""] in
  let codeLines :=
    fold_left
      (fun codeLines primitive =>
         let shapeCode := generatePrimitiveCode primitive in
         (codeLines ++ ["# Create " +:+ primitiveTypeName (p_type primitive)])
           ++ shapeCode ++ [""])
      (primitives design) codeLines in
  let codeLines :=
    if (0 <? List.length (operations design))%nat then
      fold_left
        (fun codeLines operation =>
           let operationCode := generateOperationCode operation in
           (codeLines ++ operationCode) ++ [""])
        (operations design) (codeLines ++ ["# Apply operations"])
    else codeLines in
  codeLines ++
  ["# Recompute the document";
   "doc.recompute()";
   "";
   "# Save the document (optional)";
   "# doc.saveAs(" +:+ dquote +:+ sanitizeName (name (metadata design))
     +:+ ".FCStd" +:+ dquote +:+ ")"].

(** [generateFreeCADCode] *)
Definition generateFreeCADCode (design : StructuredDesign) : FreeCADScript :=
  {| code := Js.join newline (generateCodeLines design);
     imports := standardImports;
     safeToExecute := true |}.

(** ** Safety validator *)

Definition dangerousPatterns : list string :=
  ["import os"; "import sys"; "import subprocess"; "exec("; "eval(";
   "execfile("; "__import__"; "open("; "file("; "system("; "popen("].

(** [validateScriptSafety] *)
Definition validateScriptSafety (script : FreeCADScript) : bool :=
  let code := Js.toLowerCase (code script) in
  negb (existsb (fun pattern => Js.includes code (Js.toLowerCase pattern))
                dangerousPatterns).

(** ** Effects: console output, timers and thrown values *)

(** What a [catch] clause receives: an [Error] with its message, or any
    other thrown value. *)
Inductive Thrown :=
| ThrownError (msg : string)
| ThrownOther.

Inductive Event :=
| ConsoleLog (label text : string)
| ConsoleError (label : string) (error : Thrown)
| Timer (ms : nat).

Inductive Outcome (A : Type) :=
| Returned (a : A)
| Threw (e : Thrown).
Arguments Returned {A} a.
Arguments Threw {A} e.

(** A computation: the events it performed, in order, and how it ended. *)
Definition M (A : Type) : Type := list Event * Outcome A.

Definition events {A} (m : M A) : list Event := fst m.
Definition outcome {A} (m : M A) : Outcome A := snd m.

#[export] Instance M_ret : MRet M := fun A a => ([], Returned a).
#[export] Instance M_bind : MBind M := fun A B f m =>
  match m with
  | (tr, Returned a) => let (tr', r) := f a in (tr ++ tr', r)
  | (tr, Threw e) => (tr, Threw e)
  end.

Definition throw {A} (e : Thrown) : M A := ([], Threw e).

(** [try { body } catch (error) { handler }] *)
Definition tryCatch {A} (body : M A) (handler : Thrown -> M A) : M A :=
  match body with
  | (tr, Returned a) => (tr, Returned a)
  | (tr, Threw e) => let (tr', r) := handler e in (tr ++ tr', r)
  end.

Definition consoleLog (label text : string) : M unit :=
  ([ConsoleLog label text], Returned tt).
Definition consoleError (label : string) (error : Thrown) : M unit :=
  ([ConsoleError label error], Returned tt).
(** [await new Promise(resolve => setTimeout(resolve, ms))] *)
Definition sleep (ms : nat) : M unit := ([Timer ms], Returned tt).

(** [error instanceof Error ? error.message : fallback] *)
Definition errorText (error : Thrown) (fallback : string) : string :=
  match error with
  | ThrownError msg => msg
  | ThrownOther => fallback
  end.

(** ** Execution engine *)

(** The body of the [try] block of [executeScript]: the stand-in for the
    dispatch of the script to the engine. *)
Definition mockExecution (script : FreeCADScript) : M ExecutionResult :=
  consoleLog "Executing FreeCAD script:" (code script);;
  sleep 1000;;
  mret {| success := true;
          objectIds := Some ["Object001"; "Object002"];
          errorMessage := None;
          warnings := Some [];
          renderUrl := Some "/models/cube-render.png" |}.

(** [executeScript] *)
Definition executeScript (script : FreeCADScript) : M ExecutionResult :=
  if negb (validateScriptSafety script) then
    mret {| success := false;
            objectIds := None;
            errorMessage :=
              Some "Script contains potentially unsafe operations and cannot be executed.";
            warnings := Some ["Potentially unsafe code detected."];
            renderUrl := None |}
  else
    tryCatch (mockExecution script)
      (fun error =>
         consoleError "Error executing FreeCAD script:" error;;
         mret {| success := false;
                 objectIds := None;
                 errorMessage :=
                   Some (errorText error "Unknown error during execution");
                 warnings := Some ["Execution failed. Check FreeCAD connection."];
                 renderUrl := None |}).

(** ** Intent parser *)

(** The two sources of non-determinism of the parser: the text of
    [Math.random().toString(36)] and of [new Date().toISOString()]. *)
Record Env := { randomBase36 : string; nowISO : string }.

(** [generateId] *)
Definition generateId (env : Env) : string :=
  "shape_" +:+ String.substring 2 9 (randomBase36 env).

Fixpoint dropWhile (p : ascii -> bool) (s : string) : string :=
  match s with
  | EmptyString => EmptyString
  | String c s' => if p c then dropWhile p s' else s
  end.

Fixpoint takeWhile (p : ascii -> bool) (s : string) : string :=
  match s with
  | EmptyString => EmptyString
  | String c s' => if p c then String c (takeWhile p s') else EmptyString
  end.

(** The alternation [(mm|cm|m|inch|in)] anchored at the start of [s]. *)
Definition matchUnit (s : string) : option string :=
  if Js.startsWith s "mm" then Some "mm"
  else if Js.startsWith s "cm" then Some "cm"
  else if Js.startsWith s "m" then Some "m"
  else if Js.startsWith s "inch" then Some "inch"
  else if Js.startsWith s "in" then Some "in"
  else None.

(** [prompt.match] on the dimension pattern (a run of digits, optional
    blanks, an optional unit): the groups 1 and 2 of the leftmost match.
    The digits and the blanks are greedy, and the unit is the first
    alternative that starts right after them, if any. *)
Definition dimensionMatch (prompt : string) : option (string * option string) :=
  match dropWhile (fun c => negb (Js.isDigit c)) prompt with
  | EmptyString => None
  | rest =>
      Some (takeWhile Js.isDigit rest,
            matchUnit (dropWhile Js.isSpace (dropWhile Js.isDigit rest)))
  end.

Definition clarifyShapeFeedback : UserFeedback :=
  {| status := StClarification;
     message := "Could not determine what shape to create.";
     details := Some ("Please specify a shape type such as " +:+ dquote +:+ "cube"
                      +:+ dquote +:+ ", " +:+ dquote +:+ "sphere" +:+ dquote
                      +:+ ", or " +:+ dquote +:+ "cylinder" +:+ dquote +:+ ".");
     suggestedActions :=
       Some [{| a_type := clarify;
                a_description := "Specify a primitive shape";
                a_parameters := None |}] |}.

(** The body of the [try] block of [parseDesignIntent]. *)
Definition parseBody (env : Env) (intent : DesignIntent)
  : M (StructuredDesign + UserFeedback) :=
  let prompt_ := Js.toLowerCase (prompt intent) in
  let dimensionMatch := dimensionMatch prompt_ in
  let size :=
    match dimensionMatch with
    | Some (g1, _) => Number.parseDigits g1
    | None => Number.ofZ 10
    end in
  let unit :=
    match dimensionMatch with
    | Some (_, Some g2) => g2
    | _ => "mm"
    end in
  let operations_ : list Operation := [] in
  let shape : option PrimitiveShape :=
    if Js.includes prompt_ "cube" || Js.includes prompt_ "box" then
      Some {| p_id := generateId env;
              p_type := cube;
              p_parameters :=
                {[ "length" := JNum size; "width" := JNum size;
                   "height" := JNum size; "unit" := JStr unit ]};
              p_position := None; p_rotation := None |}
    else if Js.includes prompt_ "sphere" then
      Some {| p_id := generateId env;
              p_type := sphere;
              p_parameters :=
                {[ "radius" := JNum (Number.half size); "unit" := JStr unit ]};
              p_position := None; p_rotation := None |}
    else if Js.includes prompt_ "cylinder" then
      Some {| p_id := generateId env;
              p_type := cylinder;
              p_parameters :=
                {[ "radius" := JNum (Number.half size); "height" := JNum size;
                   "unit" := JStr unit ]};
              p_position := None; p_rotation := None |}
    else None in
  match shape with
  | None => mret (inr clarifyShapeFeedback)
  | Some primitive =>
      let metadata_ :=
        {| name := "Design from " +:+ dquote +:+ prompt intent +:+ dquote;
           description := prompt intent;
           author := "MCP User";
           createdAt := nowISO env;
           units := mm |} in
      mret (inl {| primitives := [primitive];
                   operations := operations_;
                   metadata := metadata_ |})
  end.

(** [parseDesignIntent] *)
Definition parseDesignIntent (env : Env) (intent : DesignIntent)
  : M (StructuredDesign + UserFeedback) :=
  tryCatch (parseBody env intent)
    (fun error =>
       consoleError "Error parsing design intent:" error;;
       mret (inr {| status := StError;
                    message := "Failed to parse design intent";
                    details := Some (errorText error "Unknown error");
                    suggestedActions := None |})).

Definition shapeKeywords : list string :=
  ["cube"; "box"; "sphere"; "cylinder"; "cone"; "torus"].

(** [shapeKeywords.some(keyword => prompt.includes(keyword))] *)
Definition hasShapeKeyword (prompt_ : string) : bool :=
  existsb (fun keyword => Js.includes prompt_ keyword) shapeKeywords.

(** [/\d+/.test(prompt)] *)
Definition hasDimensions (prompt_ : string) : bool :=
  Js.someChar Js.isDigit prompt_.

(** [needsClarification] *)
Definition needsClarification (intent : DesignIntent) : bool :=
  let prompt_ := Js.toLowerCase (prompt intent) in
  if (String.length prompt_ <? 5)%nat then true
  else if negb (hasShapeKeyword prompt_) then true
  else negb (hasDimensions prompt_).

Definition shapeQuestion : string := "What shape would you like to create?".
Definition dimensionQuestion : string := "What dimensions should the shape have?".

(** [generateClarificationQuestions] *)
Definition generateClarificationQuestions (intent : DesignIntent) : list string :=
  let prompt_ := Js.toLowerCase (prompt intent) in
  let questions : list string := [] in
  let questions :=
    if negb (hasShapeKeyword prompt_) then questions ++ [shapeQuestion]
    else questions in
  let questions :=
    if negb (hasDimensions prompt_) then questions ++ [dimensionQuestion]
    else questions in
  questions.

(** ** Feedback collector *)

(** [result.warnings && result.warnings.length > 0] *)
Definition hasWarnings (result : ExecutionResult) : bool :=
  match warnings result with
  | Some ws => (0 <? List.length ws)%nat
  | None => false
  end.

Definition warningCount (result : ExecutionResult) : nat :=
  match warnings result with
  | Some ws => List.length ws
  | None => 0
  end.

(** [getSuggestedActionsForSuccess] *)
Definition getSuggestedActionsForSuccess (result : ExecutionResult)
  : list SuggestedAction :=
  let actions :=
    [{| a_type := accept; a_description := "Use this model";
        a_parameters := None |}] in
  if hasWarnings result then
    actions ++ [{| a_type := modify;
                   a_description := "Modify design to address warnings";
                   a_parameters := None |}]
  else actions.

(** [getSuggestedActionsForFailure] *)
Definition getSuggestedActionsForFailure (result : ExecutionResult)
  : list SuggestedAction :=
  [{| a_type := regenerate;
      a_description := "Try again with simplified geometry";
      a_parameters := None |};
   {| a_type := modify;
      a_description := "Modify design parameters";
      a_parameters := None |};
   {| a_type := clarify;
      a_description := "Provide more details about the design";
      a_parameters := None |}].

(** [generateUserFeedback] *)
Definition generateUserFeedback (result : ExecutionResult) : UserFeedback :=
  if success result then
    {| status := StSuccess;
       message := "Model created successfully!";
       details :=
         Some (if hasWarnings result then
                 "Model created with "
                   +:+ Number.digits (N.of_nat (warningCount result))
                   +:+ " warning(s)."
               else "The model was created without any warnings.");
       suggestedActions := Some (getSuggestedActionsForSuccess result) |}
  else
    {| status := StError;
       message := "Failed to create model.";
       details :=
         Some (match errorMessage result with
               | Some msg =>
                   if String.eqb msg "" then
                     "An unknown error occurred during execution."
                   else msg
               | None => "An unknown error occurred during execution."
               end);
       suggestedActions := Some (getSuggestedActionsForFailure result) |}.

(** [formatErrorMessage] *)
Definition formatErrorMessage (errorMessage : string) : string :=
  if Js.includes errorMessage "TopoDS_Shape is null" then
    "The design resulted in an invalid shape. Try simplifying your geometry."
  else if Js.includes errorMessage "out of bounds" then
    "One or more parameters are out of the allowed range. Check your dimensions."
  else errorMessage.

(** ** Integration module: the pipeline *)

(** What [processDesignIntent] resolves to. *)
Record Payload := {
  structuredDesign : option StructuredDesign;
  script : option FreeCADScript;
  executionResult : option ExecutionResult;
  feedback : UserFeedback
}.

(** The functions the pipeline imports from the other modules. Each is
    a computation, so that a stage that throws can be described. *)
Record Stages := {
  st_needsClarification : DesignIntent -> M bool;
  st_generateClarificationQuestions : DesignIntent -> M (list string);
  st_parseDesignIntent : DesignIntent -> M (StructuredDesign + UserFeedback);
  st_generateFreeCADCode : StructuredDesign -> M FreeCADScript;
  st_validateScriptSafety : FreeCADScript -> M bool;
  st_executeScript : FreeCADScript -> M ExecutionResult;
  st_generateUserFeedback : ExecutionResult -> M UserFeedback
}.

Definition clarificationFeedback (questions : list string) : UserFeedback :=
  {| status := StClarification;
     message := "Your design intent needs more details.";
     details := Some "Please provide additional information to create your model.";
     suggestedActions :=
       Some (map (fun question =>
                    {| a_type := clarify; a_description := question;
                       a_parameters := None |})
                 questions) |}.

Definition unsafeFeedback : UserFeedback :=
  {| status := StError;
     message := "Generated code contains unsafe operations.";
     details :=
       Some "The system detected potentially dangerous operations in the generated code.";
     suggestedActions :=
       Some [{| a_type := modify;
                a_description :=
                  "Modify your design intent to avoid unsafe operations.";
                a_parameters := None |}] |}.

Definition unexpectedErrorFeedback (error : Thrown) : UserFeedback :=
  {| status := StError;
     message := "An unexpected error occurred while processing your design.";
     details := Some (errorText error "Unknown error");
     suggestedActions :=
       Some [{| a_type := regenerate;
                a_description := "Try again with a simpler design";
                a_parameters := None |}] |}.

Definition feedbackOnly (fb : UserFeedback) : Payload :=
  {| structuredDesign := None; script := None; executionResult := None;
     feedback := fb |}.

(** The body of the [try] block of [processDesignIntent]. *)
Definition pipelineBody (S : Stages) (intent : DesignIntent) : M Payload :=
  needs ← st_needsClarification S intent;
  if (needs : bool) then
    questions ← st_generateClarificationQuestions S intent;
    mret (feedbackOnly (clarificationFeedback questions))
  else
    parsedResult ← st_parseDesignIntent S intent;
    match parsedResult with
    | inr parsedFeedback => mret (feedbackOnly parsedFeedback)
    | inl design =>
        script_ ← st_generateFreeCADCode S design;
        safe ← st_validateScriptSafety S script_;
        if negb safe then
          mret {| structuredDesign := Some design;
                  script := Some script_;
                  executionResult := None;
                  feedback := unsafeFeedback |}
        else
          executionResult_ ← st_executeScript S script_;
          feedback_ ← st_generateUserFeedback S executionResult_;
          mret {| structuredDesign := Some design;
                  script := Some script_;
                  executionResult := Some executionResult_;
                  feedback := feedback_ |}
    end.

(** [processDesignIntent], over the functions it calls. *)
Definition processDesignIntentWith (S : Stages) (intent : DesignIntent)
  : M Payload :=
  tryCatch (pipelineBody S intent)
    (fun error =>
       consoleError "Error in MCP pipeline:" error;;
       mret (feedbackOnly (unexpectedErrorFeedback error))).

(** The functions of this repository, as the pipeline imports them. *)
Definition moduleStages (env : Env) : Stages :=
  {| st_needsClarification := fun intent => mret (needsClarification intent);
     st_generateClarificationQuestions :=
       fun intent => mret (generateClarificationQuestions intent);
     st_parseDesignIntent := parseDesignIntent env;
     st_generateFreeCADCode := fun design => mret (generateFreeCADCode design);
     st_validateScriptSafety := fun script_ => mret (validateScriptSafety script_);
     st_executeScript := executeScript;
     st_generateUserFeedback :=
       fun result => mret (generateUserFeedback result) |}.

(** [processDesignIntent] *)
Definition processDesignIntent (env : Env) (intent : DesignIntent) : M Payload :=
  processDesignIntentWith (moduleStages env) intent.

(** ** Vocabulary of the statements *)

(** The engine error substrings [formatErrorMessage] knows. *)
Definition knownEngineErrors : list string :=
  ["TopoDS_Shape is null"; "out of bounds"].

(** The result [executeScript] gives for a script that fails validation. *)
Definition unsafeResult : ExecutionResult :=
  {| success := false;
     objectIds := None;
     errorMessage :=
       Some "Script contains potentially unsafe operations and cannot be executed.";
     warnings := Some ["Potentially unsafe code detected."];
     renderUrl := None |}.

(** The types of the suggested actions of a feedback, in order. *)
Definition actionTypes (fb : UserFeedback) : option (list ActionType) :=
  map a_type <$> suggestedActions fb.

(** The name an operation binds its result to. *)
Definition resultName (t : OperationType) (targetIds : list string) : string :=
  "result_" +:+ operationTypeName t +:+ "_" +:+ Js.join "_" targetIds.

(** The two lines that bind a result into a document object. *)
Definition bindingStatements (holder kind value : string) : list string :=
  [holder +:+ " = doc.addObject(" +:+ dquote +:+ "Part::Feature" +:+ dquote
     +:+ ", " +:+ dquote +:+ kind +:+ dquote +:+ ")";
   holder +:+ ".Shape = " +:+ value].

(** The first line [generatePrimitiveCode] emits: the creation call. *)
Definition creationStatement (primitive : PrimitiveShape) : string :=
  hd "" (generatePrimitiveCode primitive).

(** The first line [generateOperationCode] emits: the operation call. *)
Definition operationStatement (operation : Operation) : string :=
  hd "" (generateOperationCode operation).

Definition translationStatements (primitive : PrimitiveShape) : list string :=
  match p_position primitive with
  | Some pos =>
      [p_id primitive +:+ ".translate(Base.Vector(" +:+ Number.toString (pos_x pos)
         +:+ ", " +:+ Number.toString (pos_y pos) +:+ ", "
         +:+ Number.toString (pos_z pos) +:+ "))"]
  | None => []
  end.

(** A rotation of [varName] by [angle] about the axis through the origin
    with direction [axis]. *)
Definition rotationStatement (varName axis : string) (angle : number) : string :=
  varName +:+ ".rotate(Base.Vector(0,0,0), Base.Vector(" +:+ axis +:+ "), "
    +:+ Number.toString angle +:+ ")".

(** What [generateCodeLines] pushes for one primitive, for one operation,
    before the first primitive and after the last operation. *)
Definition primitiveBlock (primitive : PrimitiveShape) : list string :=
  ["# Create " +:+ primitiveTypeName (p_type primitive)]
    ++ generatePrimitiveCode primitive ++ [""].

Definition operationBlock (operation : Operation) : list string :=
  generateOperationCode operation ++ [""].

Definition scriptHeader : list string :=
  standardImports ++ [""; "# Create a new document"; "doc = App.newDocument()"; ""].

Definition operationsSection (ops : list Operation) : list string :=
  match ops with
  | [] => []
  | _ => "# Apply operations" :: flat_map operationBlock ops
  end.

Definition scriptFooter (design : StructuredDesign) : list string :=
  ["# Recompute the document";
   "doc.recompute()";
   "";
   "# Save the document (optional)";
   "# doc.saveAs(" +:+ dquote +:+ sanitizeName (name (metadata design))
     +:+ ".FCStd" +:+ dquote +:+ ")"].

(** The action the pipeline makes of a clarification question. *)
Definition clarifyAction (question : string) : SuggestedAction :=
  {| a_type := clarify; a_description := question; a_parameters := None |}.

(** [p] contains no decimal digit. *)
Definition NoDigit (p : string) : Prop :=
  forall c, Js.Contains p (String c "") -> Js.isDigit c = false.

(** [p] contains none of the shape keywords. *)
Definition NoShapeKeyword (p : string) : Prop :=
  forall k, In k shapeKeywords -> ~ Js.Contains p k.

(** A stage of the pipeline is reached on [intent] and throws [e]. *)
Inductive StageThrows (S : Stages) (intent : DesignIntent) (e : Thrown) : Prop :=
| throws_needsClarification :
    outcome (st_needsClarification S intent) = Threw e ->
    StageThrows S intent e
| throws_generateClarificationQuestions :
    outcome (st_needsClarification S intent) = Returned true ->
    outcome (st_generateClarificationQuestions S intent) = Threw e ->
    StageThrows S intent e
| throws_parseDesignIntent :
    outcome (st_needsClarification S intent) = Returned false ->
    outcome (st_parseDesignIntent S intent) = Threw e ->
    StageThrows S intent e
| throws_generateFreeCADCode design :
    outcome (st_needsClarification S intent) = Returned false ->
    outcome (st_parseDesignIntent S intent) = Returned (inl design) ->
    outcome (st_generateFreeCADCode S design) = Threw e ->
    StageThrows S intent e
| throws_validateScriptSafety design script_ :
    outcome (st_needsClarification S intent) = Returned false ->
    outcome (st_parseDesignIntent S intent) = Returned (inl design) ->
    outcome (st_generateFreeCADCode S design) = Returned script_ ->
    outcome (st_validateScriptSafety S script_) = Threw e ->
    StageThrows S intent e
| throws_executeScript design script_ :
    outcome (st_needsClarification S intent) = Returned false ->
    outcome (st_parseDesignIntent S intent) = Returned (inl design) ->
    outcome (st_generateFreeCADCode S design) = Returned script_ ->
    outcome (st_validateScriptSafety S script_) = Returned true ->
    outcome (st_executeScript S script_) = Threw e ->
    StageThrows S intent e
| throws_generateUserFeedback design script_ result :
    outcome (st_needsClarification S intent) = Returned false ->
    outcome (st_parseDesignIntent S intent) = Returned (inl design) ->
    outcome (st_generateFreeCADCode S design) = Returned script_ ->
    outcome (st_validateScriptSafety S script_) = Returned true ->
    outcome (st_executeScript S script_) = Returned result ->
    outcome (st_generateUserFeedback S result) = Threw e ->
    StageThrows S intent e.

(** How far the pipeline got on [intent] when it produced each optional
    field of the payload. *)
Definition ReachedParse (S : Stages) (intent : DesignIntent)
    (design : StructuredDesign) : Prop :=
  outcome (st_needsClarification S intent) = Returned false
  /\ outcome (st_parseDesignIntent S intent) = Returned (inl design).

Definition ReachedGenerate (S : Stages) (intent : DesignIntent)
    (design : StructuredDesign) (script_ : FreeCADScript) : Prop :=
  ReachedParse S intent design
  /\ outcome (st_generateFreeCADCode S design) = Returned script_.

Definition ReachedExecute (S : Stages) (intent : DesignIntent)
    (design : StructuredDesign) (script_ : FreeCADScript)
    (result : ExecutionResult) : Prop :=
  ReachedGenerate S intent design script_
  /\ outcome (st_validateScriptSafety S script_) = Returned true
  /\ outcome (st_executeScript S script_) = Returned result.

(** *** Reading the generated script back *)

(** [[A-Za-z0-9_]]: the characters of a Python identifier. *)
Definition isIdentChar (c : ascii) : bool := Js.isAlnum c || Ascii.eqb c "_"%char.

Definition isIdentifier (s : string) : bool := Js.allChars isIdentChar s.

Definition isLineBreak (c : ascii) : bool := Ascii.eqb c "010"%char.

(** [s] has no line break. *)
Definition singleLine (s : string) : bool :=
  Js.allChars (fun c => negb (isLineBreak c)) s.

(** [code.split("\n")] *)
Fixpoint splitLines (s : string) : list string :=
  match s with
  | EmptyString => [""]
  | String c s' =>
      if isLineBreak c then "" :: splitLines s'
      else match splitLines s' with
           | l :: ls => String c l :: ls
           | [] => [String c ""]
           end
  end.

(** The lines of a script. *)
Definition scriptLines (script_ : FreeCADScript) : list string :=
  splitLines (code script_).

(** The rest of [s] after the prefix [p], when [s] starts with [p]. *)
Fixpoint afterPrefix (p s : string) : option string :=
  match p, s with
  | EmptyString, _ => Some s
  | String a p', String b s' =>
      if Ascii.eqb a b then afterPrefix p' s' else None
  | String _ _, EmptyString => None
  end.

(** The right-hand side of a line of the form [name = value]. *)
Definition assignedValue (line : string) : option string :=
  afterPrefix " = " (dropWhile isIdentChar line).

(** [value] is a call [receiver.method(...] of one of [methods] on a
    receiver accepted by [receiverOk]. *)
Definition isMethodCall (receiverOk : string -> bool) (methods : list string)
    (value : string) : bool :=
  receiverOk (takeWhile isIdentChar value)
  && existsb (fun method =>
                Js.startsWith (dropWhile isIdentChar value)
                              ("." +:+ method +:+ "("))
             methods.

(** A primitive-creation statement: [name = Part.makeBox(...)], and the
    same for the other four makers. *)
Definition isPrimitiveCreation (line : string) : bool :=
  match assignedValue line with
  | Some value =>
      isMethodCall (fun receiver => String.eqb receiver "Part")
        ["makeBox"; "makeSphere"; "makeCylinder"; "makeCone"; "makeTorus"] value
  | None => false
  end.

(** An operation statement: [name = operand.fuse(...)], and the same for
    [cut], [common], [makeFillet] and [makeChamfer]. *)
Definition isOperationStatement (line : string) : bool :=
  match assignedValue line with
  | Some value =>
      isMethodCall (fun _ => true)
        ["fuse"; "cut"; "common"; "makeFillet"; "makeChamfer"] value
  | None => false
  end.

(** Letters, digits, [_], [.] and [-]: the characters of a name or of a
    decimal literal. *)
Definition isTokenChar (c : ascii) : bool :=
  isIdentChar c || Ascii.eqb c "."%char || Ascii.eqb c "-"%char.

Definition isPlainToken (s : string) : bool := Js.allChars isTokenChar s.

(** A value that can be interpolated into the script without adding code:
    a number, [undefined], or a string that is a plain token. *)
Definition cleanValue (v : JsValue) : bool :=
  match v with
  | JStr s => isPlainToken s
  | _ => true
  end.

Definition CleanParameters (m : gmap string JsValue) : Prop :=
  forall k v, m !! k = Some v -> cleanValue v = true.

Definition WellFormedPrimitive (p : PrimitiveShape) : Prop :=
  isIdentifier (p_id p) = true /\ CleanParameters (p_parameters p).

Definition WellFormedOperation (o : Operation) : Prop :=
  Forall (fun t => isIdentifier t = true) (o_targetIds o)
  /\ match o_parameters o with
     | Some m => CleanParameters m
     | None => True
     end.

(** The ids of the design are identifiers and its string parameters are
    plain tokens. *)
Definition WellFormedDesign (design : StructuredDesign) : Prop :=
  Forall WellFormedPrimitive (primitives design)
  /\ Forall WellFormedOperation (operations design).

(** [b] is empty or starts with a character that ends an identifier. *)
Definition stops (b : string) : bool :=
  match b with
  | EmptyString => true
  | String c _ => negb (isIdentChar c)
  end.

(** The creation call of a primitive, after [Part.]. *)
Definition makerCall (primitive : PrimitiveShape) : string :=
  let params := p_parameters primitive in
  match p_type primitive with
  | cube =>
      "makeBox(" +:+ Value.toString (Value.prop params "length") +:+ ", "
        +:+ Value.toString (Value.prop params "width") +:+ ", "
        +:+ Value.toString (Value.prop params "height") +:+ ")"
  | sphere =>
      "makeSphere(" +:+ Value.toString (Value.prop params "radius") +:+ ")"
  | cylinder =>
      "makeCylinder(" +:+ Value.toString (Value.prop params "radius") +:+ ", "
        +:+ Value.toString (Value.prop params "height") +:+ ")"
  | cone =>
      "makeCone(" +:+ Value.toString (Value.prop params "radius1") +:+ ", "
        +:+ Value.toString
              (Value.or (Value.prop params "radius2") (JNum (Number.ofZ 0)))
        +:+ ", " +:+ Value.toString (Value.prop params "height") +:+ ")"
  | torus =>
      "makeTorus(" +:+ Value.toString (Value.prop params "radius1") +:+ ", "
        +:+ Value.toString (Value.prop params "radius2") +:+ ")"
  end.

(** The method call of an operation, after its first target. *)
Definition operationCall (operation : Operation) : string :=
  let targetIds := o_targetIds operation in
  match o_type operation with
  | union => ".fuse(" +:+ Js.join ", " (tail targetIds) +:+ ")"
  | difference => ".cut(" +:+ Js.join ", " (tail targetIds) +:+ ")"
  | intersection => ".common(" +:+ Js.join ", " (tail targetIds) +:+ ")"
  | fillet =>
      ".makeFillet("
        +:+ Value.toString
              (Value.or (Value.optProp (o_parameters operation) "radius")
                        (JNum (Number.ofZ 1)))
        +:+ ", " +:+ firstTarget targetIds +:+ ".Edges)"
  | chamfer =>
      ".makeChamfer("
        +:+ Value.toString
              (Value.or (Value.optProp (o_parameters operation) "distance")
                        (JNum (Number.ofZ 1)))
        +:+ ", " +:+ firstTarget targetIds +:+ ".Edges)"
  end.

Definition rotationStatements (primitive : PrimitiveShape) : list string :=
  match p_rotation primitive with
  | Some rot =>
      [rotationStatement (p_id primitive) "1,0,0" (rot_x rot);
       rotationStatement (p_id primitive) "0,1,0" (rot_y rot);
       rotationStatement (p_id primitive) "0,0,1" (rot_z rot)]
  | None => []
  end.

(** *** Reading calls and transformations back *)

(** [s] without its last character, when that character is [)]. *)
Fixpoint beforeClosing (s : string) : option string :=
  match s with
  | EmptyString => None
  | String c s' =>
      match s' with
      | EmptyString => if Ascii.eqb c ")"%char then Some "" else None
      | String _ _ => String c <$> beforeClosing s'
      end
  end.

(** [s.split(", ")] *)
Fixpoint splitComma (s : string) : list string :=
  match s with
  | EmptyString => [""]
  | String c s' =>
      let pushed :=
        match splitComma s' with
        | word :: words => String c word :: words
        | [] => [String c ""]
        end in
      match s' with
      | String d s'' =>
          if Ascii.eqb c ","%char && Ascii.eqb d " "%char
          then "" :: splitComma s''
          else pushed
      | EmptyString => pushed
      end
  end.

(** The arguments of a call, read from the text that follows its opening
    parenthesis: all of it up to the closing parenthesis that ends the
    line, split at the commas. *)
Definition readArguments (inner : string) : option (list string) :=
  body ← beforeClosing inner;
  Some (if String.eqb body "" then [] else splitComma body).

(** A statement [result = receiver.method(argument, ...)]. *)
Record Call := {
  c_result : string;
  c_receiver : string;
  c_method : string;
  c_arguments : list string
}.

(** Read a line as one call whose value is assigned to a name. *)
Definition readCall (line : string) : option Call :=
  value ← assignedValue line;
  afterReceiver ← afterPrefix "." (dropWhile isIdentChar value);
  inner ← afterPrefix "(" (dropWhile isIdentChar afterReceiver);
  arguments ← readArguments inner;
  Some {| c_result := takeWhile isIdentChar line;
          c_receiver := takeWhile isIdentChar value;
          c_method := takeWhile isIdentChar afterReceiver;
          c_arguments := arguments |}.

(** How many times the character [c] occurs in [s]. *)
Fixpoint occurrences (c : ascii) (s : string) : nat :=
  match s with
  | EmptyString => 0
  | String d s' => (if Ascii.eqb c d then 1 else 0) + occurrences c s'
  end.

(** The method of the modelling kernel that an operation type stands
    for. *)
Definition combinator (t : OperationType) : string :=
  match t with
  | union => "fuse" | difference => "cut" | intersection => "common"
  | fillet => "makeFillet" | chamfer => "makeChamfer"
  end.

(** [s] has no comma. *)
Definition commaFree (s : string) : bool :=
  Js.allChars (fun c => negb (Ascii.eqb c ","%char)) s.

(** An id that can stand in the script as a name. *)
Definition isName (id : string) : bool :=
  isIdentifier id && negb (String.eqb id "").

Inductive Axis := AxisX | AxisY | AxisZ.

(** A statement that moves a shape: [target.translate(Base.Vector(x, y,
    z))], or a rotation [target.rotate(Base.Vector(0,0,0), Base.Vector(d),
    angle)] about the origin, where the direction [d] is one of the three
    axes. *)
Inductive Transform :=
| Translate (target : string) (coordinates : list string)
| Rotate (target : string) (axis : Axis) (angle : string).

Definition readAxis (s : string) : option (Axis * string) :=
  match afterPrefix "1,0,0), " s with
  | Some rest => Some (AxisX, rest)
  | None =>
      match afterPrefix "0,1,0), " s with
      | Some rest => Some (AxisY, rest)
      | None => pair AxisZ <$> afterPrefix "0,0,1), " s
      end
  end.

Definition readTransform (line : string) : option Transform :=
  let target := takeWhile isIdentChar line in
  let call := dropWhile isIdentChar line in
  match afterPrefix ".rotate(Base.Vector(0,0,0), Base.Vector(" call with
  | Some direction =>
      '(axis, rest) ← readAxis direction;
      angle ← beforeClosing rest;
      Some (Rotate target axis angle)
  | None =>
      vector ← afterPrefix ".translate(Base.Vector(" call;
      inner ← beforeClosing vector;
      coordinates ← readArguments inner;
      Some (Translate target coordinates)
  end.

(** The transformations among [lines], in order. *)
Definition readTransforms (lines : list string) : list Transform :=
  omap readTransform lines.

(** What C6 says the script holds for one primitive: the translation when
    a position is given, then, when a rotation is given, the rotations
    about the X, the Y and the Z axis, in that order. *)
Definition expectedTransforms (p : PrimitiveShape) : list Transform :=
  match p_position p with
  | Some pos =>
      [Translate (p_id p)
         [Number.toString (pos_x pos); Number.toString (pos_y pos);
          Number.toString (pos_z pos)]]
  | None => []
  end
  ++ match p_rotation p with
     | Some rot =>
         [Rotate (p_id p) AxisX (Number.toString (rot_x rot));
          Rotate (p_id p) AxisY (Number.toString (rot_y rot));
          Rotate (p_id p) AxisZ (Number.toString (rot_z rot))]
     | None => []
     end.

(** ** Execution engine: connection and rendering *)

(** [connectToFreeCAD]; the defaults of the two arguments are
    [localhost] and [8080]. *)
Definition connectToFreeCAD (host : string) (port : number) : M bool :=
  tryCatch
    (consoleLog
       ("Connecting to FreeCAD at " +:+ host +:+ ":" +:+ Number.toString port
          +:+ "...") "";;
     sleep 500;;
     mret true)
    (fun error =>
       consoleError "Error connecting to FreeCAD:" error;;
       mret false).

(** [renderModel]: the [catch] clause logs and throws the error again. *)
Definition renderModel (objectIds_ : list string) : M string :=
  tryCatch
    (consoleLog "Rendering model for objects:" (Js.join "," objectIds_);;
     sleep 1500;;
     mret "/models/cube-render.png")
    (fun error =>
       consoleError "Error rendering model:" error;;
       throw error).

(** [connectToFreeCADInstance] of the integration module. *)
Definition connectToFreeCADInstance (host : string) (port : number) : M bool :=
  connectToFreeCAD host port.

(** ** Vocabulary of the further properties *)

(** The keywords [parseDesignIntent] recognises. *)
Definition parsedKeywords : list string := ["cube"; "box"; "sphere"; "cylinder"].

(** The units the dimension pattern can capture. *)
Definition unitVocabulary : list string := ["mm"; "cm"; "m"; "inch"; "in"].

(** The first number of the prompt, 10 when it has none. *)
Definition promptSize (p : string) : number :=
  match dimensionMatch p with
  | Some (g1, _) => Number.parseDigits g1
  | None => Number.ofZ 10
  end.

(** The unit that follows the first number of the prompt, [mm] when
    there is none. *)
Definition promptUnit (p : string) : string :=
  match dimensionMatch p with
  | Some (_, Some g2) => g2
  | _ => "mm"
  end.

(** The events of one run of the engine stand-in on [script_]. *)
Definition engineEvents (script_ : FreeCADScript) : list Event :=
  [ConsoleLog "Executing FreeCAD script:" (code script_); Timer 1000].

(** The result of the engine stand-in. *)
Definition mockSuccess : ExecutionResult :=
  {| success := true;
     objectIds := Some ["Object001"; "Object002"];
     errorMessage := None;
     warnings := Some [];
     renderUrl := Some "/models/cube-render.png" |}.

(** [p] contains one of the keywords the parser recognises. *)
Definition hasParsedKeyword (p : string) : bool :=
  existsb (fun keyword => Js.includes p keyword) parsedKeywords.

(** The payload of a pipeline run that executed [script_]. *)
Definition executedPayload (design : StructuredDesign) (script_ : FreeCADScript)
  : Payload :=
  {| structuredDesign := Some design;
     script := Some script_;
     executionResult := Some mockSuccess;
     feedback := generateUserFeedback mockSuccess |}.

(** The payload of a pipeline run that stopped at the safety check. *)
Definition unsafePayload (design : StructuredDesign) (script_ : FreeCADScript)
  : Payload :=
  {| structuredDesign := Some design;
     script := Some script_;
     executionResult := None;
     feedback := unsafeFeedback |}.

(** The metadata [parseDesignIntent] gives a design. *)
Definition parsedMetadata (env : Env) (intent : DesignIntent) : DesignMetadata :=
  {| name := "Design from " +:+ dquote +:+ prompt intent +:+ dquote;
     description := prompt intent;
     author := "MCP User";
     createdAt := nowISO env;
     units := mm |}.

(** A primitive as the parser makes it: a fresh id, no position, no
    rotation. *)
Definition parsedPrimitive (env : Env) (t : PrimitiveType)
    (params : gmap string JsValue) : PrimitiveShape :=
  {| p_id := generateId env; p_type := t; p_parameters := params;
     p_position := None; p_rotation := None |}.

(** [s] is empty or starts with a character that is no digit. *)
Definition endsNumber (s : string) : bool :=
  match s with
  | EmptyString => true
  | String c _ => negb (Js.isDigit c)
  end.

(** *** Scanning a text made of known and unknown pieces *)

(** A text is read as a sequence of segments: a literal, an unknown word
    over a class of characters, or an unknown word that does not contain
    the pattern. While the text is read the set of the lengths [k] such
    that the first [k] characters of the pattern end the text read so far
    is followed, exactly on literals and from above on unknown words. *)
Module Scan.

Inductive Segment :=
| Lit (s : string)
| Cls (A : ascii -> bool) (w : string)
| Free (w : string).

Definition word (seg : Segment) : string :=
  match seg with
  | Lit s => s
  | Cls _ w => w
  | Free w => w
  end.

Definition text (segs : list Segment) : string :=
  fold_right (fun seg rest => word seg +:+ rest) "" segs.

(** What is assumed of the unknown words. *)
Definition valid (pat : string) (seg : Segment) : Prop :=
  match seg with
  | Lit _ => True
  | Cls A w => Js.allChars A w = true
  | Free w => Js.includes w pat = false
  end.

Definition matchesAt (pat : list ascii) (k : nat) (c : ascii) : bool :=
  match nth_error pat k with
  | Some d => Ascii.eqb d c
  | None => false
  end.

Definition inClass (pat : list ascii) (A : ascii -> bool) (k : nat) : bool :=
  match nth_error pat k with
  | Some d => A d
  | None => false
  end.

Definition step (pat : list ascii) (alive : list nat) (c : ascii) : list nat :=
  0 :: map S (List.filter (fun k => matchesAt pat k c) alive).

Definition stepClass (pat : list ascii) (A : ascii -> bool) (alive : list nat)
  : list nat :=
  nodup Nat.eq_dec (alive ++ 0 :: map S (List.filter (inClass pat A) alive)).

Definition accepts (pat : list ascii) (alive : list nat) : bool :=
  existsb (Nat.eqb (List.length pat)) alive.

Definition subset (X Y : list nat) : bool :=
  forallb (fun k => existsb (Nat.eqb k) Y) X.

Fixpoint iterate (n : nat) (f : list nat -> list nat) (x : list nat) : list nat :=
  match n with
  | O => x
  | S n' => iterate n' f (f x)
  end.

Fixpoint runLit (pat : list ascii) (alive : list nat) (l : list ascii)
  : option (list nat) :=
  match l with
  | [] => Some alive
  | c :: l' =>
      let alive' := step pat alive c in
      if accepts pat alive' then None else runLit pat alive' l'
  end.

Definition runSegment (pat : list ascii) (alive : list nat) (seg : Segment)
  : option (list nat) :=
  match seg with
  | Lit s => runLit pat alive (list_ascii_of_string s)
  | Cls A _ =>
      let closed := iterate (S (List.length pat)) (stepClass pat A) alive in
      if subset alive closed && subset (stepClass pat A closed) closed
         && negb (accepts pat closed)
      then Some closed else None
  | Free _ =>
      if subset alive [0] then Some (seq 0 (List.length pat)) else None
  end.

Fixpoint run (pat : list ascii) (alive : list nat) (segs : list Segment) : bool :=
  match segs with
  | [] => true
  | seg :: rest =>
      match runSegment pat alive seg with
      | Some alive' => run pat alive' rest
      | None => false
      end
  end.

(** The pattern is not empty and is found nowhere in a text made of
    [segs], whatever the unknown words are. *)
Definition excludes (pat : string) (segs : list Segment) : bool :=
  match pat with
  | EmptyString => false
  | _ => run (list_ascii_of_string pat) [0] segs
  end.

End Scan.

(** *** The script of a parsed design, piece by piece *)

(** The characters of the text of a number: digits, [.], [-], the [e]
    and [+] of the exponent form, and the letters of [Infinity] and
    [NaN]. *)
Definition isNumberChar (c : ascii) : bool :=
  Js.isDigit c || Js.someChar (Ascii.eqb c) ".-+eInfinityNaN".

(** A piece of a text: known, an unknown word over a class of characters,
    or the unknown sanitized name. *)
Inductive Piece :=
| Known (s : string)
| Word (A : ascii -> bool) (w : string)
| NameWord (w : string).

Definition pieceText (piece : Piece) : string :=
  match piece with
  | Known s => s
  | Word _ w => w
  | NameWord w => w
  end.

Definition piecesText (pieces : list Piece) : string :=
  fold_right (fun piece rest => pieceText piece +:+ rest) "" pieces.

(** The segment of the lower-cased text a piece gives; the name is taken
    either as a word of letters, digits and underscores or as a word that
    does not contain the pattern. *)
Definition lowered (nameIsFree : bool) (piece : Piece) : Scan.Segment :=
  match piece with
  | Known s => Scan.Lit (Js.toLowerCase s)
  | Word A w => Scan.Cls A (Js.toLowerCase w)
  | NameWord w =>
      if nameIsFree then Scan.Free (Js.toLowerCase w)
      else Scan.Cls isIdentChar (Js.toLowerCase w)
  end.

Definition makerName (t : PrimitiveType) : string :=
  match t with
  | cube => "makeBox" | sphere => "makeSphere" | cylinder => "makeCylinder"
  | cone => "makeCone" | torus => "makeTorus"
  end.

(** The arguments of a creation call, comma separated. *)
Fixpoint argumentPieces (args : list string) : list Piece :=
  match args with
  | [] => []
  | [a] => [Word isNumberChar a]
  | a :: rest => Word isNumberChar a :: Known ", " :: argumentPieces rest
  end.

(** The code of the script of a design with the single primitive
    [shape_<chunk>] of type [t], created with the number texts [args],
    without position or rotation, and no operation. *)
Definition parsedScriptPieces (t : PrimitiveType) (chunk : string)
    (args : list string) (sanitized : string) : list Piece :=
  [Known (Js.join newline scriptHeader +:+ newline
            +:+ "# Create " +:+ primitiveTypeName t +:+ newline +:+ "shape_");
   Word Js.isAlnum chunk;
   Known (" = Part." +:+ makerName t +:+ "(")]
  ++ argumentPieces args ++
  [Known (")" +:+ newline
            +:+ "shape_obj = doc.addObject(" +:+ dquote +:+ "Part::Feature"
            +:+ dquote +:+ ", " +:+ dquote
            +:+ Js.capitalize (primitiveTypeName t) +:+ dquote +:+ ")"
            +:+ newline +:+ "shape_obj.Shape = shape_");
   Word Js.isAlnum chunk;
   Known (newline +:+ newline +:+ "# Recompute the document" +:+ newline
            +:+ "doc.recompute()" +:+ newline +:+ newline
            +:+ "# Save the document (optional)" +:+ newline
            +:+ "# doc.saveAs(" +:+ dquote);
   NameWord sanitized;
   Known (".FCStd" +:+ dquote +:+ ")")].

(** The number texts of the creation call the parser gives a shape. *)
Definition parsedArguments (t : PrimitiveType) (size : number) : list string :=
  match t with
  | cube => [Number.toString size; Number.toString size; Number.toString size]
  | sphere => [Number.toString (Number.half size)]
  | cylinder => [Number.toString (Number.half size); Number.toString size]
  | _ => []
  end.

(** * Properties *)

Section StringFacts.

Lemma append_cons (c : ascii) (a b : string) :
  String c a +:+ b = String c (a +:+ b).
Proof. reflexivity. Qed.

Lemma append_nil_l (b : string) : "" +:+ b = b.
Proof. reflexivity. Qed.

Lemma append_assoc (a b c : string) : (a +:+ b) +:+ c = a +:+ (b +:+ c).
Proof.
  induction a as [|x a IH]; [reflexivity|].
  rewrite !append_cons. now rewrite IH.
Qed.

Lemma append_nil_r (a : string) : a +:+ "" = a.
Proof.
  induction a as [|x a IH]; [reflexivity|].
  rewrite append_cons. now rewrite IH.
Qed.

Lemma startsWith_append (p s : string) : Js.startsWith (p +:+ s) p = true.
Proof.
  induction p as [|c p IH]; [reflexivity|].
  rewrite append_cons. cbn [Js.startsWith].
  now rewrite Ascii.eqb_refl, IH.
Qed.

Lemma startsWith_split (p s : string) :
  Js.startsWith s p = true -> exists post, s = p +:+ post.
Proof.
  revert s; induction p as [|c p IH]; intros s H.
  - now exists s.
  - destruct s as [|d s]; cbn [Js.startsWith] in H; [discriminate|].
    apply andb_true_iff in H as [Hc H].
    apply Ascii.eqb_eq in Hc as ->.
    destruct (IH _ H) as [post ->]. now exists post.
Qed.

Lemma includes_startsWith (s pat : string) :
  Js.startsWith s pat = true -> Js.includes s pat = true.
Proof. intros H. destruct s; cbn [Js.includes]; now rewrite H. Qed.

Lemma includes_append (pre pat post : string) :
  Js.includes (pre +:+ pat +:+ post) pat = true.
Proof.
  induction pre as [|c pre IH].
  - rewrite append_nil_l. apply includes_startsWith, startsWith_append.
  - rewrite append_cons. simpl. rewrite IH. apply orb_true_r.
Qed.

Lemma includes_Contains (s pat : string) :
  Js.includes s pat = true <-> Js.Contains s pat.
Proof.
  split.
  - induction s as [|c s IH]; cbn [Js.includes]; intros H.
    + rewrite orb_false_r in H. destruct (startsWith_split _ _ H) as [post E].
      now exists "", post.
    + apply orb_true_iff in H as [H|H].
      * destruct (startsWith_split _ _ H) as [post E]. now exists "", post.
      * destruct (IH H) as (pre & post & ->). now exists (String c pre), post.
  - intros (pre & post & ->). apply includes_append.
Qed.

Lemma toLowerCase_append (a b : string) :
  Js.toLowerCase (a +:+ b) = Js.toLowerCase a +:+ Js.toLowerCase b.
Proof.
  unfold Js.toLowerCase.
  induction a as [|x a IH]; [reflexivity|].
  rewrite append_cons. simpl. now rewrite IH.
Qed.

Lemma toLowerCase_length (a : string) :
  String.length (Js.toLowerCase a) = String.length a.
Proof.
  unfold Js.toLowerCase.
  induction a as [|x a IH]; simpl; [reflexivity | now rewrite IH].
Qed.

End StringFacts.

(** ** C8: formatErrorMessage *)

(** C8. [formatErrorMessage] is a total function on strings, formatting
    twice gives what formatting once gives, and a message that contains
    none of the known engine error substrings is returned unchanged. *)
Theorem formatErrorMessage_idempotent_passthrough :
  (forall m, formatErrorMessage (formatErrorMessage m) = formatErrorMessage m)
  /\ (forall m,
        (forall k, In k knownEngineErrors -> ~ Js.Contains m k) ->
        formatErrorMessage m = m).
Proof.
  split.
  - intros m.
    assert (Hm : formatErrorMessage m =
      if Js.includes m "TopoDS_Shape is null" then
        "The design resulted in an invalid shape. Try simplifying your geometry."
      else if Js.includes m "out of bounds" then
        "One or more parameters are out of the allowed range. Check your dimensions."
      else m) by reflexivity.
    destruct (Js.includes m "TopoDS_Shape is null") eqn:E1;
      [rewrite Hm; reflexivity|].
    destruct (Js.includes m "out of bounds") eqn:E2;
      [rewrite Hm; reflexivity|].
    rewrite Hm. unfold formatErrorMessage. now rewrite E1, E2.
  - intros m H. unfold formatErrorMessage.
    destruct (Js.includes m "TopoDS_Shape is null") eqn:E1.
    { exfalso. apply (H "TopoDS_Shape is null"); [now left|].
      now apply includes_Contains. }
    destruct (Js.includes m "out of bounds") eqn:E2.
    { exfalso. apply (H "out of bounds"); [right; now left|].
      now apply includes_Contains. }
    reflexivity.
Qed.

Lemma formatErrorMessage_idempotent_passthrough_witness :
  formatErrorMessage "Connection refused" = "Connection refused"
  /\ formatErrorMessage (formatErrorMessage "BRep: TopoDS_Shape is null")
     = formatErrorMessage "BRep: TopoDS_Shape is null".
Proof.
  split.
  - apply (proj2 formatErrorMessage_idempotent_passthrough).
    intros k [<-|[<-|[]]] H; apply includes_Contains in H;
      vm_compute in H; discriminate.
  - apply (proj1 formatErrorMessage_idempotent_passthrough).
Defined.

(** ** C1: the safety gate *)

Section SafetyGate.

Lemma lowerChar_idempotent (c : ascii) :
  Js.lowerChar (Js.lowerChar c) = Js.lowerChar c.
Proof. destruct c as [[] [] [] [] [] [] [] []]; reflexivity. Qed.

Lemma toLowerCase_idempotent (s : string) :
  Js.toLowerCase (Js.toLowerCase s) = Js.toLowerCase s.
Proof.
  unfold Js.toLowerCase.
  induction s as [|c s IH]; simpl; [reflexivity|].
  now rewrite lowerChar_idempotent, IH.
Qed.

(** A pattern that occurs in the code in some letter case is found by the
    scan of the lower-cased code. *)
Lemma scan_finds (text pre mid post pattern : string) :
  text = pre +:+ mid +:+ post ->
  Js.toLowerCase mid = pattern ->
  Js.includes (Js.toLowerCase text) (Js.toLowerCase pattern) = true.
Proof.
  intros -> <-.
  rewrite !toLowerCase_append, toLowerCase_idempotent.
  apply includes_append.
Qed.

End SafetyGate.

(** C1. When the code text of a script contains, in any letter case, one
    of the denylisted patterns, [validateScriptSafety] returns false and
    [executeScript] returns the failure result (success false, the
    unsafe-operations error message, one warning) having performed no
    event at all: the engine stand-in is never reached. *)
Theorem unsafe_script_never_executed
    (script_ : FreeCADScript) (pattern pre mid post : string) :
  In pattern dangerousPatterns ->
  code script_ = pre +:+ mid +:+ post ->
  Js.toLowerCase mid = pattern ->
  validateScriptSafety script_ = false
  /\ events (executeScript script_) = []
  /\ exists result ws,
       outcome (executeScript script_) = Returned result
       /\ success result = false
       /\ errorMessage result =
            Some "Script contains potentially unsafe operations and cannot be executed."
       /\ warnings result = Some ws /\ ws <> [].
Proof.
  intros Hin Hcode Hmid.
  assert (Hv : validateScriptSafety script_ = false).
  { unfold validateScriptSafety. apply negb_false_iff, existsb_exists.
    exists pattern. split; [exact Hin|].
    now apply (scan_finds _ pre mid post). }
  split; [exact Hv|].
  unfold executeScript. rewrite Hv. cbn.
  split; [reflexivity|].
  exists unsafeResult, ["Potentially unsafe code detected."].
  repeat split. discriminate.
Qed.

Lemma unsafe_script_never_executed_witness :
  let s := {| code := "x = 1" +:+ newline +:+ "Import OS" +:+ newline;
              imports := []; safeToExecute := true |} in
  In "import os" dangerousPatterns
  /\ validateScriptSafety s = false
  /\ executeScript s = ([], Returned unsafeResult).
Proof.
  intros s.
  assert (Hin : In "import os" dangerousPatterns) by (now left).
  split; [exact Hin|].
  destruct (unsafe_script_never_executed s "import os"
              ("x = 1" +:+ newline) "Import OS" newline Hin
              eq_refl eq_refl) as (H1 & _ & _).
  split; [exact H1 | reflexivity].
Defined.

(** ** C7: execution result to user feedback *)

(** C7 as the code has it. A successful result with no warning gives status
    success, the message [Model created successfully!] and the actions
    [accept]; a successful result with warnings gives status success and
    the actions [accept; modify]; a failed result gives status error and
    the actions [regenerate; modify; clarify], in that order. *)
Theorem generateUserFeedback_mapping (result : ExecutionResult) :
  let fb := generateUserFeedback result in
  match success result, warningCount result with
  | true, O =>
      status fb = StSuccess
      /\ message fb = "Model created successfully!"
      /\ actionTypes fb = Some [accept]
  | true, S _ =>
      status fb = StSuccess
      /\ actionTypes fb = Some [accept; modify]
  | false, _ =>
      status fb = StError
      /\ actionTypes fb = Some [regenerate; modify; clarify]
  end.
Proof.
  destruct result as [ok ids err ws url].
  unfold generateUserFeedback, getSuggestedActionsForSuccess, hasWarnings,
    warningCount, actionTypes; simpl.
  destruct ok; [|now split].
  destruct ws as [[|w ws]|]; simpl; repeat split.
Qed.

(** C7, the claim as stated fails: the message of a success without
    warnings is not the text [creation succeeded]. *)
Lemma generateUserFeedback_message_differs :
  let result := {| success := true; objectIds := None; errorMessage := None;
                   warnings := Some []; renderUrl := None |} in
  ~ (status (generateUserFeedback result) = StSuccess
     /\ message (generateUserFeedback result) = "creation succeeded"
     /\ actionTypes (generateUserFeedback result) = Some [accept]).
Proof. intros result (_ & H & _). vm_compute in H. discriminate. Qed.

(** ** The shape of the generated script *)

Section ScriptShape.

Lemma fold_left_push {A} (f : A -> list string) (l : list A) (acc : list string) :
  fold_left (fun acc x => acc ++ f x) l acc = acc ++ flat_map f l.
Proof.
  revert acc; induction l as [|x l IH]; intros acc; simpl.
  - now rewrite app_nil_r.
  - now rewrite IH, app_assoc.
Qed.

Lemma fold_left_ext {A B} (f g : B -> A -> B) (l : list A) (acc : B) :
  (forall b a, f b a = g b a) -> fold_left f l acc = fold_left g l acc.
Proof.
  intros H; revert acc; induction l as [|x l IH]; intros acc; simpl;
    [reflexivity | now rewrite H, IH].
Qed.

(** The script is the header, one block per primitive, the operations
    section and the footer. *)
Lemma generateCodeLines_blocks (design : StructuredDesign) :
  generateCodeLines design =
    scriptHeader ++ flat_map primitiveBlock (primitives design)
      ++ operationsSection (operations design) ++ scriptFooter design.
Proof.
  unfold generateCodeLines.
  rewrite (fold_left_ext _ (fun acc p => acc ++ primitiveBlock p));
    [|intros b a; unfold primitiveBlock; now rewrite <- !app_assoc].
  rewrite fold_left_push.
  rewrite (fold_left_ext _ (fun acc o => acc ++ operationBlock o));
    [|intros b a; unfold operationBlock; now rewrite <- !app_assoc].
  rewrite fold_left_push.
  fold scriptHeader. fold (scriptFooter design).
  destruct (operations design) as [|o ops]; simpl.
  - now rewrite <- ?app_assoc.
  - rewrite <- ?app_assoc. reflexivity.
Qed.

Lemma primitiveBlock_in_script (design : StructuredDesign) (p : PrimitiveShape) :
  In p (primitives design) ->
  exists before after,
    generateCodeLines design = before ++ generatePrimitiveCode p ++ after.
Proof.
  intros Hin. rewrite generateCodeLines_blocks.
  destruct (in_split _ _ Hin) as (l1 & l2 & ->).
  rewrite flat_map_app. cbn [flat_map].
  assert (E : primitiveBlock p =
    ["# Create " +:+ primitiveTypeName (p_type p)]
      ++ generatePrimitiveCode p ++ [""]) by reflexivity.
  rewrite E.
  exists (scriptHeader ++ flat_map primitiveBlock l1
            ++ ["# Create " +:+ primitiveTypeName (p_type p)]).
  exists ([""] ++ flat_map primitiveBlock l2
            ++ operationsSection (operations design) ++ scriptFooter design).
  rewrite <- ?app_assoc. reflexivity.
Qed.

End ScriptShape.

(** ** C10: the default of fillet and chamfer *)

Lemma prop_lookup (m : gmap string JsValue) (k : string) (v : JsValue) :
  m !! k = Some v -> Value.prop m k = v.
Proof. intros H. unfold Value.prop. now rewrite H. Qed.

Lemma or_zero (zero : number) (d : JsValue) :
  Number.isZero zero = true -> Value.or (JNum zero) d = d.
Proof. intros H. unfold Value.or. cbn [Value.truthy]. now rewrite H. Qed.

(** C10. A fillet whose parameters give [radius] the value 0, and a
    chamfer whose parameters give [distance] the value 0, generate the
    same lines as the operation without parameters: the call is emitted
    with the default value 1.0, which is printed as [1]. *)
Theorem edge_operation_zero_is_default
    (targetIds : list string) (m : gmap string JsValue) (zero : number) :
  Number.isZero zero = true ->
  (m !! "radius" = Some (JNum zero) ->
   generateOperationCode
     {| o_type := fillet; o_targetIds := targetIds; o_parameters := Some m |}
   = generateOperationCode
       {| o_type := fillet; o_targetIds := targetIds; o_parameters := None |}
   /\ operationStatement
        {| o_type := fillet; o_targetIds := targetIds; o_parameters := Some m |}
      = resultName fillet targetIds +:+ " = " +:+ firstTarget targetIds
          +:+ ".makeFillet(1, " +:+ firstTarget targetIds +:+ ".Edges)")
  /\
  (m !! "distance" = Some (JNum zero) ->
   generateOperationCode
     {| o_type := chamfer; o_targetIds := targetIds; o_parameters := Some m |}
   = generateOperationCode
       {| o_type := chamfer; o_targetIds := targetIds; o_parameters := None |}
   /\ operationStatement
        {| o_type := chamfer; o_targetIds := targetIds; o_parameters := Some m |}
      = resultName chamfer targetIds +:+ " = " +:+ firstTarget targetIds
          +:+ ".makeChamfer(1, " +:+ firstTarget targetIds +:+ ".Edges)").
Proof.
  intros Hz.
  split; intros Hm;
    unfold operationStatement, generateOperationCode, resultName;
    cbn [o_type o_targetIds o_parameters operationTypeName];
    unfold Value.optProp; rewrite (prop_lookup _ _ _ Hm), (or_zero _ _ Hz);
    cbn [hd app]; (split; [reflexivity|]);
    rewrite !append_assoc; reflexivity.
Qed.

Lemma edge_operation_zero_is_default_witness :
  generateOperationCode
    {| o_type := fillet; o_targetIds := ["shape_a"];
       o_parameters := Some {[ "radius" := JNum (Number.ofZ 0) ]} |}
  = ["result_fillet_shape_a = shape_a.makeFillet(1, shape_a.Edges)";
     "result_obj = doc.addObject(" +:+ dquote +:+ "Part::Feature" +:+ dquote
       +:+ ", " +:+ dquote +:+ "Fillet" +:+ dquote +:+ ")";
     "result_obj.Shape = result_fillet_shape_a"]
  /\ generateOperationCode
       {| o_type := chamfer; o_targetIds := ["shape_a"];
          o_parameters := Some {[ "distance" := JNum (Number.ofZ 0) ]} |}
     = generateOperationCode
         {| o_type := chamfer; o_targetIds := ["shape_a"];
            o_parameters := None |}.
Proof.
  split.
  - destruct (edge_operation_zero_is_default ["shape_a"]
                {[ "radius" := JNum (Number.ofZ 0) ]} (Number.ofZ 0) eq_refl)
      as [Hf _].
    destruct (Hf eq_refl) as [-> _]. reflexivity.
  - destruct (edge_operation_zero_is_default ["shape_a"]
                {[ "distance" := JNum (Number.ofZ 0) ]} (Number.ofZ 0) eq_refl)
      as [_ Hc].
    exact (proj1 (Hc eq_refl)).
Defined.

(** ** C9: the unit system of a parsed design *)

(** C9. Whenever [parseDesignIntent] returns a design, the units of its
    metadata are [mm]; the design has one primitive, and the unit read from
    the prompt ([mm] when the prompt gives none) is the [unit] entry of
    that primitive's parameters. *)
Theorem parsed_design_units_are_mm
    (env : Env) (intent : DesignIntent) (design : StructuredDesign) :
  outcome (parseDesignIntent env intent) = Returned (inl design) ->
  units (metadata design) = mm
  /\ exists primitive,
       primitives design = [primitive]
       /\ p_parameters primitive !! "unit" =
            Some (JStr match dimensionMatch (Js.toLowerCase (prompt intent)) with
                       | Some (_, Some g2) => g2
                       | _ => "mm"
                       end).
Proof.
  unfold parseDesignIntent, parseBody.
  set (p := Js.toLowerCase (prompt intent)).
  set (u := match dimensionMatch p with Some (_, Some g2) => g2 | _ => "mm" end).
  destruct (Js.includes p "cube" || Js.includes p "box");
    [|destruct (Js.includes p "sphere");
      [|destruct (Js.includes p "cylinder")]];
    cbn; intros H; inversion H; subst; clear H; cbn;
    try (split; [reflexivity|]; eexists; split; [reflexivity|]; reflexivity).
Qed.

Lemma parsed_design_units_are_mm_witness :
  let env := {| randomBase36 := "0.4fzyo82mvyr"; nowISO := "2024-05-01T10:00:00.000Z" |} in
  let intent := {| prompt := "Create a cube with 10cm sides"; contextId := "ctx";
                   constraints := None |} in
  exists design primitive,
    outcome (parseDesignIntent env intent) = Returned (inl design)
    /\ units (metadata design) = mm
    /\ primitives design = [primitive]
    /\ p_parameters primitive !! "unit" = Some (JStr "cm").
Proof.
  intros env intent.
  destruct (outcome (parseDesignIntent env intent)) as [[d|fb]|e] eqn:E;
    try (vm_compute in E; discriminate).
  destruct (parsed_design_units_are_mm env intent d E) as (Hu & p & Hp & Hl).
  exists d, p. repeat split; try assumption.
Defined.

(** ** C3: the clarification gate *)

Section Clarification.

Lemma someChar_Contains (f : ascii -> bool) (s : string) :
  Js.someChar f s = true <->
  exists c, Js.Contains s (String c "") /\ f c = true.
Proof.
  split.
  - induction s as [|c s IH]; simpl; [discriminate|].
    intros H. apply orb_true_iff in H as [H|H].
    + exists c. split; [|exact H]. now exists "", s.
    + destruct (IH H) as (d & (pre & post & ->) & Hd).
      exists d. split; [|exact Hd]. now exists (String c pre), post.
  - intros (d & (pre & post & ->) & Hd).
    induction pre as [|c pre IH].
    + rewrite append_nil_l, append_cons. simpl. now rewrite Hd.
    + rewrite append_cons. simpl. rewrite IH. apply orb_true_r.
Qed.

Lemma hasDimensions_false (p : string) :
  hasDimensions p = false <-> NoDigit p.
Proof.
  unfold hasDimensions, NoDigit. split.
  - intros H c Hc. destruct (Js.isDigit c) eqn:E; [|reflexivity].
    rewrite <- H. symmetry. apply someChar_Contains. now exists c.
  - intros H. destruct (Js.someChar Js.isDigit p) eqn:E; [|reflexivity].
    apply someChar_Contains in E as (c & Hc & Hd).
    now rewrite (H c Hc) in Hd.
Qed.

Lemma hasShapeKeyword_false (p : string) :
  hasShapeKeyword p = false <-> NoShapeKeyword p.
Proof.
  unfold hasShapeKeyword, NoShapeKeyword. split.
  - intros H k Hk Hc. apply includes_Contains in Hc.
    assert (Ht : existsb (fun keyword => Js.includes p keyword) shapeKeywords = true)
      by (apply existsb_exists; now exists k).
    now rewrite H in Ht.
  - intros H.
    destruct (existsb (fun keyword => Js.includes p keyword) shapeKeywords) eqn:E;
      [|reflexivity].
    apply existsb_exists in E as (k & Hk & Hi).
    exfalso. apply (H k Hk). now apply includes_Contains.
Qed.

(** When clarification is needed the pipeline stops at the gate. *)
Lemma pipeline_at_gate (env : Env) (intent : DesignIntent) :
  needsClarification intent = true ->
  processDesignIntent env intent =
    ([], Returned (feedbackOnly
           (clarificationFeedback (generateClarificationQuestions intent)))).
Proof.
  intros H. unfold processDesignIntent, processDesignIntentWith, pipelineBody.
  cbn. rewrite H. reflexivity.
Qed.

End Clarification.

(** C3. When the lower-cased prompt is shorter than 5 characters, or has
    no digit, or has none of the shape keywords, [needsClarification] is
    true and the pipeline returns only a feedback of status clarification
    whose suggested actions are the clarify actions of the questions, in
    order: the shape question exactly when no shape keyword is present,
    then the dimension question exactly when no digit is present. *)
Theorem clarification_for_incomplete_prompt (env : Env) (intent : DesignIntent) :
  let p := Js.toLowerCase (prompt intent) in
  String.length p < 5 \/ NoDigit p \/ NoShapeKeyword p ->
  needsClarification intent = true
  /\ exists questions,
       outcome (processDesignIntent env intent) =
         Returned (feedbackOnly (clarificationFeedback questions))
       /\ status (clarificationFeedback questions) = StClarification
       /\ suggestedActions (clarificationFeedback questions) =
            Some (map clarifyAction questions)
       /\ questions =
            (if hasShapeKeyword p then [] else [shapeQuestion])
              ++ (if hasDimensions p then [] else [dimensionQuestion])
       /\ (In shapeQuestion questions <-> NoShapeKeyword p)
       /\ (In dimensionQuestion questions <-> NoDigit p).
Proof.
  intros p Hyp.
  assert (Hn : needsClarification intent = true).
  { unfold needsClarification. fold p.
    destruct (String.length p <? 5)%nat eqn:El; [reflexivity|].
    destruct (hasShapeKeyword p) eqn:Ek; [|reflexivity].
    destruct (hasDimensions p) eqn:Ed; [|reflexivity].
    exfalso. destruct Hyp as [H|[H|H]].
    - apply Nat.ltb_ge in El. lia.
    - apply hasDimensions_false in H. congruence.
    - apply hasShapeKeyword_false in H. congruence. }
  split; [exact Hn|].
  exists (generateClarificationQuestions intent).
  split; [now rewrite (pipeline_at_gate env intent Hn)|].
  split; [reflexivity|]. split; [reflexivity|].
  unfold generateClarificationQuestions. fold p.
  rewrite <- hasShapeKeyword_false, <- hasDimensions_false.
  destruct (hasShapeKeyword p), (hasDimensions p); cbn;
    (split; [reflexivity|]); split; split;
    try discriminate; try reflexivity; intros H;
    unfold shapeQuestion, dimensionQuestion in *;
    intuition discriminate.
Qed.

Lemma clarification_for_incomplete_prompt_witness :
  let env := {| randomBase36 := "0.4fzyo82mvyr"; nowISO := "2024-05-01T10:00:00.000Z" |} in
  let intent := {| prompt := "Make a cube please"; contextId := "ctx";
                   constraints := None |} in
  NoDigit (Js.toLowerCase (prompt intent))
  /\ needsClarification intent = true
  /\ outcome (processDesignIntent env intent) =
       Returned (feedbackOnly (clarificationFeedback [dimensionQuestion])).
Proof.
  intros env intent.
  assert (Hd : NoDigit (Js.toLowerCase (prompt intent)))
    by (apply hasDimensions_false; reflexivity).
  split; [exact Hd|].
  destruct (clarification_for_incomplete_prompt env intent (or_intror (or_introl Hd)))
    as (Hn & qs & Ho & _ & _ & Hq & _).
  split; [exact Hn|]. rewrite Ho, Hq. reflexivity.
Defined.

(** ** C2: the pipeline boundary *)

Section Boundary.

Variable S : Stages.
Variable intent : DesignIntent.

(** What the [catch] clause of the pipeline returns. *)
Lemma caught (tr : list Event) (e : Thrown) :
  pipelineBody S intent = (tr, Threw e) ->
  outcome (processDesignIntentWith S intent) =
    Returned (feedbackOnly (unexpectedErrorFeedback e)).
Proof. intros H. unfold processDesignIntentWith. now rewrite H. Qed.

Lemma not_caught (tr : list Event) (payload : Payload) :
  pipelineBody S intent = (tr, Returned payload) ->
  outcome (processDesignIntentWith S intent) = Returned payload.
Proof. intros H. unfold processDesignIntentWith. now rewrite H. Qed.

End Boundary.

(** Case analysis on the run of one stage, keeping its outcome. *)
Ltac run_stage m :=
  let tr := fresh "tr" in let r := fresh "r" in let E := fresh "E" in
  destruct m as [tr [r|r]] eqn:E; cbn [outcome snd].

(** Confront what is known of the runs of the stages with a hypothesis on
    their outcomes. *)
Ltac use_runs :=
  repeat match goal with
         | E : ?m = (_, _), H : outcome ?m = _ |- _ =>
             rewrite E in H; cbn [outcome snd] in H;
             first [discriminate H | injection H as H; subst]
         end.

(** Put what is known of the runs of the stages together with the
    hypotheses of a clause, and close the clause when they disagree or
    when they fix the payload. *)
Ltac settle :=
  intros; unfold ReachedExecute, ReachedGenerate, ReachedParse in *;
  repeat match goal with
         | H : _ /\ _ |- _ => destruct H
         | H : outcome (_, _) = _ |- _ => cbn [outcome snd] in H
         | H : ?x = ?x |- _ => clear H
         | H : Threw _ = Threw _ |- _ => injection H as H; subst
         | H : Returned _ = Threw _ |- _ => discriminate H
         | H : Threw _ = Returned _ |- _ => discriminate H
         | H : Returned _ = Returned _ |- _ =>
             first [discriminate H | injection H as H; subst]
         | H : Some _ = Some _ |- _ => injection H as H; subst
         | E : ?m = (_, _), H : outcome ?m = _ |- _ => rewrite E in H
         end;
  try discriminate; try reflexivity.

(** The stages ran as recorded. *)
Ltac reached :=
  unfold ReachedExecute, ReachedGenerate, ReachedParse;
  repeat match goal with
         | E : ?m = (_, _) |- context [?m] => rewrite E
         end;
  now repeat split.

(** C2. Whatever the stages do, [processDesignIntent] returns a payload,
    which always has a feedback. When a stage that is reached throws, the
    payload is the feedback alone: status error with the thrown message
    in the details and the single action regenerate (try again with a
    simpler design). A structured design, a script and an execution result
    are in the payload only if the pipeline parsed, generated and executed
    them, and each of them only together with the earlier ones. And they
    are in the payload as far as the pipeline got: a run stopped at the
    gate or by the parser returns the feedback alone, a run stopped by
    the safety check returns the design and the script with the
    unsafe-code feedback and no execution result, and a run that went
    through returns the design, the script, the execution result and the
    feedback made of that result. *)
Theorem pipeline_contains_exceptions (S : Stages) (intent : DesignIntent) :
  exists payload,
    outcome (processDesignIntentWith S intent) = Returned payload
    /\ (forall e, StageThrows S intent e ->
          payload = feedbackOnly (unexpectedErrorFeedback e)
          /\ status (feedback payload) = StError
          /\ actionTypes (feedback payload) = Some [regenerate])
    /\ (forall design, structuredDesign payload = Some design ->
          ReachedParse S intent design)
    /\ (forall script_, script payload = Some script_ ->
          exists design, structuredDesign payload = Some design
                         /\ ReachedGenerate S intent design script_)
    /\ (forall result, executionResult payload = Some result ->
          exists design script_,
            structuredDesign payload = Some design
            /\ script payload = Some script_
            /\ ReachedExecute S intent design script_ result)
    /\ (forall questions,
          outcome (st_needsClarification S intent) = Returned true ->
          outcome (st_generateClarificationQuestions S intent)
            = Returned questions ->
          payload = feedbackOnly (clarificationFeedback questions))
    /\ (forall parsedFeedback,
          outcome (st_needsClarification S intent) = Returned false ->
          outcome (st_parseDesignIntent S intent)
            = Returned (inr parsedFeedback) ->
          payload = feedbackOnly parsedFeedback)
    /\ (forall design script_,
          ReachedGenerate S intent design script_ ->
          outcome (st_validateScriptSafety S script_) = Returned false ->
          payload = {| structuredDesign := Some design;
                       script := Some script_;
                       executionResult := None;
                       feedback := unsafeFeedback |})
    /\ (forall design script_ result feedback_,
          ReachedExecute S intent design script_ result ->
          outcome (st_generateUserFeedback S result) = Returned feedback_ ->
          payload = {| structuredDesign := Some design;
                       script := Some script_;
                       executionResult := Some result;
                       feedback := feedback_ |}).
Proof.
  destruct (pipelineBody S intent) as [tr [payload|e0]] eqn:Ebody.
  - exists payload. split; [exact (not_caught S intent tr payload Ebody)|].
    revert Ebody. unfold pipelineBody, mbind, M_bind, mret, M_ret.
    destruct (st_needsClarification S intent) as [tr0 [[]|e]] eqn:E0;
      [| |discriminate].
    { destruct (st_generateClarificationQuestions S intent)
        as [tr1 [qs|e]] eqn:E1; [|discriminate].
      intros [= _ <-]. cbn [structuredDesign script executionResult feedbackOnly].
      split; [intros e He; destruct He; settle|].
      repeat split; settle. }
    destruct (st_parseDesignIntent S intent) as [tr1 [[design|fb]|e]] eqn:E1;
      [| |discriminate].
    2:{ intros [= _ <-]. cbn [structuredDesign script executionResult feedbackOnly].
        split; [intros e He; destruct He; settle|].
        repeat split; settle. }
    destruct (st_generateFreeCADCode S design) as [tr2 [script_|e]] eqn:E2;
      [|discriminate].
    destruct (st_validateScriptSafety S script_) as [tr3 [[]|e]] eqn:E3;
      cbn [negb]; [| |discriminate].
    2:{ intros [= _ <-]. cbn [structuredDesign script executionResult].
        split; [intros e He; destruct He; settle|].
        split; [settle; reached|].
        split; [settle; exists design; split; [reflexivity|reached]|].
        repeat split; settle. }
    destruct (st_executeScript S script_) as [tr4 [result|e]] eqn:E4;
      [|discriminate].
    destruct (st_generateUserFeedback S result) as [tr5 [fb|e]] eqn:E5;
      [|discriminate].
    intros [= _ <-]. cbn [structuredDesign script executionResult].
    split; [intros e He; destruct He; settle|].
    split; [settle; reached|].
    split; [settle; exists design; split; [reflexivity|reached]|].
    split; [settle; exists design, script_; repeat split; reached|].
    repeat split; settle.
  - exists (feedbackOnly (unexpectedErrorFeedback e0)).
    split; [exact (caught S intent tr e0 Ebody)|].
    revert Ebody. unfold pipelineBody, mbind, M_bind, mret, M_ret.
    destruct (st_needsClarification S intent) as [tr0 [[]|e]] eqn:E0.
    { destruct (st_generateClarificationQuestions S intent)
        as [tr1 [qs|e]] eqn:E1; [discriminate|].
      intros [= _ <-].
      split; [intros e' He; destruct He; settle; now repeat split|].
      repeat split; settle. }
    2:{ intros [= _ <-].
        split; [intros e' He; destruct He; settle; now repeat split|].
        repeat split; settle. }
    destruct (st_parseDesignIntent S intent) as [tr1 [[design|fb]|e]] eqn:E1;
      [|discriminate|].
    2:{ intros [= _ <-].
        split; [intros e' He; destruct He; settle; now repeat split|].
        repeat split; settle. }
    destruct (st_generateFreeCADCode S design) as [tr2 [script_|e]] eqn:E2.
    2:{ intros [= _ <-].
        split; [intros e' He; destruct He; settle; now repeat split|].
        repeat split; settle. }
    destruct (st_validateScriptSafety S script_) as [tr3 [[]|e]] eqn:E3;
      cbn [negb]; [|discriminate|].
    2:{ intros [= _ <-].
        split; [intros e' He; destruct He; settle; now repeat split|].
        repeat split; settle. }
    destruct (st_executeScript S script_) as [tr4 [result|e]] eqn:E4.
    2:{ intros [= _ <-].
        split; [intros e' He; destruct He; settle; now repeat split|].
        repeat split; settle. }
    destruct (st_generateUserFeedback S result) as [tr5 [fb|e]] eqn:E5;
      [discriminate|].
    intros [= _ <-].
    split; [intros e' He; destruct He; settle; now repeat split|].
    repeat split; settle.
Qed.

Lemma pipeline_contains_exceptions_witness :
  let env := {| randomBase36 := "0.4fzyo82mvyr"; nowISO := "2024-05-01T10:00:00.000Z" |} in
  let S := {| st_needsClarification := st_needsClarification (moduleStages env);
              st_generateClarificationQuestions :=
                st_generateClarificationQuestions (moduleStages env);
              st_parseDesignIntent := st_parseDesignIntent (moduleStages env);
              st_generateFreeCADCode := fun _ => throw (ThrownError "generator failed");
              st_validateScriptSafety := st_validateScriptSafety (moduleStages env);
              st_executeScript := st_executeScript (moduleStages env);
              st_generateUserFeedback := st_generateUserFeedback (moduleStages env) |} in
  let unsafe := {| st_needsClarification := st_needsClarification (moduleStages env);
              st_generateClarificationQuestions :=
                st_generateClarificationQuestions (moduleStages env);
              st_parseDesignIntent := st_parseDesignIntent (moduleStages env);
              st_generateFreeCADCode := st_generateFreeCADCode (moduleStages env);
              st_validateScriptSafety := fun _ => mret false;
              st_executeScript := fun _ => throw ThrownOther;
              st_generateUserFeedback := st_generateUserFeedback (moduleStages env) |} in
  let intent := {| prompt := "a 20mm sphere"; contextId := "ctx"; constraints := None |} in
  StageThrows S intent (ThrownError "generator failed")
  /\ outcome (processDesignIntentWith S intent) =
       Returned (feedbackOnly (unexpectedErrorFeedback (ThrownError "generator failed")))
  /\ (exists design,
        outcome (processDesignIntentWith unsafe intent) =
          Returned {| structuredDesign := Some design;
                      script := Some (generateFreeCADCode design);
                      executionResult := None;
                      feedback := unsafeFeedback |})
  /\ (exists design,
        outcome (processDesignIntentWith (moduleStages env) intent) =
          Returned {| structuredDesign := Some design;
                      script := Some (generateFreeCADCode design);
                      executionResult := Some mockSuccess;
                      feedback := generateUserFeedback mockSuccess |}).
Proof.
  intros env S unsafe intent.
  assert (Ht : StageThrows S intent (ThrownError "generator failed")).
  { eapply throws_generateFreeCADCode; reflexivity. }
  split; [exact Ht|]. split; [|split].
  - destruct (pipeline_contains_exceptions S intent) as (payload & Hout & Hthrow & _).
    destruct (Hthrow _ Ht) as [<- _]. exact Hout.
  - destruct (outcome (parseDesignIntent env intent)) as [[d|fb]|e] eqn:E;
      try (vm_compute in E; discriminate).
    exists d.
    destruct (pipeline_contains_exceptions unsafe intent)
      as (payload & Hout & _ & _ & _ & _ & _ & _ & Hunsafe & _).
    rewrite Hout. f_equal.
    apply Hunsafe; [|reflexivity].
    repeat split; try reflexivity; exact E.
  - destruct (outcome (parseDesignIntent env intent)) as [[d|fb]|e] eqn:E;
      try (vm_compute in E; discriminate).
    exists d.
    destruct (pipeline_contains_exceptions (moduleStages env) intent)
      as (payload & Hout & _ & _ & _ & _ & _ & _ & _ & Hdone).
    rewrite Hout. f_equal.
    apply Hdone; [|reflexivity].
    assert (Ed := E). vm_compute in Ed. injection Ed as Ed.
    unfold ReachedExecute, ReachedGenerate, ReachedParse.
    repeat split;
      first [exact E | rewrite <- Ed; vm_compute; reflexivity].
Defined.

(** ** C4: reading the script back *)

Section Characters.

Variable p : ascii -> bool.

Lemma allChars_append (a b : string) :
  Js.allChars p (a +:+ b) = Js.allChars p a && Js.allChars p b.
Proof.
  induction a as [|c a IH]; [reflexivity|].
  rewrite append_cons. simpl. now rewrite IH, andb_assoc.
Qed.

Lemma allChars_reverse (s : string) :
  Js.allChars p (Js.reverse s) = Js.allChars p s.
Proof.
  induction s as [|c s IH]; [reflexivity|].
  cbn [Js.reverse]. rewrite allChars_append, IH.
  cbn [Js.allChars]. rewrite andb_true_r. apply andb_comm.
Qed.

Lemma allChars_join (sep : string) (xs : list string) :
  Js.allChars p sep = true ->
  Forall (fun x => Js.allChars p x = true) xs ->
  Js.allChars p (Js.join sep xs) = true.
Proof.
  intros Hsep. induction 1 as [|x xs Hx Hxs IH]; [reflexivity|].
  destruct xs as [|y ys]; [exact Hx|].
  change (Js.join sep (x :: y :: ys)) with (x +:+ sep +:+ Js.join sep (y :: ys)).
  now rewrite !allChars_append, Hx, Hsep, IH.
Qed.

Lemma allChars_impl (q : ascii -> bool) (s : string) :
  (forall c, p c = true -> q c = true) ->
  Js.allChars p s = true -> Js.allChars q s = true.
Proof.
  intros Hpq. induction s as [|c s IH]; simpl; [reflexivity|].
  intros H. apply andb_true_iff in H as [Hc Hs].
  now rewrite (Hpq c Hc), (IH Hs).
Qed.

Lemma allChars_mapChars (f : ascii -> ascii) (s : string) :
  (forall c, p (f c) = true) -> Js.allChars p (Js.mapChars f s) = true.
Proof.
  intros H. induction s as [|c s IH]; simpl; [reflexivity|].
  now rewrite H, IH.
Qed.

End Characters.

(** ** The text of a number *)

Section TextOfNumbers.

Lemma allChars_substring (A : ascii -> bool) (n m : nat) (s : string) :
  Js.allChars A s = true -> Js.allChars A (String.substring n m s) = true.
Proof.
  revert n m. induction s as [|c s IH]; intros n m H.
  - destruct n, m; reflexivity.
  - cbn [Js.allChars] in H. apply andb_true_iff in H as [Hc Hs].
    destruct n as [|n].
    + destruct m as [|m]; [reflexivity|].
      cbn [String.substring Js.allChars]. now rewrite Hc, (IH 0%nat m Hs).
    + cbn [String.substring]. exact (IH n m Hs).
Qed.

Lemma numberChars_uint (u : Decimal.uint) :
  Js.allChars isNumberChar (NilEmpty.string_of_uint u) = true.
Proof. induction u; cbn; auto. Qed.

Lemma numberChars_digits (n : N) :
  Js.allChars isNumberChar (Number.digits n) = true.
Proof.
  unfold Number.digits, NilZero.string_of_uint.
  destruct (N.to_uint n) eqn:E; try reflexivity;
    rewrite <- E; apply numberChars_uint.
Qed.

Lemma numberChars_zeros (k : nat) :
  Js.allChars isNumberChar (Number.zeros k) = true.
Proof. induction k; cbn; auto. Qed.

Lemma numberChars_layout (sh : Number.Shortest) :
  Js.allChars isNumberChar (Number.layout sh) = true.
Proof.
  unfold Number.layout.
  set (digs := Number.digits _).
  assert (Hd : Js.allChars isNumberChar digs = true)
    by apply numberChars_digits.
  assert (Hs : forall n m,
             Js.allChars isNumberChar (String.substring n m digs) = true)
    by (intros; now apply allChars_substring).
  repeat match goal with
         | |- context [if ?b then _ else _] => destruct b
         end;
    rewrite ?allChars_append, ?Hd, ?Hs, ?numberChars_zeros,
      ?numberChars_digits; reflexivity.
Qed.

(** The text of a number is made of digits, [.], [-], [+], [e] and the
    letters of [Infinity] and [NaN]. *)
Lemma numberChars_toString (n : number) :
  Js.allChars isNumberChar (Number.toString n) = true.
Proof.
  destruct n as [s|s| |s m e]; cbn [Number.toString];
    try (destruct s; reflexivity); try reflexivity.
  rewrite allChars_append, numberChars_layout. now destruct s.
Qed.

End TextOfNumbers.

Section SingleLines.

Lemma identifier_singleLine (s : string) :
  isIdentifier s = true -> singleLine s = true.
Proof.
  apply allChars_impl. intros c.
  destruct c as [[] [] [] [] [] [] [] []]; vm_compute; congruence.
Qed.

Lemma singleLine_append (a b : string) :
  singleLine (a +:+ b) = singleLine a && singleLine b.
Proof. apply allChars_append. Qed.

Lemma singleLine_digits (n : N) : singleLine (Number.digits n) = true.
Proof.
  apply (allChars_impl isNumberChar); [|apply numberChars_digits].
  intros c. destruct c as [[] [] [] [] [] [] [] []]; vm_compute; congruence.
Qed.

Lemma singleLine_number (n : number) : singleLine (Number.toString n) = true.
Proof.
  apply (allChars_impl isNumberChar); [|apply numberChars_toString].
  intros c. destruct c as [[] [] [] [] [] [] [] []]; vm_compute; congruence.
Qed.

Lemma plainToken_singleLine (s : string) :
  isPlainToken s = true -> singleLine s = true.
Proof.
  apply allChars_impl. intros c.
  destruct c as [[] [] [] [] [] [] [] []]; vm_compute; congruence.
Qed.

Lemma singleLine_value (v : JsValue) :
  cleanValue v = true -> singleLine (Value.toString v) = true.
Proof.
  destruct v; simpl; auto using singleLine_number, plainToken_singleLine.
Qed.

Lemma cleanValue_prop (m : gmap string JsValue) (k : string) :
  CleanParameters m -> cleanValue (Value.prop m k) = true.
Proof.
  intros H. unfold Value.prop.
  destruct (m !! k) as [v|] eqn:E; [exact (H k v E) | reflexivity].
Qed.

Lemma cleanValue_or (v d : JsValue) :
  cleanValue v = true -> cleanValue d = true -> cleanValue (Value.or v d) = true.
Proof. intros Hv Hd. unfold Value.or. now destruct (Value.truthy v). Qed.

Lemma singleLine_sanitizeName (s : string) : singleLine (sanitizeName s) = true.
Proof.
  apply allChars_mapChars. intros c.
  destruct c as [[] [] [] [] [] [] [] []]; reflexivity.
Qed.

Lemma singleLine_join (sep : string) (xs : list string) :
  singleLine sep = true ->
  Forall (fun x => isIdentifier x = true) xs ->
  singleLine (Js.join sep xs) = true.
Proof.
  intros Hsep Hxs. apply allChars_join; [exact Hsep|].
  eapply Forall_impl; [exact Hxs|]. intros x. apply identifier_singleLine.
Qed.

(** Splitting undoes joining when no line has a line break. *)
Lemma splitLines_singleLine (a : string) :
  singleLine a = true -> splitLines a = [a].
Proof.
  induction a as [|c a IH]; [reflexivity|].
  unfold singleLine. cbn [Js.allChars]. intros H.
  apply andb_true_iff in H as [Hc Ha].
  apply negb_true_iff in Hc. cbn [splitLines].
  rewrite Hc, (IH Ha). reflexivity.
Qed.

Lemma splitLines_append (a rest : string) :
  singleLine a = true ->
  splitLines (a +:+ newline +:+ rest) = a :: splitLines rest.
Proof.
  induction a as [|c a IH]; [reflexivity|].
  unfold singleLine. cbn [Js.allChars]. intros H.
  apply andb_true_iff in H as [Hc Ha].
  apply negb_true_iff in Hc. rewrite append_cons. cbn [splitLines].
  rewrite Hc, (IH Ha). reflexivity.
Qed.

Lemma splitLines_join (lines : list string) :
  lines <> [] ->
  Forall (fun l => singleLine l = true) lines ->
  splitLines (Js.join newline lines) = lines.
Proof.
  intros Hne H. induction H as [|l lines Hl Hls IH]; [congruence|].
  destruct lines as [|l' lines'].
  - now apply splitLines_singleLine.
  - change (Js.join newline (l :: l' :: lines'))
      with (l +:+ newline +:+ Js.join newline (l' :: lines')).
    rewrite (splitLines_append _ _ Hl), IH; [reflexivity | discriminate].
Qed.

End SingleLines.

Section Statements.

(** The lines of a primitive and of an operation, statement by statement. *)
Lemma generatePrimitiveCode_statements (p : PrimitiveShape) :
  generatePrimitiveCode p =
    creationStatement p
      :: translationStatements p ++ rotationStatements p
      ++ bindingStatements "shape_obj"
           (Js.capitalize (primitiveTypeName (p_type p))) (p_id p).
Proof.
  unfold creationStatement, translationStatements, rotationStatements,
    generatePrimitiveCode.
  destruct (p_type p), (p_position p), (p_rotation p); reflexivity.
Qed.

Lemma creationStatement_call (p : PrimitiveShape) :
  creationStatement p = p_id p +:+ " = Part." +:+ makerCall p.
Proof.
  unfold creationStatement, generatePrimitiveCode, makerCall.
  destruct (p_type p), (p_position p), (p_rotation p); reflexivity.
Qed.

Lemma generateOperationCode_statements (o : Operation) :
  generateOperationCode o =
    operationStatement o
      :: bindingStatements "result_obj"
           (Js.capitalize (operationTypeName (o_type o)))
           (resultName (o_type o) (o_targetIds o)).
Proof.
  unfold operationStatement, generateOperationCode.
  destruct (o_type o); reflexivity.
Qed.

Lemma operationStatement_call (o : Operation) :
  operationStatement o =
    resultName (o_type o) (o_targetIds o) +:+ " = "
      +:+ firstTarget (o_targetIds o) +:+ operationCall o.
Proof.
  unfold operationStatement, generateOperationCode, operationCall, resultName.
  destruct (o_type o); cbn [hd app]; rewrite !append_assoc; reflexivity.
Qed.

End Statements.

Section Tokens.

Lemma dropWhile_identifier (a b : string) :
  isIdentifier a = true -> stops b = true ->
  dropWhile isIdentChar (a +:+ b) = b.
Proof.
  intros Ha Hb. induction a as [|c a IH].
  - rewrite append_nil_l. destruct b as [|d b]; [reflexivity|].
    cbn [stops] in Hb. apply negb_true_iff in Hb.
    cbn [dropWhile]. now rewrite Hb.
  - unfold isIdentifier in Ha. cbn [Js.allChars] in Ha.
    apply andb_true_iff in Ha as [Hc Ha].
    rewrite append_cons. cbn [dropWhile]. rewrite Hc. exact (IH Ha).
Qed.

Lemma takeWhile_identifier (a b : string) :
  isIdentifier a = true -> stops b = true ->
  takeWhile isIdentChar (a +:+ b) = a.
Proof.
  intros Ha Hb. induction a as [|c a IH].
  - rewrite append_nil_l. destruct b as [|d b]; [reflexivity|].
    cbn [stops] in Hb. apply negb_true_iff in Hb.
    cbn [takeWhile]. now rewrite Hb.
  - unfold isIdentifier in Ha. cbn [Js.allChars] in Ha.
    apply andb_true_iff in Ha as [Hc Ha].
    rewrite append_cons. cbn [takeWhile]. rewrite Hc. now rewrite (IH Ha).
Qed.

Lemma assignedValue_target (a b : string) :
  isIdentifier a = true -> stops b = true ->
  assignedValue (a +:+ b) = afterPrefix " = " b.
Proof.
  intros Ha Hb. unfold assignedValue. now rewrite dropWhile_identifier.
Qed.

Lemma isMethodCall_receiver (ok : string -> bool) (methods : list string)
    (a b : string) :
  isIdentifier a = true -> stops b = true ->
  isMethodCall ok methods (a +:+ b) =
    ok a && existsb (fun method => Js.startsWith b ("." +:+ method +:+ "("))
                    methods.
Proof.
  intros Ha Hb. unfold isMethodCall.
  now rewrite dropWhile_identifier, takeWhile_identifier.
Qed.

Lemma isIdentifier_join (xs : list string) :
  Forall (fun t => isIdentifier t = true) xs ->
  isIdentifier (Js.join "_" xs) = true.
Proof. intros H. now apply allChars_join. Qed.

Lemma isIdentifier_resultName (t : OperationType) (xs : list string) :
  Forall (fun t => isIdentifier t = true) xs ->
  isIdentifier (resultName t xs) = true.
Proof.
  intros H. unfold resultName, isIdentifier.
  rewrite !allChars_append. fold (isIdentifier (Js.join "_" xs)).
  rewrite (isIdentifier_join xs H). now destruct t.
Qed.

Lemma isIdentifier_firstTarget (xs : list string) :
  Forall (fun t => isIdentifier t = true) xs ->
  isIdentifier (firstTarget xs) = true.
Proof. intros H. destruct H; [reflexivity | assumption]. Qed.

End Tokens.

Section Recognizers.

Lemma afterPrefix_append (p s : string) : afterPrefix p (p +:+ s) = Some s.
Proof.
  induction p as [|c p IH]; [reflexivity|].
  rewrite append_cons. cbn [afterPrefix]. now rewrite Ascii.eqb_refl.
Qed.

(** A line whose leading identifier is not followed by [ = ] is no
    statement of either kind. *)
Lemma not_assignment (a b : string) :
  isIdentifier a = true -> stops b = true -> afterPrefix " = " b = None ->
  isPrimitiveCreation (a +:+ b) = false
  /\ isOperationStatement (a +:+ b) = false.
Proof.
  intros Ha Hb Hn. unfold isPrimitiveCreation, isOperationStatement.
  now rewrite (assignedValue_target a b Ha Hb), Hn.
Qed.

Lemma creationStatement_recognized (p : PrimitiveShape) :
  isIdentifier (p_id p) = true ->
  isPrimitiveCreation (creationStatement p) = true
  /\ isOperationStatement (creationStatement p) = false.
Proof.
  intros Hid. rewrite creationStatement_call.
  unfold isPrimitiveCreation, isOperationStatement.
  rewrite (assignedValue_target (p_id p) (" = Part." +:+ makerCall p)
             Hid eq_refl).
  unfold makerCall. destruct (p_type p); split; reflexivity.
Qed.

Lemma operationStatement_recognized (o : Operation) :
  Forall (fun t => isIdentifier t = true) (o_targetIds o) ->
  isPrimitiveCreation (operationStatement o) = false
  /\ isOperationStatement (operationStatement o) = true.
Proof.
  intros Hids. rewrite operationStatement_call.
  unfold isPrimitiveCreation, isOperationStatement.
  rewrite (assignedValue_target (resultName (o_type o) (o_targetIds o))
             (" = " +:+ firstTarget (o_targetIds o) +:+ operationCall o)
             (isIdentifier_resultName (o_type o) _ Hids) eq_refl).
  rewrite afterPrefix_append.
  assert (Hs : stops (operationCall o) = true)
    by (unfold operationCall; destruct (o_type o); reflexivity).
  rewrite !(isMethodCall_receiver _ _ _ _
              (isIdentifier_firstTarget _ Hids) Hs).
  unfold operationCall. split.
  - apply andb_false_iff. right. destruct (o_type o); reflexivity.
  - destruct (o_type o); reflexivity.
Qed.

Lemma translationStatements_none (p : PrimitiveShape) :
  isIdentifier (p_id p) = true ->
  List.filter isPrimitiveCreation (translationStatements p) = []
  /\ List.filter isOperationStatement (translationStatements p) = [].
Proof.
  intros Hid. unfold translationStatements.
  destruct (p_position p) as [pos|]; [|now split].
  cbn [List.filter].
  destruct (not_assignment (p_id p)
              (".translate(Base.Vector(" +:+ Number.toString (pos_x pos)
                 +:+ ", " +:+ Number.toString (pos_y pos) +:+ ", "
                 +:+ Number.toString (pos_z pos) +:+ "))")
              Hid eq_refl eq_refl) as [-> ->].
  now split.
Qed.

Lemma rotationStatement_none (varName axis : string) (angle : number) :
  isIdentifier varName = true ->
  isPrimitiveCreation (rotationStatement varName axis angle) = false
  /\ isOperationStatement (rotationStatement varName axis angle) = false.
Proof.
  intros Hid. unfold rotationStatement.
  exact (not_assignment varName
           (".rotate(Base.Vector(0,0,0), Base.Vector(" +:+ axis +:+ "), "
              +:+ Number.toString angle +:+ ")")
           Hid eq_refl eq_refl).
Qed.

Lemma rotationStatements_none (p : PrimitiveShape) :
  isIdentifier (p_id p) = true ->
  List.filter isPrimitiveCreation (rotationStatements p) = []
  /\ List.filter isOperationStatement (rotationStatements p) = [].
Proof.
  intros Hid. unfold rotationStatements.
  destruct (p_rotation p) as [rot|]; [|now split].
  cbn [List.filter].
  destruct (rotationStatement_none (p_id p) "1,0,0" (rot_x rot) Hid) as [-> ->].
  destruct (rotationStatement_none (p_id p) "0,1,0" (rot_y rot) Hid) as [-> ->].
  destruct (rotationStatement_none (p_id p) "0,0,1" (rot_z rot) Hid) as [-> ->].
  now split.
Qed.

Lemma bindingStatements_none (kind value : string) :
  (List.filter isPrimitiveCreation (bindingStatements "shape_obj" kind value) = []
   /\ List.filter isOperationStatement (bindingStatements "shape_obj" kind value) = [])
  /\ (List.filter isPrimitiveCreation (bindingStatements "result_obj" kind value) = []
      /\ List.filter isOperationStatement (bindingStatements "result_obj" kind value) = []).
Proof. repeat split; reflexivity. Qed.

End Recognizers.

Section Blocks.

Lemma filter_flat_map {A} (f : string -> bool) (g : A -> list string)
    (h : A -> list string) (l : list A) :
  Forall (fun x => List.filter f (g x) = h x) l ->
  List.filter f (flat_map g l) = flat_map h l.
Proof.
  induction 1 as [|x l Hx Hl IH]; [reflexivity|].
  cbn [flat_map]. now rewrite List.filter_app, Hx, IH.
Qed.

Lemma flat_map_singleton {A B} (f : A -> B) (l : list A) :
  flat_map (fun x => [f x]) l = map f l.
Proof. induction l as [|x l IH]; [reflexivity|]. cbn. now rewrite IH. Qed.

Lemma flat_map_nil {A B} (l : list A) :
  flat_map (fun _ => @nil B) l = [].
Proof. induction l as [|x l IH]; [reflexivity|]. exact IH. Qed.

Lemma primitiveBlock_statements (p : PrimitiveShape) :
  WellFormedPrimitive p ->
  List.filter isPrimitiveCreation (primitiveBlock p) = [creationStatement p]
  /\ List.filter isOperationStatement (primitiveBlock p) = [].
Proof.
  intros [Hid _]. unfold primitiveBlock.
  rewrite generatePrimitiveCode_statements.
  destruct (creationStatement_recognized p Hid) as [Hc Ho].
  destruct (translationStatements_none p Hid) as [Ht1 Ht2].
  destruct (rotationStatements_none p Hid) as [Hr1 Hr2].
  destruct (bindingStatements_none
              (Js.capitalize (primitiveTypeName (p_type p))) (p_id p))
    as [[Hb1 Hb2] _].
  split.
  - rewrite !List.filter_app. cbn [List.filter].
    rewrite Hc, !List.filter_app, Ht1, Hr1, Hb1. reflexivity.
  - rewrite !List.filter_app. cbn [List.filter].
    rewrite Ho, !List.filter_app, Ht2, Hr2, Hb2. reflexivity.
Qed.

Lemma operationBlock_statements (o : Operation) :
  WellFormedOperation o ->
  List.filter isPrimitiveCreation (operationBlock o) = []
  /\ List.filter isOperationStatement (operationBlock o) = [operationStatement o].
Proof.
  intros [Hids _]. unfold operationBlock.
  rewrite generateOperationCode_statements.
  destruct (operationStatement_recognized o Hids) as [Hc Ho].
  destruct (bindingStatements_none
              (Js.capitalize (operationTypeName (o_type o)))
              (resultName (o_type o) (o_targetIds o)))
    as [_ [Hb1 Hb2]].
  split.
  - rewrite List.filter_app. cbn [List.filter].
    rewrite Hc, Hb1. reflexivity.
  - rewrite List.filter_app. cbn [List.filter].
    rewrite Ho, Hb2. reflexivity.
Qed.

(** The statements of the two kinds among the lines pushed by the
    generator. *)
Lemma generateCodeLines_statements (design : StructuredDesign) :
  WellFormedDesign design ->
  List.filter isPrimitiveCreation (generateCodeLines design)
    = map creationStatement (primitives design)
  /\ List.filter isOperationStatement (generateCodeLines design)
     = map operationStatement (operations design).
Proof.
  intros [Hp Ho]. rewrite generateCodeLines_blocks.
  assert (Hp1 : List.filter isPrimitiveCreation
                  (flat_map primitiveBlock (primitives design))
                = map creationStatement (primitives design)).
  { rewrite <- flat_map_singleton. apply filter_flat_map.
    eapply Forall_impl; [exact Hp|]. intros p Hwf.
    apply (primitiveBlock_statements p Hwf). }
  assert (Hp2 : List.filter isOperationStatement
                  (flat_map primitiveBlock (primitives design)) = []).
  { rewrite <- (flat_map_nil (primitives design)). apply filter_flat_map.
    eapply Forall_impl; [exact Hp|]. intros p Hwf.
    apply (primitiveBlock_statements p Hwf). }
  assert (Ho1 : List.filter isPrimitiveCreation
                  (operationsSection (operations design)) = []).
  { unfold operationsSection. destruct (operations design) as [|o ops] eqn:E;
      [reflexivity|].
    cbn [List.filter].
    replace (isPrimitiveCreation "# Apply operations") with false by reflexivity.
    rewrite <- (flat_map_nil (o :: ops)). apply filter_flat_map.
    eapply Forall_impl; [exact Ho|]. intros o' Hwf.
    apply (operationBlock_statements o' Hwf). }
  assert (Ho2 : List.filter isOperationStatement
                  (operationsSection (operations design))
                = map operationStatement (operations design)).
  { unfold operationsSection. destruct (operations design) as [|o ops] eqn:E;
      [reflexivity|].
    cbn [List.filter].
    replace (isOperationStatement "# Apply operations") with false by reflexivity.
    rewrite <- flat_map_singleton. apply filter_flat_map.
    eapply Forall_impl; [exact Ho|]. intros o' Hwf.
    apply (operationBlock_statements o' Hwf). }
  split.
  - rewrite !List.filter_app, Hp1, Ho1, app_nil_r. reflexivity.
  - rewrite !List.filter_app, Hp2, Ho2. cbn [app].
    rewrite app_nil_r. reflexivity.
Qed.

End Blocks.

Create HintDb lines.

Section LinesOfTheScript.

Local Hint Resolve singleLine_number singleLine_value cleanValue_prop
  cleanValue_or identifier_singleLine singleLine_sanitizeName : lines.

(** Split a goal [singleLine (a +:+ b +:+ ...) = true] into its pieces. *)
Ltac pieces :=
  rewrite ?singleLine_append;
  repeat (apply andb_true_intro; split);
  try reflexivity; auto 6 with lines.

Lemma generatePrimitiveCode_singleLine (p : PrimitiveShape) :
  WellFormedPrimitive p ->
  Forall (fun l => singleLine l = true) (generatePrimitiveCode p).
Proof.
  intros [Hid Hpar].
  rewrite generatePrimitiveCode_statements, creationStatement_call.
  unfold makerCall, translationStatements, rotationStatements,
    rotationStatement, bindingStatements.
  destruct (p_type p), (p_position p), (p_rotation p);
    repeat constructor; pieces.
Qed.

Lemma operationCall_singleLine (o : Operation) :
  WellFormedOperation o -> singleLine (operationCall o) = true.
Proof.
  intros [Hids Hpar]. unfold operationCall.
  assert (Hj : singleLine (Js.join ", " (tail (o_targetIds o))) = true).
  { apply singleLine_join; [reflexivity|].
    destruct Hids; [constructor | assumption]. }
  assert (Hf := identifier_singleLine _ (isIdentifier_firstTarget _ Hids)).
  assert (Hv : forall k d, cleanValue d = true ->
            singleLine (Value.toString
              (Value.or (Value.optProp (o_parameters o) k) d)) = true).
  { intros k d Hd. apply singleLine_value, cleanValue_or; [|exact Hd].
    unfold Value.optProp. destruct (o_parameters o); auto with lines. }
  destruct (o_type o); pieces.
Qed.

Lemma generateOperationCode_singleLine (o : Operation) :
  WellFormedOperation o ->
  Forall (fun l => singleLine l = true) (generateOperationCode o).
Proof.
  intros Hwf.
  assert (Hc := operationCall_singleLine o Hwf).
  destruct Hwf as [Hids _].
  assert (Hr := identifier_singleLine _
                  (isIdentifier_resultName (o_type o) _ Hids)).
  assert (Hf := identifier_singleLine _ (isIdentifier_firstTarget _ Hids)).
  rewrite generateOperationCode_statements, operationStatement_call.
  unfold bindingStatements.
  destruct (o_type o); repeat constructor; pieces.
Qed.

Lemma Forall_flat_map {A B} (P : B -> Prop) (f : A -> list B) (l : list A) :
  (forall x, In x l -> Forall P (f x)) -> Forall P (flat_map f l).
Proof.
  induction l as [|x l IH]; intros H; [constructor|].
  cbn [flat_map]. apply Forall_app. split.
  - apply H. now left.
  - apply IH. intros y Hy. apply H. now right.
Qed.

Lemma generateCodeLines_singleLine (design : StructuredDesign) :
  WellFormedDesign design ->
  Forall (fun l => singleLine l = true) (generateCodeLines design).
Proof.
  intros [Hp Ho]. rewrite generateCodeLines_blocks.
  rewrite List.Forall_forall in Hp, Ho.
  apply Forall_app. split; [repeat constructor|].
  apply Forall_app. split.
  { apply Forall_flat_map. intros p Hin. unfold primitiveBlock.
    apply Forall_app. split; [|apply Forall_app; split].
    - constructor; [|constructor]. now destruct (p_type p).
    - apply generatePrimitiveCode_singleLine, Hp, Hin.
    - repeat constructor. }
  apply Forall_app. split.
  { unfold operationsSection. destruct (operations design) as [|o ops] eqn:E;
      [constructor|].
    constructor; [reflexivity|].
    apply Forall_flat_map. intros o' Hin. unfold operationBlock.
    apply Forall_app. split.
    - apply generateOperationCode_singleLine, Ho, Hin.
    - repeat constructor. }
  unfold scriptFooter. repeat constructor. pieces.
Qed.

Lemma generateCodeLines_nonempty (design : StructuredDesign) :
  generateCodeLines design <> [].
Proof. rewrite generateCodeLines_blocks. discriminate. Qed.

(** Under well-formedness the lines of the script text are the lines the
    generator pushed. *)
Lemma scriptLines_generateFreeCADCode (design : StructuredDesign) :
  WellFormedDesign design ->
  scriptLines (generateFreeCADCode design) = generateCodeLines design.
Proof.
  intros Hwf. unfold scriptLines, generateFreeCADCode. cbn [code].
  apply splitLines_join;
    [apply generateCodeLines_nonempty | now apply generateCodeLines_singleLine].
Qed.

End LinesOfTheScript.

(** ** The designs the parser produces *)

Section ParsedDesigns.

Lemma promptUnit_plainToken (p : string) :
  isPlainToken match dimensionMatch p with
             | Some (_, Some g2) => g2
             | _ => "mm"
             end = true.
Proof.
  unfold dimensionMatch.
  destruct (dropWhile (fun c => negb (Js.isDigit c)) p) as [|c rest];
    [reflexivity|].
  unfold matchUnit.
  repeat match goal with
         | |- context [if Js.startsWith ?s ?u then _ else _] =>
             destruct (Js.startsWith s u)
         end; reflexivity.
Qed.

(** Decide [CleanParameters] for a map written as a chain of inserts. *)
Ltac clean_parameters :=
  let k := fresh "k" in let v := fresh "v" in let H := fresh "H" in
  intros k v H;
  repeat (apply lookup_insert_Some in H as [[_ <-]|[_ H]]; [auto|]);
  apply lookup_singleton_Some in H as [_ <-]; auto.

(** A design returned by the parser is well formed as soon as the random
    part of its id is made of letters and digits, which is what the
    base-36 text of a number is made of after its first two characters. *)
Lemma parseDesignIntent_wellFormed
    (env : Env) (intent : DesignIntent) (design : StructuredDesign) :
  isIdentifier (String.substring 2 9 (randomBase36 env)) = true ->
  outcome (parseDesignIntent env intent) = Returned (inl design) ->
  WellFormedDesign design.
Proof.
  intros Hrnd. unfold parseDesignIntent, parseBody.
  set (p := Js.toLowerCase (prompt intent)).
  assert (Hu := promptUnit_plainToken p).
  set (u := match dimensionMatch p with Some (_, Some g2) => g2 | _ => "mm" end)
    in *.
  assert (Hid : isIdentifier (generateId env) = true).
  { unfold generateId, isIdentifier. rewrite allChars_append.
    apply andb_true_intro. split; [reflexivity | exact Hrnd]. }
  destruct (Js.includes p "cube" || Js.includes p "box");
    [|destruct (Js.includes p "sphere");
      [|destruct (Js.includes p "cylinder")]];
    cbn; intros H; inversion H; subst; clear H;
    (split; [|constructor]);
    (constructor; [|constructor]);
    (split; [exact Hid|]); cbn [p_parameters]; clean_parameters.
Qed.

(** The sentence of the specification on the prompt
    [Create a cube with 10mm sides]. *)
Example parse_cube_10mm (env : Env) :
  exists primitive,
    outcome (parseDesignIntent env
               {| prompt := "Create a cube with 10mm sides"; contextId := "ctx";
                  constraints := None |})
    = Returned (inl {| primitives := [primitive];
                       operations := [];
                       metadata :=
                         {| name := "Design from " +:+ dquote
                                      +:+ "Create a cube with 10mm sides" +:+ dquote;
                            description := "Create a cube with 10mm sides";
                            author := "MCP User";
                            createdAt := nowISO env;
                            units := mm |} |})
    /\ p_type primitive = cube
    /\ p_parameters primitive !! "length" = Some (JNum (Number.ofZ 10))
    /\ p_parameters primitive !! "width" = Some (JNum (Number.ofZ 10))
    /\ p_parameters primitive !! "height" = Some (JNum (Number.ofZ 10))
    /\ p_parameters primitive !! "unit" = Some (JStr "mm").
Proof. eexists. split; [reflexivity|]. repeat split. Qed.

End ParsedDesigns.

(** C4 as the code has it. For a design whose primitive ids and operation
    target ids are identifiers and whose string parameters are plain
    tokens, the primitive-creation statements of the script are, in order,
    the creation statements of the primitives of the design, one each, and
    its operation statements are, in order, the statements of the
    operations of the design, one each. *)
Theorem script_statements_follow_design (design : StructuredDesign) :
  WellFormedDesign design ->
  let lines := scriptLines (generateFreeCADCode design) in
  List.filter isPrimitiveCreation lines = map creationStatement (primitives design)
  /\ List.length (List.filter isPrimitiveCreation lines)
     = List.length (primitives design)
  /\ List.filter isOperationStatement lines
     = map operationStatement (operations design)
  /\ List.length (List.filter isOperationStatement lines)
     = List.length (operations design).
Proof.
  intros Hwf lines. unfold lines.
  rewrite (scriptLines_generateFreeCADCode design Hwf).
  destruct (generateCodeLines_statements design Hwf) as [-> ->].
  now rewrite !length_map.
Qed.

Lemma script_statements_follow_design_witness :
  let ball := {| p_id := "ball"; p_type := sphere;
                 p_parameters := {[ "radius" := JNum (Number.ofZ 5) ]};
                 p_position := None; p_rotation := None |} in
  let rod := {| p_id := "rod"; p_type := cylinder;
                p_parameters := {[ "radius" := JNum (Number.ofZ 1);
                                   "height" := JNum (Number.ofZ 20) ]};
                p_position := Some {| pos_x := Number.ofZ 0; pos_y := Number.ofZ 0;
                                      pos_z := Number.ofZ (-10) |};
                p_rotation := None |} in
  let design := {| primitives := [ball; rod];
                   operations := [{| o_type := difference;
                                     o_targetIds := ["ball"; "rod"];
                                     o_parameters := None |}];
                   metadata := {| name := "Bead"; description := "a bead";
                                  author := "MCP User"; createdAt := "";
                                  units := mm |} |} in
  WellFormedDesign design
  /\ List.filter isPrimitiveCreation (scriptLines (generateFreeCADCode design))
     = ["ball = Part.makeSphere(5)"; "rod = Part.makeCylinder(1, 20)"]
  /\ List.filter isOperationStatement (scriptLines (generateFreeCADCode design))
     = ["result_difference_ball_rod = ball.cut(rod)"].
Proof.
  intros ball rod design.
  assert (Hwf : WellFormedDesign design).
  { split.
    - repeat constructor.
      + intros k v H. cbn [p_parameters ball] in H.
        apply lookup_singleton_Some in H as [_ <-]. reflexivity.
      + intros k v H. cbn [p_parameters rod] in H.
        apply lookup_insert_Some in H as [[_ <-]|[_ H]]; [reflexivity|].
        apply lookup_singleton_Some in H as [_ <-]. reflexivity.
    - repeat constructor. }
  split; [exact Hwf|].
  destruct (script_statements_follow_design design Hwf) as (-> & _ & -> & _).
  split; reflexivity.
Defined.

(** C4, the claim as stated fails: an id is copied into the script as it
    is, so a primitive whose id carries a second assignment on a line of its
    own yields two primitive-creation statements for one primitive. *)
Lemma script_statements_injected_id :
  let design :=
    {| primitives :=
         [{| p_id := "a = Part.makeBox(1, 1, 1)" +:+ newline +:+ "b";
             p_type := cube;
             p_parameters := {[ "length" := JNum (Number.ofZ 2);
                                "width" := JNum (Number.ofZ 2);
                                "height" := JNum (Number.ofZ 2) ]};
             p_position := None; p_rotation := None |}];
       operations := [];
       metadata := {| name := "Box"; description := "a box";
                      author := "MCP User"; createdAt := ""; units := mm |} |} in
  List.filter isPrimitiveCreation (scriptLines (generateFreeCADCode design))
    = ["a = Part.makeBox(1, 1, 1)"; "b = Part.makeBox(2, 2, 2)"]
  /\ List.length (List.filter isPrimitiveCreation
                    (scriptLines (generateFreeCADCode design)))
     <> List.length (primitives design).
Proof. intros design. split; [vm_compute; reflexivity | vm_compute; discriminate]. Qed.

(** ** Reading calls and transformations back *)

Section Readers.

Lemma beforeClosing_append (s : string) : beforeClosing (s +:+ ")") = Some s.
Proof.
  induction s as [|c s IH]; [reflexivity|].
  rewrite append_cons. cbn [beforeClosing]. rewrite IH.
  destruct s; reflexivity.
Qed.

Lemma identifier_commaFree (s : string) :
  isIdentifier s = true -> commaFree s = true.
Proof.
  apply allChars_impl. intros c.
  destruct c as [[] [] [] [] [] [] [] []]; vm_compute; congruence.
Qed.

Lemma number_commaFree (n : number) : commaFree (Number.toString n) = true.
Proof.
  apply (allChars_impl isNumberChar); [|apply numberChars_toString].
  intros c. destruct c as [[] [] [] [] [] [] [] []]; vm_compute; congruence.
Qed.

Lemma splitComma_cons (c : ascii) (s : string) :
  Ascii.eqb c ","%char = false ->
  splitComma (String c s) =
    match splitComma s with
    | word :: words => String c word :: words
    | [] => [String c ""]
    end.
Proof. intros Hc. destruct s; cbn [splitComma]; now rewrite ?Hc. Qed.

Lemma splitComma_word (x : string) : commaFree x = true -> splitComma x = [x].
Proof.
  induction x as [|c x IH]; [reflexivity|].
  unfold commaFree. cbn [Js.allChars]. intros H.
  apply andb_true_iff in H as [Hc Hx]. apply negb_true_iff in Hc.
  now rewrite (splitComma_cons c x Hc), (IH Hx).
Qed.

Lemma splitComma_append (x rest : string) :
  commaFree x = true ->
  splitComma (x +:+ ", " +:+ rest) = x :: splitComma rest.
Proof.
  induction x as [|c x IH]; [reflexivity|].
  unfold commaFree. cbn [Js.allChars]. intros H.
  apply andb_true_iff in H as [Hc Hx]. apply negb_true_iff in Hc.
  rewrite append_cons, (splitComma_cons c _ Hc). now rewrite (IH Hx).
Qed.

Lemma splitComma_join (xs : list string) :
  Forall (fun x => commaFree x = true) xs -> xs <> [] ->
  splitComma (Js.join ", " xs) = xs.
Proof.
  induction 1 as [|x xs Hx Hxs IH]; [congruence|]. intros _.
  destruct xs as [|y ys]; [exact (splitComma_word x Hx)|].
  change (Js.join ", " (x :: y :: ys))
    with (x +:+ ", " +:+ Js.join ", " (y :: ys)).
  rewrite (splitComma_append x _ Hx). f_equal. now apply IH.
Qed.

Lemma join_empty (xs : list string) :
  xs <> [] -> xs <> [""] -> String.eqb (Js.join ", " xs) "" = false.
Proof.
  destruct xs as [|x [|y ys]]; [congruence| |]; intros _ H.
  - destruct x; [congruence | reflexivity].
  - destruct x; reflexivity.
Qed.

(** The argument list of a call is read back as it was written. *)
Lemma readArguments_join (xs : list string) :
  Forall (fun x => commaFree x = true) xs -> xs <> [""] ->
  readArguments (Js.join ", " xs +:+ ")") = Some xs.
Proof.
  intros Hxs Hne. unfold readArguments. rewrite beforeClosing_append.
  cbn [mbind option_bind].
  destruct xs as [|x xs']; [reflexivity|].
  rewrite join_empty by congruence.
  now rewrite splitComma_join by congruence.
Qed.

Lemma names_commaFree (xs : list string) :
  Forall (fun id => isName id = true) xs ->
  Forall (fun x => commaFree x = true) xs /\ xs <> [""]
  /\ Forall (fun id => isIdentifier id = true) xs.
Proof.
  intros H. repeat split.
  - eapply Forall_impl; [exact H|]. intros x Hx.
    apply andb_true_iff in Hx as [Hx _]. now apply identifier_commaFree.
  - intros ->. inversion H as [|x l Hx]. discriminate Hx.
  - eapply Forall_impl; [exact H|]. intros x Hx.
    now apply andb_true_iff in Hx as [Hx _].
Qed.

Lemma occurrences_append (c : ascii) (a b : string) :
  occurrences c (a +:+ b) = occurrences c a + occurrences c b.
Proof.
  induction a as [|d a IH]; [reflexivity|].
  rewrite append_cons. cbn [occurrences]. rewrite IH. lia.
Qed.

Lemma occurrences_none (c : ascii) (A : ascii -> bool) (s : string) :
  A c = false -> Js.allChars A s = true -> occurrences c s = 0.
Proof.
  intros Hc. induction s as [|d s IH]; [reflexivity|].
  cbn [Js.allChars occurrences]. intros H.
  apply andb_true_iff in H as [Hd Hs]. rewrite (IH Hs).
  destruct (Ascii.eqb_spec c d) as [<-|_]; [congruence | reflexivity].
Qed.

Lemma occurrences_join (c : ascii) (xs : list string) :
  Forall (fun x => occurrences c x = 0) xs ->
  occurrences c ", " = 0 ->
  occurrences c (Js.join ", " xs) = 0.
Proof.
  intros H Hsep. induction H as [|x xs Hx Hxs IH]; [reflexivity|].
  destruct xs as [|y ys]; [exact Hx|].
  change (Js.join ", " (x :: y :: ys))
    with (x +:+ ", " +:+ Js.join ", " (y :: ys)).
  rewrite !occurrences_append, Hx, Hsep, IH. reflexivity.
Qed.

(** The statement of a union, difference or intersection whose targets
    are names, read back as a call. *)
Lemma readCall_boolean (t : OperationType) (a : string) (others : list string)
    (params : option (gmap string JsValue)) :
  In t [union; difference; intersection] ->
  Forall (fun id => isName id = true) (a :: others) ->
  let line :=
    operationStatement
      {| o_type := t; o_targetIds := a :: others; o_parameters := params |} in
  readCall line =
    Some {| c_result := resultName t (a :: others);
            c_receiver := a;
            c_method := combinator t;
            c_arguments := others |}
  /\ occurrences "("%char line = 1.
Proof.
  intros Ht Hids line.
  destruct (names_commaFree _ Hids) as (_ & _ & Hident).
  assert (Ha : isIdentifier a = true) by now inversion Hident.
  assert (Hothers : Forall (fun id => isName id = true) others)
    by now inversion Hids.
  destruct (names_commaFree _ Hothers) as (Hcomma & Hne & Hio).
  assert (Hr : isIdentifier (resultName t (a :: others)) = true)
    by now apply isIdentifier_resultName.
  assert (Hline : exists method,
             combinator t = method /\ isIdentifier method = true
             /\ line = resultName t (a :: others) +:+ " = " +:+ a +:+ "."
                         +:+ method +:+ "(" +:+ Js.join ", " others +:+ ")").
  { exists (combinator t). split; [reflexivity|].
    unfold line. rewrite operationStatement_call. unfold operationCall.
    cbn [o_type o_targetIds firstTarget tail].
    destruct Ht as [<-|[<-|[<-|[]]]]; (split; [reflexivity|]);
      cbn [combinator]; rewrite ?append_assoc; reflexivity. }
  destruct Hline as (method & -> & Hm & ->). split.
  - unfold readCall.
    rewrite assignedValue_target by (assumption || reflexivity).
    rewrite afterPrefix_append.
    rewrite (takeWhile_identifier (resultName t (a :: others)))
      by (assumption || reflexivity).
    cbn [mbind option_bind].
    rewrite (dropWhile_identifier a), (takeWhile_identifier a)
      by (assumption || reflexivity).
    rewrite afterPrefix_append. cbn [mbind option_bind].
    rewrite (dropWhile_identifier method), (takeWhile_identifier method)
      by (assumption || reflexivity).
    rewrite afterPrefix_append. cbn [mbind option_bind].
    rewrite (readArguments_join others Hcomma Hne). reflexivity.
  - assert (Hid : forall s, isIdentifier s = true -> occurrences "("%char s = 0).
    { intros s. now apply occurrences_none. }
    rewrite !occurrences_append, (Hid _ Hr), (Hid _ Ha), (Hid _ Hm).
    rewrite occurrences_join; [reflexivity| |reflexivity].
    eapply Forall_impl; [exact Hio|]. exact Hid.
Qed.

End Readers.

Section Transformations.

Lemma readTransform_other (a b : string) :
  isIdentifier a = true -> stops b = true ->
  afterPrefix ".rotate(Base.Vector(0,0,0), Base.Vector(" b = None ->
  afterPrefix ".translate(Base.Vector(" b = None ->
  readTransform (a +:+ b) = None.
Proof.
  intros Ha Hb Hr Ht. unfold readTransform.
  rewrite (dropWhile_identifier a b Ha Hb), Hr, Ht. reflexivity.
Qed.

Lemma readTransform_rotation (target : string) (angle : number) :
  isIdentifier target = true ->
  readTransform (rotationStatement target "1,0,0" angle)
    = Some (Rotate target AxisX (Number.toString angle))
  /\ readTransform (rotationStatement target "0,1,0" angle)
     = Some (Rotate target AxisY (Number.toString angle))
  /\ readTransform (rotationStatement target "0,0,1" angle)
     = Some (Rotate target AxisZ (Number.toString angle)).
Proof.
  intros Ht. unfold readTransform, rotationStatement.
  rewrite !(dropWhile_identifier target), !(takeWhile_identifier target)
    by (assumption || reflexivity).
  rewrite !afterPrefix_append. cbn [readAxis afterPrefix Ascii.eqb Bool.eqb].
  rewrite !append_cons, !append_nil_l.
  cbn [readAxis afterPrefix Ascii.eqb Bool.eqb fmap option_fmap option_map
       mbind option_bind].
  now rewrite beforeClosing_append.
Qed.

Lemma readTransform_translation (target : string) (pos : Position) :
  isIdentifier target = true ->
  readTransforms (translationStatements
                    {| p_id := target; p_type := cube; p_parameters := ∅;
                       p_position := Some pos; p_rotation := None |})
    = [Translate target
         [Number.toString (pos_x pos); Number.toString (pos_y pos);
          Number.toString (pos_z pos)]].
Proof.
  intros Ht. unfold translationStatements, readTransforms.
  cbn [p_position p_id omap list_omap]. unfold readTransform.
  rewrite (dropWhile_identifier target), (takeWhile_identifier target)
    by (assumption || reflexivity).
  match goal with
  | |- context [afterPrefix ?p (?q +:+ ?s)] =>
      replace (afterPrefix p (q +:+ s)) with (@None string) by reflexivity
  end.
  rewrite afterPrefix_append.
  set (x := Number.toString (pos_x pos)). set (y := Number.toString (pos_y pos)).
  set (z := Number.toString (pos_z pos)).
  replace (x +:+ ", " +:+ y +:+ ", " +:+ z +:+ "))")
    with ((Js.join ", " [x; y; z] +:+ ")") +:+ ")")
    by (cbn [Js.join]; rewrite !append_assoc; reflexivity).
  cbn [mbind option_bind]. rewrite beforeClosing_append.
  cbn [mbind option_bind].
  rewrite readArguments_join; [reflexivity| |discriminate].
  repeat constructor; apply number_commaFree.
Qed.

Lemma omap_cons_None {A B} (f : A -> option B) (x : A) (l : list A) :
  f x = None -> omap f (x :: l) = omap f l.
Proof. intros H. cbn. now rewrite H. Qed.

Lemma omap_cons_Some {A B} (f : A -> option B) (x : A) (y : B) (l : list A) :
  f x = Some y -> omap f (x :: l) = y :: omap f l.
Proof. intros H. cbn. now rewrite H. Qed.

Lemma omap_flat_map {A B C} (f : B -> option C) (g : A -> list B) (l : list A) :
  omap f (flat_map g l) = flat_map (fun x => omap f (g x)) l.
Proof.
  induction l as [|x l IH]; [reflexivity|].
  cbn [flat_map]. now rewrite omap_app, IH.
Qed.

Lemma flat_map_ext_Forall {A B} (P : A -> Prop) (f g : A -> list B) (l : list A) :
  Forall P l -> (forall x, P x -> f x = g x) -> flat_map f l = flat_map g l.
Proof.
  intros H Hfg. induction H as [|x l Hx Hl IH]; [reflexivity|].
  cbn [flat_map]. now rewrite (Hfg x Hx), IH.
Qed.

Lemma readTransforms_bindings (holder kind value : string) :
  holder = "shape_obj" \/ holder = "result_obj" ->
  readTransforms (bindingStatements holder kind value) = [].
Proof. intros [->| ->]; reflexivity. Qed.

Lemma readTransforms_primitive (p : PrimitiveShape) :
  isIdentifier (p_id p) = true ->
  readTransforms (primitiveBlock p) = expectedTransforms p.
Proof.
  intros Hid. unfold primitiveBlock, readTransforms.
  rewrite generatePrimitiveCode_statements, creationStatement_call.
  cbn [app].
  rewrite omap_cons_None by reflexivity.
  rewrite omap_cons_None
    by (apply readTransform_other; (assumption || reflexivity)).
  rewrite !omap_app.
  fold (readTransforms (bindingStatements "shape_obj"
          (Js.capitalize (primitiveTypeName (p_type p))) (p_id p))).
  rewrite readTransforms_bindings by now left.
  rewrite (omap_cons_None _ "") by reflexivity.
  change (omap readTransform []) with (@nil Transform).
  rewrite !app_nil_r.
  unfold expectedTransforms. f_equal.
  - unfold translationStatements.
    destruct (p_position p) as [pos|]; [|reflexivity].
    exact (readTransform_translation (p_id p) pos Hid).
  - unfold rotationStatements.
    destruct (p_rotation p) as [rot|]; [|reflexivity].
    destruct (readTransform_rotation (p_id p) (rot_x rot) Hid) as (Hx & _ & _).
    destruct (readTransform_rotation (p_id p) (rot_y rot) Hid) as (_ & Hy & _).
    destruct (readTransform_rotation (p_id p) (rot_z rot) Hid) as (_ & _ & Hz).
    now rewrite (omap_cons_Some _ _ _ _ Hx), (omap_cons_Some _ _ _ _ Hy),
      (omap_cons_Some _ _ _ _ Hz).
Qed.

Lemma readTransforms_operation (o : Operation) :
  Forall (fun t => isIdentifier t = true) (o_targetIds o) ->
  readTransforms (operationBlock o) = [].
Proof.
  intros Hids. unfold operationBlock, readTransforms.
  rewrite generateOperationCode_statements, operationStatement_call.
  cbn [app].
  rewrite omap_cons_None
    by (apply readTransform_other;
        [now apply isIdentifier_resultName | reflexivity..]).
  rewrite omap_app.
  fold (readTransforms (bindingStatements "result_obj"
          (Js.capitalize (operationTypeName (o_type o)))
          (resultName (o_type o) (o_targetIds o)))).
  rewrite readTransforms_bindings by now right.
  reflexivity.
Qed.

(** The transformations among the lines pushed by the generator. *)
Lemma readTransforms_generateCodeLines (design : StructuredDesign) :
  WellFormedDesign design ->
  readTransforms (generateCodeLines design)
    = flat_map expectedTransforms (primitives design).
Proof.
  intros [Hp Ho]. rewrite generateCodeLines_blocks. unfold readTransforms.
  rewrite !omap_app, !omap_flat_map.
  replace (omap readTransform scriptHeader) with (@nil Transform)
    by reflexivity.
  replace (omap readTransform (scriptFooter design)) with (@nil Transform)
    by reflexivity.
  assert (Hops : omap readTransform (operationsSection (operations design)) = []).
  { unfold operationsSection. destruct (operations design) as [|o ops] eqn:E;
      [reflexivity|].
    rewrite omap_cons_None by reflexivity.
    rewrite omap_flat_map, <- (flat_map_nil (o :: ops)).
    apply (flat_map_ext_Forall WellFormedOperation); [exact Ho|].
    intros o' [Hids _]. exact (readTransforms_operation o' Hids). }
  rewrite Hops, !app_nil_r. cbn [app].
  apply (flat_map_ext_Forall WellFormedPrimitive); [exact Hp|].
  intros p [Hid _]. exact (readTransforms_primitive p Hid).
Qed.

End Transformations.

(** ** C5: boolean operations *)

(** C5 as the code has it. For a union, a difference or an intersection
    whose targets [a; b; rest...] are names (identifiers that are not
    empty), the generator emits three lines: one statement and the two
    binding lines. The statement reads back as one call: the combinator
    ([fuse], [cut], [common]) applied to [a], with all the remaining
    targets, in their order, as its argument list. It has a single
    opening parenthesis, so it is one call and no chain of calls, and the
    two binding lines are no operation statements. *)
Theorem boolean_operation_single_grouped_call
    (t : OperationType) (a b : string) (rest : list string)
    (params : option (gmap string JsValue)) :
  In t [union; difference; intersection] ->
  Forall (fun id => isName id = true) (a :: b :: rest) ->
  exists result line binding1 binding2,
    generateOperationCode
      {| o_type := t; o_targetIds := a :: b :: rest; o_parameters := params |}
    = [line; binding1; binding2]
    /\ readCall line =
         Some {| c_result := result; c_receiver := a;
                 c_method := combinator t; c_arguments := b :: rest |}
    /\ occurrences "("%char line = 1
    /\ isOperationStatement binding1 = false
    /\ isOperationStatement binding2 = false.
Proof.
  intros Ht Hids.
  destruct (readCall_boolean t a (b :: rest) params Ht Hids) as [Hread Hone].
  eexists _, _, _, _.
  split; [apply generateOperationCode_statements|].
  split; [exact Hread|]. split; [exact Hone|].
  split; reflexivity.
Qed.

Lemma boolean_operation_single_grouped_call_witness :
  exists result line binding1 binding2,
    generateOperationCode
      {| o_type := union; o_targetIds := ["a"; "b"; "c"]; o_parameters := None |}
    = [line; binding1; binding2]
    /\ readCall line =
         Some {| c_result := result; c_receiver := "a";
                 c_method := "fuse"; c_arguments := ["b"; "c"] |}
    /\ occurrences "("%char line = 1
    /\ isOperationStatement binding1 = false
    /\ isOperationStatement binding2 = false.
Proof.
  apply (boolean_operation_single_grouped_call union "a" "b" ["c"] None);
    [now left | repeat constructor].
Defined.

(** C5, the claim as stated fails: a target id is copied into the
    statement as it is, so the two targets [a] and [b).fuse(c] give a
    statement whose right-hand side is [a.fuse(b).fuse(c)], a chain of two
    calls of the combinator and no single call on [a] with the other
    target as its argument. *)
Lemma boolean_operation_injected_id :
  let operation :=
    {| o_type := union; o_targetIds := ["a"; "b).fuse(c"];
       o_parameters := None |} in
  generateOperationCode operation =
    ["result_union_a_b).fuse(c = a.fuse(b).fuse(c)";
     "result_obj = doc.addObject(" +:+ dquote +:+ "Part::Feature" +:+ dquote
       +:+ ", " +:+ dquote +:+ "Union" +:+ dquote +:+ ")";
     "result_obj.Shape = result_union_a_b).fuse(c"]
  /\ ~ (exists result line binding1 binding2,
          generateOperationCode operation = [line; binding1; binding2]
          /\ readCall line =
               Some {| c_result := result; c_receiver := "a";
                       c_method := "fuse"; c_arguments := ["b).fuse(c"] |}
          /\ occurrences "("%char line = 1).
Proof.
  intros operation. split; [reflexivity|].
  intros (result & line & binding1 & binding2 & Hlines & Hread & _).
  injection Hlines as <- _ _. discriminate Hread.
Qed.

(** ** C6: position and rotation of a primitive *)

(** C6 as the code has it. For a design whose primitive ids and operation
    target ids are identifiers and whose string parameters are plain
    tokens, the transformation statements of the script are, primitive
    after primitive in the order of the design: the translation when the
    primitive has a position, then, when it has a rotation, exactly three
    rotations about the origin, about the X axis, the Y axis and the Z
    axis in that order, each by the text of its angle, whatever the three
    angles are; and the script has no other translation or rotation. *)
Theorem rotation_emitted_x_then_y_then_z (design : StructuredDesign) :
  WellFormedDesign design ->
  readTransforms (scriptLines (generateFreeCADCode design))
    = flat_map expectedTransforms (primitives design).
Proof.
  intros Hwf. rewrite (scriptLines_generateFreeCADCode design Hwf).
  now apply readTransforms_generateCodeLines.
Qed.

Lemma rotation_emitted_x_then_y_then_z_witness :
  let lid := {| p_id := "lid"; p_type := cylinder;
                p_parameters := {[ "radius" := JNum (Number.ofZ 5);
                                   "height" := JNum (Number.ofZ 1) ]};
                p_position := Some {| pos_x := Number.ofZ 1;
                                      pos_y := Number.half (Number.ofZ 5);
                                      pos_z := Number.ofZ (-3) |};
                p_rotation := Some {| rot_x := Number.ofZ 0;
                                      rot_y := Number.ofZ 90;
                                      rot_z := Number.ofZ 45 |} |} in
  let knob := {| p_id := "knob"; p_type := sphere;
                 p_parameters := {[ "radius" := JNum (Number.ofZ 2) ]};
                 p_position := None;
                 p_rotation := Some {| rot_x := Number.ofZ 30;
                                       rot_y := Number.ofZ 0;
                                       rot_z := Number.ofZ 0 |} |} in
  let design := {| primitives := [lid; knob];
                   operations := [{| o_type := union;
                                     o_targetIds := ["lid"; "knob"];
                                     o_parameters := None |}];
                   metadata := {| name := "Lid"; description := "a lid";
                                  author := "MCP User"; createdAt := "";
                                  units := mm |} |} in
  WellFormedDesign design
  /\ readTransforms (scriptLines (generateFreeCADCode design))
     = [Translate "lid" ["1"; "2.5"; "-3"];
        Rotate "lid" AxisX "0"; Rotate "lid" AxisY "90";
        Rotate "lid" AxisZ "45";
        Rotate "knob" AxisX "30"; Rotate "knob" AxisY "0";
        Rotate "knob" AxisZ "0"].
Proof.
  intros lid knob design.
  assert (Hwf : WellFormedDesign design).
  { split.
    - repeat constructor.
      + intros k v H. cbn [p_parameters lid] in H.
        apply lookup_insert_Some in H as [[_ <-]|[_ H]]; [reflexivity|].
        apply lookup_singleton_Some in H as [_ <-]. reflexivity.
      + intros k v H. cbn [p_parameters knob] in H.
        apply lookup_singleton_Some in H as [_ <-]. reflexivity.
    - repeat constructor. }
  split; [exact Hwf|].
  rewrite (rotation_emitted_x_then_y_then_z design Hwf).
  vm_compute. reflexivity.
Defined.

(** C6, the claim as stated fails: the id of a primitive is copied to the
    start of each of its lines as it is, so an id that carries a rotation
    statement on a line of its own yields, for one primitive with a
    rotation, seven rotation statements, the first of them about the Z
    axis. *)
Lemma rotation_injected_id :
  let design :=
    {| primitives :=
         [{| p_id := "x.rotate(Base.Vector(0,0,0), Base.Vector(0,0,1), 45)"
                       +:+ newline +:+ "s";
             p_type := sphere;
             p_parameters := {[ "radius" := JNum (Number.ofZ 5) ]};
             p_position := None;
             p_rotation := Some {| rot_x := Number.ofZ 10;
                                   rot_y := Number.ofZ 20;
                                   rot_z := Number.ofZ 30 |} |}];
       operations := [];
       metadata := {| name := "Ball"; description := "a ball";
                      author := "MCP User"; createdAt := ""; units := mm |} |} in
  readTransforms (scriptLines (generateFreeCADCode design))
    = [Rotate "x" AxisZ "45";
       Rotate "x" AxisZ "45"; Rotate "s" AxisX "10";
       Rotate "x" AxisZ "45"; Rotate "s" AxisY "20";
       Rotate "x" AxisZ "45"; Rotate "s" AxisZ "30"]
  /\ readTransforms (scriptLines (generateFreeCADCode design))
     <> flat_map expectedTransforms (primitives design)
  /\ List.length (readTransforms (scriptLines (generateFreeCADCode design)))
     <> 3.
Proof.
  intros design.
  split; [vm_compute; reflexivity|].
  split; vm_compute; discriminate.
Qed.

(** * Further properties of the code *)

(** ** The clarification gate, exactly *)

(** X1. [needsClarification] asks for clarification exactly when the
    lower-cased prompt is shorter than 5 characters, or has no digit, or
    has none of the six shape keywords; so a prompt is let through exactly
    when it has at least 5 characters, a keyword and a digit. *)
Theorem needsClarification_exactly (intent : DesignIntent) :
  let p := Js.toLowerCase (prompt intent) in
  (needsClarification intent = true <->
     String.length p < 5 \/ NoDigit p \/ NoShapeKeyword p)
  /\ (needsClarification intent = false <->
        5 <= String.length p /\ hasShapeKeyword p = true
        /\ hasDimensions p = true).
Proof.
  intros p. unfold needsClarification. fold p.
  rewrite <- hasDimensions_false, <- hasShapeKeyword_false.
  destruct (String.length p <? 5)%nat eqn:El;
    [apply Nat.ltb_lt in El | apply Nat.ltb_ge in El];
    destruct (hasShapeKeyword p), (hasDimensions p); cbn;
    split; split; intros H; try discriminate; try lia; try tauto;
    try (destruct H as [H|[H|H]]; (discriminate || lia));
    try (destruct H as (H1 & H2 & H3); (discriminate || lia)).
Qed.

(** X2. [generateClarificationQuestions] returns no question at all
    exactly when the prompt has both a shape keyword and a digit, and at
    most two questions otherwise. A prompt shorter than 5 characters that
    has both therefore gets a clarification feedback whose list of
    suggested actions is empty. *)
Theorem clarification_without_question (env : Env) (intent : DesignIntent) :
  let p := Js.toLowerCase (prompt intent) in
  (generateClarificationQuestions intent = [] <->
     hasShapeKeyword p = true /\ hasDimensions p = true)
  /\ List.length (generateClarificationQuestions intent) <= 2
  /\ (String.length p < 5 -> hasShapeKeyword p = true ->
      hasDimensions p = true ->
      outcome (processDesignIntent env intent) =
        Returned (feedbackOnly (clarificationFeedback []))
      /\ suggestedActions (clarificationFeedback []) = Some []).
Proof.
  intros p. unfold generateClarificationQuestions. fold p. split; [|split].
  - destruct (hasShapeKeyword p), (hasDimensions p); cbn; split;
      intros H; try discriminate; try tauto; destruct H; discriminate.
  - destruct (hasShapeKeyword p), (hasDimensions p); cbn; lia.
  - intros Hl Hk Hd.
    assert (Hn : needsClarification intent = true).
    { unfold needsClarification. fold p.
      apply Nat.ltb_lt in Hl. now rewrite Hl. }
    rewrite (pipeline_at_gate env intent Hn).
    unfold generateClarificationQuestions. fold p. rewrite Hk, Hd.
    split; reflexivity.
Qed.

Lemma clarification_without_question_witness :
  let env := {| randomBase36 := "0.4fzyo82mvyr"; nowISO := "2024-05-01T10:00:00.000Z" |} in
  let intent := {| prompt := "Box7"; contextId := "ctx"; constraints := None |} in
  String.length (Js.toLowerCase (prompt intent)) < 5
  /\ outcome (processDesignIntent env intent) =
       Returned (feedbackOnly (clarificationFeedback [])).
Proof.
  intros env intent.
  assert (Hl : String.length (Js.toLowerCase (prompt intent)) < 5)
    by (vm_compute; lia).
  split; [exact Hl|].
  destruct (clarification_without_question env intent) as (_ & _ & H).
  exact (proj1 (H Hl eq_refl eq_refl)).
Defined.

Lemma needsClarification_exactly_witness :
  needsClarification
    {| prompt := "a 5mm cube"; contextId := "ctx"; constraints := None |} = false.
Proof.
  apply (proj2 (needsClarification_exactly
                  {| prompt := "a 5mm cube"; contextId := "ctx";
                     constraints := None |})).
  cbn. repeat split; lia.
Defined.

(** ** The runs of the parser and of the pipeline *)

Section Runs.

Variable env : Env.
Variable intent : DesignIntent.

Lemma hasParsedKeyword_cases (p : string) :
  hasParsedKeyword p =
    (Js.includes p "cube" || Js.includes p "box")
    || Js.includes p "sphere" || Js.includes p "cylinder".
Proof.
  unfold hasParsedKeyword, parsedKeywords. cbn [existsb].
  now rewrite orb_false_r, !orb_assoc.
Qed.

(** The parser performs no event and returns: the clarification feedback
    when the prompt has none of its keywords, a design otherwise. *)
Lemma parseDesignIntent_run :
  exists parsed,
    parseDesignIntent env intent = ([], Returned parsed)
    /\ (hasParsedKeyword (Js.toLowerCase (prompt intent)) = false ->
        parsed = inr clarifyShapeFeedback)
    /\ (hasParsedKeyword (Js.toLowerCase (prompt intent)) = true ->
        exists design, parsed = inl design).
Proof.
  rewrite hasParsedKeyword_cases.
  unfold parseDesignIntent, parseBody.
  destruct (Js.includes _ "cube" || Js.includes _ "box");
    [|destruct (Js.includes _ "sphere");
      [|destruct (Js.includes _ "cylinder")]];
    cbn; eexists; (split; [reflexivity|]); split; intros H;
    try discriminate H; eauto.
Qed.

(** The pipeline after the gate, by the result of the parser. *)
Lemma pipeline_after_gate (parsed : StructuredDesign + UserFeedback) :
  needsClarification intent = false ->
  parseDesignIntent env intent = ([], Returned parsed) ->
  processDesignIntent env intent =
    match parsed with
    | inr parsedFeedback => ([], Returned (feedbackOnly parsedFeedback))
    | inl design =>
        let script_ := generateFreeCADCode design in
        if validateScriptSafety script_
        then (engineEvents script_, Returned (executedPayload design script_))
        else ([], Returned (unsafePayload design script_))
    end.
Proof.
  intros Hn Hp.
  unfold processDesignIntent, processDesignIntentWith, pipelineBody.
  cbn [moduleStages st_needsClarification st_parseDesignIntent
       st_generateFreeCADCode st_validateScriptSafety st_executeScript
       st_generateUserFeedback].
  unfold mbind, M_bind, mret, M_ret. rewrite Hn, Hp.
  destruct parsed as [design|fb]; [|reflexivity].
  cbv zeta. unfold executeScript.
  destruct (validateScriptSafety (generateFreeCADCode design)); reflexivity.
Qed.

End Runs.

(** X3. A prompt that passes the gate but names none of [cube], [box],
    [sphere], [cylinder] names [cone] or [torus]; the parser does not
    recognise these, and the pipeline returns only the parser's
    clarification feedback (one clarify action) without generating or
    executing anything. *)
Theorem cone_and_torus_fall_through (env : Env) (intent : DesignIntent) :
  let p := Js.toLowerCase (prompt intent) in
  needsClarification intent = false ->
  hasParsedKeyword p = false ->
  (Js.Contains p "cone" \/ Js.Contains p "torus")
  /\ processDesignIntent env intent =
       ([], Returned (feedbackOnly clarifyShapeFeedback))
  /\ status clarifyShapeFeedback = StClarification
  /\ actionTypes clarifyShapeFeedback = Some [clarify].
Proof.
  intros p Hn Hk. split; [|split; [|split; reflexivity]].
  - assert (Hs : hasShapeKeyword p = true).
    { unfold needsClarification in Hn. fold p in Hn.
      destruct (String.length p <? 5)%nat; [discriminate|].
      destruct (hasShapeKeyword p); [reflexivity | discriminate]. }
    rewrite hasParsedKeyword_cases in Hk.
    unfold hasShapeKeyword, shapeKeywords in Hs. cbn [existsb] in Hs.
    rewrite !orb_false_iff in Hk. destruct Hk as [[[H1 H2] H3] H4].
    rewrite H1, H2, H3, H4 in Hs. cbn in Hs. rewrite orb_false_r in Hs.
    apply orb_true_iff in Hs as [Hs|Hs]; [left | right];
      now apply includes_Contains.
  - destruct (parseDesignIntent_run env intent) as (parsed & Hrun & Hnone & _).
    rewrite (pipeline_after_gate env intent parsed Hn Hrun).
    now rewrite (Hnone Hk).
Qed.

Lemma cone_and_torus_fall_through_witness :
  let env := {| randomBase36 := "0.4fzyo82mvyr"; nowISO := "2024-05-01T10:00:00.000Z" |} in
  let intent := {| prompt := "A torus of 30mm"; contextId := "ctx";
                   constraints := None |} in
  needsClarification intent = false
  /\ processDesignIntent env intent =
       ([], Returned (feedbackOnly clarifyShapeFeedback)).
Proof.
  intros env intent. split; [reflexivity|].
  exact (proj1 (proj2 (cone_and_torus_fall_through env intent eq_refl eq_refl))).
Defined.

(** X4. [executeScript] never throws. Its result reports success exactly
    when the script passes [validateScriptSafety]; it contacts the engine
    stand-in (one log line, one timer of 1000 ms) exactly in that case;
    and the feedback made of its result is success with the single action
    accept for a safe script, error with the unsafe-operations message and
    the actions regenerate, modify, clarify otherwise. *)
Theorem executeScript_then_feedback (script_ : FreeCADScript) :
  exists result,
    outcome (executeScript script_) = Returned result
    /\ success result = validateScriptSafety script_
    /\ events (executeScript script_) =
         (if validateScriptSafety script_ then engineEvents script_ else [])
    /\ status (generateUserFeedback result) =
         (if validateScriptSafety script_ then StSuccess else StError)
    /\ actionTypes (generateUserFeedback result) =
         Some (if validateScriptSafety script_ then [accept]
               else [regenerate; modify; clarify])
    /\ (validateScriptSafety script_ = false ->
        details (generateUserFeedback result) =
          Some "Script contains potentially unsafe operations and cannot be executed.").
Proof.
  unfold executeScript.
  destruct (validateScriptSafety script_); cbn.
  - exists mockSuccess. repeat split. discriminate.
  - exists unsafeResult. repeat split.
Qed.

Lemma executeScript_then_feedback_witness :
  exists result,
    outcome (executeScript {| code := "os.system(1)"; imports := [];
                              safeToExecute := true |}) = Returned result
    /\ details (generateUserFeedback result) =
         Some "Script contains potentially unsafe operations and cannot be executed.".
Proof.
  destruct (executeScript_then_feedback
              {| code := "os.system(1)"; imports := []; safeToExecute := true |})
    as (r & H1 & _ & _ & _ & _ & H6).
  exists r. split; [exact H1 | exact (H6 eq_refl)].
Defined.

(** X5. In a run of the pipeline an execution result is present only for
    a script that passed the safety check, it is then always a success
    with a feedback of status success and the single action accept; and
    the engine stand-in is contacted exactly when an execution result is
    present. *)
Theorem pipeline_executes_only_safe_scripts
    (env : Env) (intent : DesignIntent) :
  exists payload,
    outcome (processDesignIntent env intent) = Returned payload
    /\ (executionResult payload = None <->
        events (processDesignIntent env intent) = [])
    /\ (forall result, executionResult payload = Some result ->
        exists script_,
          script payload = Some script_
          /\ validateScriptSafety script_ = true
          /\ events (processDesignIntent env intent) = engineEvents script_
          /\ success result = true
          /\ status (feedback payload) = StSuccess
          /\ actionTypes (feedback payload) = Some [accept]).
Proof.
  destruct (needsClarification intent) eqn:Hn.
  { rewrite (pipeline_at_gate env intent Hn). eexists.
    split; [reflexivity|]. split; [now split|]. intros r H. discriminate H. }
  destruct (parseDesignIntent_run env intent) as (parsed & Hrun & _).
  rewrite (pipeline_after_gate env intent parsed Hn Hrun).
  destruct parsed as [design|fb].
  2:{ eexists. split; [reflexivity|]. split; [now split|].
      intros r H. discriminate H. }
  cbv zeta.
  destruct (validateScriptSafety (generateFreeCADCode design)) eqn:Hs.
  - eexists. split; [reflexivity|]. split.
    + split; intros H; discriminate H.
    + intros r [= <-]. exists (generateFreeCADCode design).
      repeat split. exact Hs.
  - eexists. split; [reflexivity|]. split; [now split|].
    intros r H. discriminate H.
Qed.

Lemma pipeline_executes_only_safe_scripts_witness :
  let env := {| randomBase36 := "0.4fzyo82mvyr"; nowISO := "2024-05-01T10:00:00.000Z" |} in
  let intent := {| prompt := "a 5mm cube"; contextId := "ctx"; constraints := None |} in
  exists payload script_,
    outcome (processDesignIntent env intent) = Returned payload
    /\ executionResult payload = Some mockSuccess
    /\ script payload = Some script_
    /\ validateScriptSafety script_ = true.
Proof.
  intros env intent.
  destruct (pipeline_executes_only_safe_scripts env intent)
    as (payload & Hout & _ & Hex).
  assert (Hr : executionResult payload = Some mockSuccess).
  { vm_compute in Hout. injection Hout as <-. reflexivity. }
  destruct (Hex mockSuccess Hr) as (s & Hs & Hsafe & _).
  exists payload, s. repeat split; assumption.
Defined.

(** ** The parser *)

Section Parser.

Variable env : Env.
Variable intent : DesignIntent.

Let p := Js.toLowerCase (prompt intent).

(** The run of the parser, case by case. *)
Lemma parseDesignIntent_cases :
  parseDesignIntent env intent =
    ([], Returned
       (let design primitive :=
          inl {| primitives := [primitive]; operations := [];
                 metadata := parsedMetadata env intent |} in
        if Js.includes p "cube" || Js.includes p "box" then
          design (parsedPrimitive env cube
                    {[ "length" := JNum (promptSize p);
                       "width" := JNum (promptSize p);
                       "height" := JNum (promptSize p);
                       "unit" := JStr (promptUnit p) ]})
        else if Js.includes p "sphere" then
          design (parsedPrimitive env sphere
                    {[ "radius" := JNum (Number.half (promptSize p));
                       "unit" := JStr (promptUnit p) ]})
        else if Js.includes p "cylinder" then
          design (parsedPrimitive env cylinder
                    {[ "radius" := JNum (Number.half (promptSize p));
                       "height" := JNum (promptSize p);
                       "unit" := JStr (promptUnit p) ]})
        else inr clarifyShapeFeedback)).
Proof.
  unfold parseDesignIntent, parseBody, promptSize, promptUnit. fold p.
  destruct (Js.includes p "cube" || Js.includes p "box");
    [|destruct (Js.includes p "sphere");
      [|destruct (Js.includes p "cylinder")]]; reflexivity.
Qed.

Lemma substring_length (n m : nat) (s : string) :
  String.length (String.substring n m s) <= m.
Proof.
  revert n m. induction s as [|c s IH]; intros [|n] [|m]; cbn; try lia.
  - specialize (IH 0 m). lia.
  - apply (IH n 0).
  - apply (IH n (S m)).
Qed.

Lemma append_length (a b : string) :
  String.length (a +:+ b) = String.length a + String.length b.
Proof.
  induction a as [|c a IH]; [reflexivity|].
  rewrite append_cons. cbn [String.length]. now rewrite IH.
Qed.

Lemma promptUnit_vocabulary (q : string) : In (promptUnit q) unitVocabulary.
Proof.
  unfold promptUnit, dimensionMatch.
  destruct (dropWhile (fun c => negb (Js.isDigit c)) q) as [|c rest];
    [now left|].
  unfold matchUnit, unitVocabulary.
  repeat match goal with
         | |- context [if Js.startsWith ?s ?u then _ else _] =>
             destruct (Js.startsWith s u)
         end; cbn; tauto.
Qed.

End Parser.

(** X6. Every design [parseDesignIntent] returns has exactly one
    primitive and no operation. The primitive has no position and no
    rotation; its id is [shape_] followed by at most 9 characters; its
    type is cube, sphere or cylinder; and its [unit] parameter is one of
    mm, cm, m, inch, in. The description of the design is the prompt as
    typed and its author is [MCP User]. *)
Theorem parsed_design_invariants
    (env : Env) (intent : DesignIntent) (design : StructuredDesign) :
  outcome (parseDesignIntent env intent) = Returned (inl design) ->
  operations design = []
  /\ description (metadata design) = prompt intent
  /\ author (metadata design) = "MCP User"
  /\ exists primitive unit_,
       primitives design = [primitive]
       /\ p_position primitive = None /\ p_rotation primitive = None
       /\ Js.startsWith (p_id primitive) "shape_" = true
       /\ String.length (p_id primitive) <= 15
       /\ In (p_type primitive) [cube; sphere; cylinder]
       /\ p_parameters primitive !! "unit" = Some (JStr unit_)
       /\ In unit_ unitVocabulary.
Proof.
  rewrite parseDesignIntent_cases. cbn [outcome snd]. cbv zeta.
  assert (Hid : Js.startsWith (generateId env) "shape_" = true
                /\ String.length (generateId env) <= 15).
  { unfold generateId. split; [apply startsWith_append|].
    rewrite append_length.
    assert (H := substring_length 2 9 (randomBase36 env)). cbn. lia. }
  destruct Hid as [Hid1 Hid2].
  assert (Hu := promptUnit_vocabulary (Js.toLowerCase (prompt intent))).
  destruct (Js.includes _ "cube" || Js.includes _ "box");
    [|destruct (Js.includes _ "sphere");
      [|destruct (Js.includes _ "cylinder")]];
    intros [= <-]; cbn;
    (split; [reflexivity|]); (split; [reflexivity|]); (split; [reflexivity|]);
    eexists; exists (promptUnit (Js.toLowerCase (prompt intent)));
    (split; [reflexivity|]); cbn;
    repeat (split; [first [reflexivity | assumption | tauto]|]);
    assumption.
Qed.

Lemma parsed_design_invariants_witness :
  let env := {| randomBase36 := "0.4fzyo82mvyr"; nowISO := "2024-05-01T10:00:00.000Z" |} in
  let intent := {| prompt := "Sphere, 2 inch wide"; contextId := "ctx";
                   constraints := None |} in
  exists design primitive,
    outcome (parseDesignIntent env intent) = Returned (inl design)
    /\ primitives design = [primitive]
    /\ p_id primitive = "shape_4fzyo82mv"
    /\ p_parameters primitive !! "unit" = Some (JStr "inch").
Proof.
  intros env intent.
  destruct (outcome (parseDesignIntent env intent)) as [[d|fb]|e] eqn:E;
    try (vm_compute in E; discriminate).
  destruct (parsed_design_invariants env intent d E)
    as (_ & _ & _ & q & u & Hq & _).
  exists d, q. split; [reflexivity|]. split; [exact Hq|].
  vm_compute in E. injection E as <-. injection Hq as <-.
  split; reflexivity.
Defined.

(** X7. The parser picks one shape by a fixed precedence, whatever the
    order of the words in the prompt: a prompt that contains [cube] or
    [box] gives a cube with length, width and height equal to the size
    even when it also names a sphere or a cylinder; otherwise a prompt that
    contains [sphere] gives a sphere whose radius is half the size;
    otherwise a prompt that contains [cylinder] gives a cylinder of radius
    half the size and of height the size. *)
Theorem parser_shape_precedence (env : Env) (intent : DesignIntent) :
  let p := Js.toLowerCase (prompt intent) in
  let design primitive :=
    Returned (inl {| primitives := [primitive]; operations := [];
                     metadata := parsedMetadata env intent |}) in
  (Js.Contains p "cube" \/ Js.Contains p "box" ->
   outcome (parseDesignIntent env intent) =
     design (parsedPrimitive env cube
               {[ "length" := JNum (promptSize p);
                  "width" := JNum (promptSize p);
                  "height" := JNum (promptSize p);
                  "unit" := JStr (promptUnit p) ]}))
  /\ (~ Js.Contains p "cube" -> ~ Js.Contains p "box" ->
      Js.Contains p "sphere" ->
      outcome (parseDesignIntent env intent) =
        design (parsedPrimitive env sphere
                  {[ "radius" := JNum (Number.half (promptSize p));
                     "unit" := JStr (promptUnit p) ]}))
  /\ (~ Js.Contains p "cube" -> ~ Js.Contains p "box" ->
      ~ Js.Contains p "sphere" -> Js.Contains p "cylinder" ->
      outcome (parseDesignIntent env intent) =
        design (parsedPrimitive env cylinder
                  {[ "radius" := JNum (Number.half (promptSize p));
                     "height" := JNum (promptSize p);
                     "unit" := JStr (promptUnit p) ]})).
Proof.
  intros p design. rewrite parseDesignIntent_cases. fold p.
  cbn [outcome snd]. cbv zeta.
  assert (Hno : forall k, ~ Js.Contains p k -> Js.includes p k = false).
  { intros k H. destruct (Js.includes p k) eqn:E; [|reflexivity].
    now apply includes_Contains in E. }
  split; [|split].
  - intros [H|H]; apply includes_Contains in H; rewrite H;
      rewrite ?orb_true_r; reflexivity.
  - intros H1 H2 H3. apply includes_Contains in H3.
    now rewrite (Hno _ H1), (Hno _ H2), H3.
  - intros H1 H2 H3 H4. apply includes_Contains in H4.
    now rewrite (Hno _ H1), (Hno _ H2), (Hno _ H3), H4.
Qed.

Lemma parser_shape_precedence_witness :
  let env := {| randomBase36 := "0.4fzyo82mvyr"; nowISO := "2024-05-01T10:00:00.000Z" |} in
  let intent := {| prompt := "A sphere of 8mm inside a Box"; contextId := "ctx";
                   constraints := None |} in
  exists design primitive,
    outcome (parseDesignIntent env intent) = Returned (inl design)
    /\ primitives design = [primitive]
    /\ p_type primitive = cube
    /\ p_parameters primitive !! "height" = Some (JNum (Number.ofZ 8)).
Proof.
  intros env intent.
  assert (Hbox : Js.Contains (Js.toLowerCase (prompt intent)) "box")
    by (apply includes_Contains; reflexivity).
  eexists. eexists.
  rewrite (proj1 (parser_shape_precedence env intent) (or_intror Hbox)).
  repeat split.
Defined.

(** ** The first number of the prompt *)

Section FirstNumber.

Lemma parse_uint_acc (u : Decimal.uint) (acc : positive) :
  fold_left (fun a c => (10 * a + (N_of_ascii c - 48))%N)
    (list_ascii_of_string (NilEmpty.string_of_uint u)) (N.pos acc)
  = N.pos (Pos.of_uint_acc u acc).
Proof.
  revert acc. induction u; intros acc; cbn [NilEmpty.string_of_uint
    list_ascii_of_string fold_left Pos.of_uint_acc]; [reflexivity|..];
    match goal with
    | |- fold_left _ _ ?a = _ =>
        match goal with
        | |- _ = N.pos (Pos.of_uint_acc _ ?b) =>
            replace a with (N.pos b) by (cbn; lia)
        end
    end; apply IHu.
Qed.

Lemma parse_uint (u : Decimal.uint) :
  fold_left (fun a c => (10 * a + (N_of_ascii c - 48))%N)
    (list_ascii_of_string (NilEmpty.string_of_uint u)) 0%N
  = Pos.of_uint u.
Proof.
  induction u; cbn [NilEmpty.string_of_uint list_ascii_of_string fold_left
    Pos.of_uint]; [reflexivity | exact IHu |..];
    match goal with
    | |- fold_left _ _ ?a = N.pos (Pos.of_uint_acc _ ?b) =>
        replace a with (N.pos b) by (cbn; lia)
    end; apply parse_uint_acc.
Qed.

(** Reading back the decimal text of a natural number gives the number. *)
Lemma parseDigits_digits (n : N) :
  Number.parseDigits (Number.digits n) = Number.ofZ (Z.of_N n).
Proof.
  unfold Number.parseDigits, Number.digits, NilZero.string_of_uint.
  f_equal. f_equal.
  rewrite <- (DecimalN.Unsigned.of_to n) at 2. unfold N.of_uint.
  destruct (N.to_uint n) eqn:E; try apply parse_uint. reflexivity.
Qed.

Lemma allDigit_uint (u : Decimal.uint) :
  Js.allChars Js.isDigit (NilEmpty.string_of_uint u) = true.
Proof. induction u; cbn; auto. Qed.

Lemma allDigit_digits (n : N) :
  Js.allChars Js.isDigit (Number.digits n) = true
  /\ Number.digits n <> "".
Proof.
  unfold Number.digits, NilZero.string_of_uint.
  destruct (N.to_uint n) eqn:E; split; try reflexivity; try discriminate;
    apply (allDigit_uint (_ _)).
Qed.

Lemma dropWhile_skip (f : ascii -> bool) (a b : string) :
  Js.someChar f a = false ->
  dropWhile (fun c => negb (f c)) (a +:+ b) = dropWhile (fun c => negb (f c)) b.
Proof.
  induction a as [|c a IH]; [reflexivity|].
  cbn [Js.someChar]. intros H. apply orb_false_iff in H as [Hc Ha].
  rewrite append_cons. cbn [dropWhile]. rewrite Hc. cbn [negb]. exact (IH Ha).
Qed.

Lemma takeWhile_run (f : ascii -> bool) (a b : string) :
  Js.allChars f a = true ->
  match b with EmptyString => true | String c _ => negb (f c) end = true ->
  takeWhile f (a +:+ b) = a /\ dropWhile f (a +:+ b) = b.
Proof.
  intros Ha Hb. induction a as [|c a IH].
  - rewrite append_nil_l. destruct b as [|d b]; [now split|].
    apply negb_true_iff in Hb. cbn [takeWhile dropWhile]. now rewrite Hb.
  - cbn [Js.allChars] in Ha. apply andb_true_iff in Ha as [Hc Ha].
    rewrite append_cons. cbn [takeWhile dropWhile]. rewrite Hc.
    destruct (IH Ha) as [-> ->]. now split.
Qed.

End FirstNumber.

(** X8. The dimension is the first number written in the prompt: when
    the prompt is ASCII text whose lower-cased form is some text without
    digit, then the decimal text of [n], then a rest that does not start
    with a digit, every returned design has a unit parameter that is the
    unit standing at the start of the rest after optional blanks ([mm]
    when there is none), and a cube gets as its height the number value
    of [n], that is the binary64 value nearest to [n], as [parseInt]
    gives it, whatever numbers and units come later in the prompt. *)
Theorem size_is_first_number
    (env : Env) (intent : DesignIntent) (pre post : string) (n : N)
    (design : StructuredDesign) :
  Js.allChars Js.isAscii (prompt intent) = true ->
  Js.toLowerCase (prompt intent) = pre +:+ Number.digits n +:+ post ->
  hasDimensions pre = false ->
  endsNumber post = true ->
  outcome (parseDesignIntent env intent) = Returned (inl design) ->
  dimensionMatch (Js.toLowerCase (prompt intent)) =
    Some (Number.digits n, matchUnit (dropWhile Js.isSpace post))
  /\ forall primitive, In primitive (primitives design) ->
       p_parameters primitive !! "unit" =
         Some (JStr (default "mm" (matchUnit (dropWhile Js.isSpace post))))
       /\ (p_type primitive = cube ->
           p_parameters primitive !! "height" =
             Some (JNum (Number.ofZ (Z.of_N n)))).
Proof.
  intros _ Hp Hpre Hpost.
  assert (Hm : dimensionMatch (Js.toLowerCase (prompt intent)) =
               Some (Number.digits n, matchUnit (dropWhile Js.isSpace post))).
  { rewrite Hp. unfold dimensionMatch.
    rewrite (dropWhile_skip Js.isDigit pre _ Hpre).
    destruct (allDigit_digits n) as [Hd Hne].
    destruct (takeWhile_run Js.isDigit (Number.digits n) post Hd Hpost)
      as [Ht Hdr].
    assert (Hs : exists c r, Number.digits n +:+ post = String c r
                             /\ Js.isDigit c = true).
    { destruct (Number.digits n) as [|c ds]; [congruence|].
      cbn [Js.allChars] in Hd. apply andb_true_iff in Hd as [Hc _].
      now exists c, (ds +:+ post). }
    destruct Hs as (c & r & Es & Hc). rewrite Es in *.
    cbn [dropWhile] in *. rewrite Hc in Hdr. rewrite Hc. cbn [negb].
    cbv beta. rewrite Ht. cbn [dropWhile]. now rewrite Hc, Hdr. }
  rewrite parseDesignIntent_cases. unfold promptSize, promptUnit.
  rewrite Hm, parseDigits_digits. cbn [outcome snd]. cbv zeta.
  intros Hd. split; [reflexivity|].
  destruct (matchUnit (dropWhile Js.isSpace post)) as [u|];
    destruct (Js.includes _ "cube" || Js.includes _ "box");
    [|destruct (Js.includes _ "sphere");
      [|destruct (Js.includes _ "cylinder")]| |destruct (Js.includes _ "sphere");
      [|destruct (Js.includes _ "cylinder")]];
    try discriminate Hd;
    injection Hd as <-; cbn [primitives];
    intros q [<-|[]]; (split; [reflexivity|]);
    cbn; intros Ht; (reflexivity || discriminate Ht).
Qed.

Lemma size_is_first_number_witness :
  let env := {| randomBase36 := "0.4fzyo82mvyr"; nowISO := "2024-05-01T10:00:00.000Z" |} in
  let intent := {| prompt := "Box of 12 cm, not 7mm"; contextId := "ctx";
                   constraints := None |} in
  exists design,
    outcome (parseDesignIntent env intent) = Returned (inl design)
    /\ forall primitive, In primitive (primitives design) ->
         p_parameters primitive !! "unit" = Some (JStr "cm")
         /\ (p_type primitive = cube ->
             p_parameters primitive !! "height" = Some (JNum (Number.ofZ 12))).
Proof.
  intros env intent.
  destruct (outcome (parseDesignIntent env intent)) as [[d|fb]|e] eqn:E;
    try (vm_compute in E; discriminate).
  exists d. split; [reflexivity|].
  exact (proj2 (size_is_first_number env intent "box of " " cm, not 7mm" 12 d
                  eq_refl eq_refl eq_refl eq_refl E)).
Defined.

(** ** The safety validator, exactly *)

Section Validator.

Lemma toLowerCase_split (s a b : string) :
  Js.toLowerCase s = a +:+ b ->
  exists s1 s2, s = s1 +:+ s2 /\ Js.toLowerCase s1 = a /\ Js.toLowerCase s2 = b.
Proof.
  revert s. induction a as [|c a IH]; intros s H.
  - now exists "", s.
  - destruct s as [|d s]; [discriminate H|].
    unfold Js.toLowerCase in H. cbn [Js.mapChars] in H.
    rewrite append_cons in H. injection H as Hc Hr.
    destruct (IH s Hr) as (s1 & s2 & -> & <- & <-).
    exists (String d s1), s2. rewrite <- Hc. now split.
Qed.

Lemma dangerousPatterns_lowercase (pattern : string) :
  In pattern dangerousPatterns -> Js.toLowerCase pattern = pattern.
Proof.
  intros H. unfold dangerousPatterns in H.
  repeat (destruct H as [<-|H]; [reflexivity|]). destruct H.
Qed.

(** [t] contains a denylisted pattern in some letter case. *)
Lemma scan_finds_inside (text t pattern pre mid post : string) :
  Js.Contains text t ->
  In pattern dangerousPatterns ->
  t = pre +:+ mid +:+ post -> Js.toLowerCase mid = pattern ->
  existsb (fun pat => Js.includes (Js.toLowerCase text) (Js.toLowerCase pat))
          dangerousPatterns = true.
Proof.
  intros (a & b & ->) Hin -> Hmid. apply existsb_exists.
  exists pattern. split; [exact Hin|].
  apply (scan_finds _ (a +:+ pre) mid (post +:+ b)); [|exact Hmid].
  now rewrite !append_assoc.
Qed.

Lemma Contains_join (sep x : string) (xs : list string) :
  In x xs -> Js.Contains (Js.join sep xs) x.
Proof.
  induction xs as [|y ys IH]; [intros []|].
  intros [->|Hin].
  - destruct ys as [|z zs].
    + exists "", "". cbn [Js.join]. now rewrite append_nil_l, append_nil_r.
    + exists "", (sep +:+ Js.join sep (z :: zs)). reflexivity.
  - destruct ys as [|z zs]; [destruct Hin|].
    destruct (IH Hin) as (a & b & E).
    exists (y +:+ sep +:+ a), b.
    change (Js.join sep (y :: z :: zs))
      with (y +:+ sep +:+ Js.join sep (z :: zs)).
    rewrite E. now rewrite !append_assoc.
Qed.

Lemma Contains_trans (a b c : string) :
  Js.Contains a b -> Js.Contains b c -> Js.Contains a c.
Proof.
  intros (p1 & q1 & ->) (p2 & q2 & ->).
  exists (p1 +:+ p2), (q2 +:+ q1). now rewrite !append_assoc.
Qed.

Lemma creationStatement_in_script (design : StructuredDesign) (p : PrimitiveShape) :
  In p (primitives design) ->
  In (creationStatement p) (generateCodeLines design).
Proof.
  intros Hin. rewrite generateCodeLines_blocks.
  apply in_or_app. right. apply in_or_app. left.
  apply in_flat_map. exists p. split; [exact Hin|].
  unfold primitiveBlock. rewrite generatePrimitiveCode_statements.
  right. now left.
Qed.

Lemma operationStatement_in_script (design : StructuredDesign) (o : Operation) :
  In o (operations design) ->
  In (operationStatement o) (generateCodeLines design).
Proof.
  intros Hin. rewrite generateCodeLines_blocks.
  apply in_or_app. right. apply in_or_app. right. apply in_or_app. left.
  unfold operationsSection.
  destruct (operations design) as [|o' ops] eqn:E; [destruct Hin|].
  right. apply in_flat_map. exists o. split; [exact Hin|].
  unfold operationBlock. rewrite generateOperationCode_statements. now left.
Qed.

End Validator.

(** X9. [validateScriptSafety] rejects a script exactly when its code
    contains, in some letter case, one of the eleven denylisted patterns;
    the [imports] list and the [safeToExecute] flag of the script play no
    part. *)
Theorem validateScriptSafety_exactly (script_ : FreeCADScript) :
  validateScriptSafety script_ = false <->
  exists pattern pre mid post,
    In pattern dangerousPatterns
    /\ code script_ = pre +:+ mid +:+ post
    /\ Js.toLowerCase mid = pattern.
Proof.
  unfold validateScriptSafety. rewrite negb_false_iff, existsb_exists. split.
  - intros (pattern & Hin & Hinc).
    rewrite (dangerousPatterns_lowercase _ Hin) in Hinc.
    apply includes_Contains in Hinc as (a & b & E).
    apply toLowerCase_split in E as (pre & rest & Ecode & <- & E).
    apply toLowerCase_split in E as (mid & post & -> & Hmid & _).
    now exists pattern, pre, mid, post.
  - intros (pattern & pre & mid & post & Hin & Ecode & Hmid).
    exists pattern. split; [exact Hin|].
    now apply (scan_finds _ pre mid post).
Qed.

Lemma validateScriptSafety_exactly_witness :
  validateScriptSafety
    {| code := "f = OPEN(1)"; imports := []; safeToExecute := true |} = false.
Proof.
  apply (proj2 (validateScriptSafety_exactly
                  {| code := "f = OPEN(1)"; imports := []; safeToExecute := true |})).
  exists "open(", "f = ", "OPEN(", "1)".
  split; [|split; reflexivity]. cbn. tauto.
Defined.

(** X10. Ids are copied into the script unchanged, and the validator
    sees them: when the id of a primitive of the design, or a target id of
    one of its operations, contains a denylisted pattern in some letter
    case, the generated script is rejected by [validateScriptSafety], while
    its [safeToExecute] flag is true all the same. *)
Theorem denylisted_id_is_rejected
    (design : StructuredDesign) (text pattern pre mid post : string) :
  (exists p, In p (primitives design) /\ p_id p = text)
  \/ (exists o, In o (operations design) /\ In text (o_targetIds o)) ->
  In pattern dangerousPatterns ->
  text = pre +:+ mid +:+ post ->
  Js.toLowerCase mid = pattern ->
  validateScriptSafety (generateFreeCADCode design) = false
  /\ safeToExecute (generateFreeCADCode design) = true.
Proof.
  intros Hsrc Hin Htext Hmid. split; [|reflexivity].
  unfold validateScriptSafety. apply negb_false_iff.
  apply (scan_finds_inside _ text pattern pre mid post); try assumption.
  cbn [generateFreeCADCode code].
  destruct Hsrc as [(p & Hp & <-)|(o & Ho & Ht)].
  - apply (Contains_trans _ (creationStatement p)).
    + apply Contains_join, creationStatement_in_script, Hp.
    + rewrite creationStatement_call. exists "", (" = Part." +:+ makerCall p).
      reflexivity.
  - apply (Contains_trans _ (operationStatement o)).
    + apply Contains_join, operationStatement_in_script, Ho.
    + rewrite operationStatement_call.
      apply (Contains_trans _ (resultName (o_type o) (o_targetIds o))).
      * exists "", (" = " +:+ firstTarget (o_targetIds o) +:+ operationCall o).
        reflexivity.
      * unfold resultName.
        apply (Contains_trans _ (Js.join "_" (o_targetIds o)));
          [|now apply Contains_join].
        exists ("result_" +:+ operationTypeName (o_type o) +:+ "_"), "".
        now rewrite append_nil_r, !append_assoc.
Qed.

Lemma denylisted_id_is_rejected_witness :
  let design :=
    {| primitives := [];
       operations := [{| o_type := union; o_targetIds := ["a"; "Eval(x)"];
                         o_parameters := None |}];
       metadata := {| name := "n"; description := ""; author := "";
                      createdAt := ""; units := mm |} |} in
  validateScriptSafety (generateFreeCADCode design) = false
  /\ safeToExecute (generateFreeCADCode design) = true.
Proof.
  intros design.
  apply (denylisted_id_is_rejected design "Eval(x)" "eval(" "" "Eval(" "x)").
  - right. eexists. split; [now left|]. right. now left.
  - cbn. tauto.
  - reflexivity.
  - reflexivity.
Defined.

(** ** The file name of the save hint *)

(** X11. [sanitizeName], which makes the file name of the commented save
    hint, keeps the length of the name, returns only letters, digits and
    underscores, leaves a name of letters and digits unchanged, and
    changes nothing more when applied again. *)
Theorem sanitizeName_properties (s : string) :
  String.length (sanitizeName s) = String.length s
  /\ isIdentifier (sanitizeName s) = true
  /\ sanitizeName (sanitizeName s) = sanitizeName s
  /\ (Js.allChars Js.isAlnum s = true -> sanitizeName s = s).
Proof.
  unfold sanitizeName, isIdentifier. repeat split.
  - induction s as [|c s IH]; cbn; [reflexivity | now rewrite IH].
  - apply allChars_mapChars. intros c.
    destruct c as [[] [] [] [] [] [] [] []]; reflexivity.
  - induction s as [|c s IH]; cbn [Js.mapChars]; [reflexivity|].
    rewrite IH. f_equal.
    destruct c as [[] [] [] [] [] [] [] []]; reflexivity.
  - induction s as [|c s IH]; cbn [Js.mapChars Js.allChars]; [reflexivity|].
    intros H. apply andb_true_iff in H as [Hc Hs].
    now rewrite Hc, (IH Hs).
Qed.

Lemma sanitizeName_properties_witness :
  sanitizeName "Bracket42" = "Bracket42".
Proof.
  apply (proj2 (proj2 (proj2 (sanitizeName_properties "Bracket42")))).
  reflexivity.
Defined.

(** ** Edge cases of the generator *)

(** X12. With a single target a union, difference or intersection is
    emitted as a call with an empty argument list, and with no target at
    all as a call on [undefined] bound to a name that ends in an
    underscore: the generator does not reject either. *)
Theorem boolean_operation_few_targets
    (a : string) (params : option (gmap string JsValue)) :
  let op t ids := {| o_type := t; o_targetIds := ids; o_parameters := params |} in
  operationStatement (op union [a])
    = "result_union_" +:+ a +:+ " = " +:+ a +:+ ".fuse()"
  /\ operationStatement (op difference [a])
     = "result_difference_" +:+ a +:+ " = " +:+ a +:+ ".cut()"
  /\ operationStatement (op intersection [a])
     = "result_intersection_" +:+ a +:+ " = " +:+ a +:+ ".common()"
  /\ operationStatement (op union []) = "result_union_ = undefined.fuse()"
  /\ operationStatement (op difference [])
     = "result_difference_ = undefined.cut()"
  /\ operationStatement (op intersection [])
     = "result_intersection_ = undefined.common()".
Proof.
  cbv zeta. unfold operationStatement, generateOperationCode.
  cbn [o_type o_targetIds o_parameters operationTypeName firstTarget tail
       Js.join hd app].
  repeat split; rewrite ?append_assoc; reflexivity.
Qed.

(** X13. A fillet or chamfer calls only its first target: the other
    target ids appear in the name of the result and nowhere in the call.
    A radius or distance that is a number is emitted as it is, unless it
    is zero or NaN: these two are falsy, and the call gets the default 1
    in their place. *)
Theorem edge_operation_uses_first_target
    (a : string) (rest : list string) (m : gmap string JsValue) (r : number) :
  let emitted :=
    if Number.isZero r || Number.isNaN r then "1" else Number.toString r in
  (m !! "radius" = Some (JNum r) ->
   operationStatement
     {| o_type := fillet; o_targetIds := a :: rest; o_parameters := Some m |}
   = resultName fillet (a :: rest) +:+ " = " +:+ a +:+ ".makeFillet("
       +:+ emitted +:+ ", " +:+ a +:+ ".Edges)")
  /\ (m !! "distance" = Some (JNum r) ->
      operationStatement
        {| o_type := chamfer; o_targetIds := a :: rest; o_parameters := Some m |}
      = resultName chamfer (a :: rest) +:+ " = " +:+ a +:+ ".makeChamfer("
          +:+ emitted +:+ ", " +:+ a +:+ ".Edges)").
Proof.
  intros emitted.
  assert (Hor : Value.toString (Value.or (JNum r) (JNum (Number.ofZ 1)))
                = emitted).
  { unfold Value.or, emitted. cbn [Value.truthy].
    destruct (Number.isZero r || Number.isNaN r); [vm_compute|]; reflexivity. }
  split; intros Hm; unfold operationStatement, generateOperationCode, resultName;
    cbn [o_type o_targetIds o_parameters operationTypeName firstTarget];
    unfold Value.optProp; rewrite (prop_lookup _ _ _ Hm), Hor;
    cbn [hd app]; rewrite !append_assoc; reflexivity.
Qed.

Lemma edge_operation_uses_first_target_witness :
  operationStatement
    {| o_type := fillet; o_targetIds := ["plate"; "rib"];
       o_parameters := Some {[ "radius" := JNum (Number.half (Number.ofZ 5)) ]} |}
  = "result_fillet_plate_rib = plate.makeFillet(2.5, plate.Edges)"
  /\ operationStatement
       {| o_type := chamfer; o_targetIds := ["plate"; "rib"];
          o_parameters := Some {[ "distance" := JNum S754_nan ]} |}
     = "result_chamfer_plate_rib = plate.makeChamfer(1, plate.Edges)".
Proof.
  split.
  - assert (Hm : ({[ "radius" := JNum (Number.half (Number.ofZ 5)) ]}
                    : gmap string JsValue) !! "radius"
                 = Some (JNum (Number.half (Number.ofZ 5)))) by reflexivity.
    rewrite (proj1 (edge_operation_uses_first_target "plate" ["rib"] _ _) Hm).
    vm_compute. reflexivity.
  - assert (Hm : ({[ "distance" := JNum S754_nan ]} : gmap string JsValue)
                   !! "distance" = Some (JNum S754_nan)) by reflexivity.
    rewrite (proj2 (edge_operation_uses_first_target "plate" ["rib"] _ _) Hm).
    vm_compute. reflexivity.
Defined.

(** X14. The name an operation binds its result to does not identify its
    targets. For a union, a difference or an intersection, the target
    list that starts with the one name [a_b] and the list that starts
    with the two names [a] and [b], followed by the same names, give two
    statements that read back as calls on different receivers with
    different arguments, assigned to the same variable: two operations of
    a design can overwrite each other's result. *)
Theorem result_names_collide
    (t : OperationType) (a b : string) (rest : list string)
    (params : option (gmap string JsValue)) :
  In t [union; difference; intersection] ->
  Forall (fun id => isName id = true) (a :: b :: rest) ->
  exists result line1 tail1 line2 tail2,
    generateOperationCode
      {| o_type := t; o_targetIds := (a +:+ "_" +:+ b) :: rest;
         o_parameters := params |} = line1 :: tail1
    /\ generateOperationCode
         {| o_type := t; o_targetIds := a :: b :: rest;
            o_parameters := params |} = line2 :: tail2
    /\ readCall line1 =
         Some {| c_result := result; c_receiver := a +:+ "_" +:+ b;
                 c_method := combinator t; c_arguments := rest |}
    /\ readCall line2 =
         Some {| c_result := result; c_receiver := a;
                 c_method := combinator t; c_arguments := b :: rest |}.
Proof.
  intros Ht Hids.
  assert (Hab : isName (a +:+ "_" +:+ b) = true).
  { inversion Hids as [|? ? Ha Hrest]. inversion Hrest as [|? ? Hb _].
    apply andb_true_iff in Ha as [Ha _]. apply andb_true_iff in Hb as [Hb _].
    unfold isName, isIdentifier. rewrite !allChars_append.
    fold (isIdentifier a) (isIdentifier b). rewrite Ha, Hb.
    destruct a; reflexivity. }
  assert (Hids1 : Forall (fun id => isName id = true)
                    ((a +:+ "_" +:+ b) :: rest)).
  { constructor; [exact Hab|]. inversion Hids as [|? ? _ Hrest].
    now inversion Hrest. }
  destruct (readCall_boolean t (a +:+ "_" +:+ b) rest params Ht Hids1)
    as [Hread1 _].
  destruct (readCall_boolean t a (b :: rest) params Ht Hids) as [Hread2 _].
  eexists _, _, _, _, _.
  split; [apply generateOperationCode_statements|].
  split; [apply generateOperationCode_statements|].
  split; [|exact Hread2].
  rewrite Hread1. do 2 f_equal. unfold resultName. do 2 f_equal.
  destruct rest as [|r rest']; cbn [Js.join]; now rewrite ?append_assoc.
Qed.

Lemma result_names_collide_witness :
  exists result line1 tail1 line2 tail2,
    generateOperationCode
      {| o_type := difference; o_targetIds := ["base_plate"; "hole"];
         o_parameters := None |} = line1 :: tail1
    /\ generateOperationCode
         {| o_type := difference; o_targetIds := ["base"; "plate"; "hole"];
            o_parameters := None |} = line2 :: tail2
    /\ readCall line1 =
         Some {| c_result := result; c_receiver := "base_plate";
                 c_method := "cut"; c_arguments := ["hole"] |}
    /\ readCall line2 =
         Some {| c_result := result; c_receiver := "base";
                 c_method := "cut"; c_arguments := ["plate"; "hole"] |}.
Proof.
  apply (result_names_collide difference "base" "plate" ["hole"] None);
    [right; now left | repeat constructor].
Defined.

(** X15. A parameter that is missing is not an error: the creation call
    is emitted with the text [undefined] in its place, except the second
    radius of a cone, which is 0 when it is missing and also when it is
    given as 0. *)
Theorem missing_parameters_are_undefined (p : PrimitiveShape) :
  (p_parameters p = ∅ ->
   creationStatement p =
     p_id p +:+ " = Part." +:+
     match p_type p with
     | cube => "makeBox(undefined, undefined, undefined)"
     | sphere => "makeSphere(undefined)"
     | cylinder => "makeCylinder(undefined, undefined)"
     | cone => "makeCone(undefined, 0, undefined)"
     | torus => "makeTorus(undefined, undefined)"
     end)
  /\ (p_type p = cone ->
      p_parameters p !! "radius2" = None
      \/ (exists zero, p_parameters p !! "radius2" = Some (JNum zero)
                       /\ Number.isZero zero = true) ->
      creationStatement p =
        p_id p +:+ " = Part.makeCone("
          +:+ Value.toString (Value.prop (p_parameters p) "radius1") +:+ ", 0, "
          +:+ Value.toString (Value.prop (p_parameters p) "height") +:+ ")").
Proof.
  split.
  - intros He. rewrite creationStatement_call. unfold makerCall, Value.prop.
    rewrite He. destruct (p_type p); reflexivity.
  - intros Ht Hr. rewrite creationStatement_call. unfold makerCall.
    rewrite Ht.
    assert (E : Value.or (Value.prop (p_parameters p) "radius2")
                  (JNum (Number.ofZ 0)) = JNum (Number.ofZ 0)).
    { destruct Hr as [Hr|(z & Hr & Hz)].
      - unfold Value.prop. now rewrite Hr.
      - now rewrite (prop_lookup _ _ _ Hr), (or_zero _ _ Hz). }
    rewrite E. reflexivity.
Qed.

Lemma missing_parameters_are_undefined_witness :
  creationStatement
    {| p_id := "c1"; p_type := cone;
       p_parameters := {[ "radius1" := JNum (Number.ofZ 4);
                          "height" := JNum (Number.ofZ 9) ]};
       p_position := None; p_rotation := None |}
  = "c1 = Part.makeCone(4, 0, 9)"
  /\ creationStatement
       {| p_id := "b1"; p_type := cube; p_parameters := ∅;
          p_position := None; p_rotation := None |}
     = "b1 = Part.makeBox(undefined, undefined, undefined)".
Proof.
  split.
  - match goal with |- creationStatement ?p = _ =>
      rewrite (proj2 (missing_parameters_are_undefined p) eq_refl
                 (or_introl eq_refl))
    end.
    reflexivity.
  - match goal with |- creationStatement ?p = _ =>
      rewrite (proj1 (missing_parameters_are_undefined p) eq_refl)
    end.
    reflexivity.
Defined.

(** ** The script of a parsed design *)

(** X16. The parser and the generator composed: when the random part of
    the id is made of letters and digits, the script generated from a
    design the parser returned has 17 lines, starts with the seven header
    lines, has exactly one primitive-creation statement, that of the one
    primitive, and no operation statement. *)
Theorem parsed_design_script
    (env : Env) (intent : DesignIntent) (design : StructuredDesign) :
  isIdentifier (String.substring 2 9 (randomBase36 env)) = true ->
  outcome (parseDesignIntent env intent) = Returned (inl design) ->
  let lines := scriptLines (generateFreeCADCode design) in
  List.length lines = 17
  /\ firstn 7 lines = scriptHeader
  /\ List.filter isPrimitiveCreation lines
     = map creationStatement (primitives design)
  /\ List.length (List.filter isPrimitiveCreation lines) = 1
  /\ List.filter isOperationStatement lines = [].
Proof.
  intros Hrnd Hparse lines.
  assert (Hwf := parseDesignIntent_wellFormed env intent design Hrnd Hparse).
  unfold lines. rewrite (scriptLines_generateFreeCADCode design Hwf).
  destruct (generateCodeLines_statements design Hwf) as [-> ->].
  rewrite generateCodeLines_blocks.
  rewrite parseDesignIntent_cases in Hparse. cbn [outcome snd] in Hparse.
  cbv zeta in Hparse.
  destruct (Js.includes _ "cube" || Js.includes _ "box");
    [|destruct (Js.includes _ "sphere");
      [|destruct (Js.includes _ "cylinder")]];
    try discriminate Hparse; injection Hparse as <-; repeat split.
Qed.

Lemma parsed_design_script_witness :
  let env := {| randomBase36 := "0.4fzyo82mvyr"; nowISO := "2024-05-01T10:00:00.000Z" |} in
  let intent := {| prompt := "cylinder 40mm"; contextId := "ctx";
                   constraints := None |} in
  exists design,
    outcome (parseDesignIntent env intent) = Returned (inl design)
    /\ List.filter isPrimitiveCreation (scriptLines (generateFreeCADCode design))
       = ["shape_4fzyo82mv = Part.makeCylinder(20, 40)"].
Proof.
  intros env intent.
  destruct (outcome (parseDesignIntent env intent)) as [[d|fb]|e] eqn:E;
    try (vm_compute in E; discriminate).
  exists d. split; [reflexivity|].
  destruct (parsed_design_script env intent d eq_refl E) as (_ & _ & -> & _).
  vm_compute in E. injection E as <-. reflexivity.
Defined.

(** ** The feedback collector *)

(** X17. Every feedback [generateUserFeedback] makes is complete: its
    status is success or error, following the success flag of the result;
    it has a non-empty details text and at least one suggested action. For
    a success with [n >= 1] warnings the details text carries [n]. *)
Theorem generateUserFeedback_complete (result : ExecutionResult) :
  let fb := generateUserFeedback result in
  status fb = (if success result then StSuccess else StError)
  /\ (exists d acts,
        details fb = Some d /\ d <> ""
        /\ suggestedActions fb = Some acts /\ acts <> [])
  /\ (success result = true -> 0 < warningCount result ->
      details fb =
        Some ("Model created with "
                +:+ Number.digits (N.of_nat (warningCount result))
                +:+ " warning(s).")).
Proof.
  destruct result as [ok ids err ws url].
  unfold generateUserFeedback, getSuggestedActionsForSuccess,
    getSuggestedActionsForFailure, hasWarnings, warningCount.
  cbn [success warnings errorMessage]. destruct ok; cbn.
  - split; [reflexivity|]. split.
    + destruct ws as [[|w ws]|]; cbn; eexists; eexists;
        repeat split; discriminate.
    + intros _ Hn. destruct ws as [[|w ws]|]; cbn in *; try lia. reflexivity.
  - split; [reflexivity|]. split; [|intros H; discriminate H].
    destruct err as [[|c msg]|]; cbn; eexists; eexists;
      repeat split; discriminate.
Qed.

Lemma generateUserFeedback_complete_witness :
  details (generateUserFeedback
             {| success := true; objectIds := None; errorMessage := None;
                warnings := Some ["thin wall"; "open shell"; "tiny face"];
                renderUrl := None |})
  = Some "Model created with 3 warning(s).".
Proof.
  match goal with |- details (generateUserFeedback ?r) = _ =>
    rewrite (proj2 (proj2 (generateUserFeedback_complete r)) eq_refl)
  end; [reflexivity | cbn; lia].
Defined.

Section Formatting.

Lemma formatErrorMessage_cases (m : string) :
  formatErrorMessage m =
    if Js.includes m "TopoDS_Shape is null" then
      "The design resulted in an invalid shape. Try simplifying your geometry."
    else if Js.includes m "out of bounds" then
      "One or more parameters are out of the allowed range. Check your dimensions."
    else m.
Proof. reflexivity. Qed.

Lemma not_Contains (s k : string) :
  Js.includes s k = false -> ~ Js.Contains s k.
Proof. intros H Hc. apply includes_Contains in Hc. congruence. Qed.

End Formatting.

(** X18. [formatErrorMessage] checks the invalid-shape text first: a
    message that contains [TopoDS_Shape is null] is replaced by the
    invalid-shape sentence even when it also contains [out of bounds];
    one that contains only [out of bounds] is replaced by the
    out-of-range sentence; and whatever the message was, the result
    contains none of the two engine texts. *)
Theorem formatErrorMessage_precedence (m : string) :
  (Js.Contains m "TopoDS_Shape is null" ->
   formatErrorMessage m =
     "The design resulted in an invalid shape. Try simplifying your geometry.")
  /\ (~ Js.Contains m "TopoDS_Shape is null" -> Js.Contains m "out of bounds" ->
      formatErrorMessage m =
        "One or more parameters are out of the allowed range. Check your dimensions.")
  /\ (forall k, In k knownEngineErrors -> ~ Js.Contains (formatErrorMessage m) k).
Proof.
  rewrite formatErrorMessage_cases. split; [|split].
  - intros H. apply includes_Contains in H. now rewrite H.
  - intros H1 H2. apply includes_Contains in H2.
    destruct (Js.includes m "TopoDS_Shape is null") eqn:E.
    + apply includes_Contains in E. contradiction.
    + now rewrite H2.
  - intros k Hk.
    destruct (Js.includes m "TopoDS_Shape is null") eqn:E1;
      [|destruct (Js.includes m "out of bounds") eqn:E2].
    + destruct Hk as [<-|[<-|[]]]; now apply not_Contains.
    + destruct Hk as [<-|[<-|[]]]; now apply not_Contains.
    + destruct Hk as [<-|[<-|[]]]; now apply not_Contains.
Qed.

Lemma formatErrorMessage_precedence_witness :
  formatErrorMessage "index out of bounds: TopoDS_Shape is null"
  = "The design resulted in an invalid shape. Try simplifying your geometry.".
Proof.
  apply (proj1 (formatErrorMessage_precedence _)).
  apply includes_Contains. reflexivity.
Defined.

(** X19. [generateUserFeedback] shows the error message of a failed
    result as it is: the details are the message itself whenever it is
    present and not empty, and a fixed sentence otherwise.
    [formatErrorMessage] is not applied, so an engine message that it would
    rewrite reaches the user unchanged. *)
Theorem failure_details_are_raw (result : ExecutionResult) :
  success result = false ->
  (forall msg, errorMessage result = Some msg -> msg <> "" ->
     details (generateUserFeedback result) = Some msg
     /\ ((exists k, In k knownEngineErrors /\ Js.Contains msg k) ->
         details (generateUserFeedback result)
           <> Some (formatErrorMessage msg)))
  /\ (errorMessage result = None \/ errorMessage result = Some "" ->
      details (generateUserFeedback result)
        = Some "An unknown error occurred during execution.").
Proof.
  intros Hs. unfold generateUserFeedback. rewrite Hs. cbn [details]. split.
  - intros msg Hm Hne. rewrite Hm.
    assert (E : String.eqb msg "" = false) by now apply String.eqb_neq.
    rewrite E. split; [reflexivity|].
    intros (k & Hk & Hc) [= Heq].
    rewrite Heq in Hc.
    revert Hc. rewrite formatErrorMessage_cases.
    destruct (Js.includes msg "TopoDS_Shape is null") eqn:E1;
      [|destruct (Js.includes msg "out of bounds") eqn:E2].
    + destruct Hk as [<-|[<-|[]]]; now apply not_Contains.
    + destruct Hk as [<-|[<-|[]]]; now apply not_Contains.
    + destruct Hk as [<-|[<-|[]]]; now apply not_Contains.
  - intros [H|H]; rewrite H; reflexivity.
Qed.

Lemma failure_details_are_raw_witness :
  details (generateUserFeedback
             {| success := false; objectIds := None;
                errorMessage := Some "Part.makeBox: value out of bounds";
                warnings := Some []; renderUrl := None |})
  = Some "Part.makeBox: value out of bounds".
Proof.
  match goal with |- details (generateUserFeedback ?r) = _ =>
    apply (proj1 (proj1 (failure_details_are_raw r eq_refl) _ eq_refl
                    ltac:(discriminate)))
  end.
Defined.

(** ** Scanning a text made of known and unknown pieces *)

Section ScanSound.

Variable pat : list ascii.
Hypothesis pat_not_empty : pat <> [].

(** [x] ends [s]. *)
Let Suffix (x s : list ascii) : Prop := exists pre, s = pre ++ x.

(** The pattern occurs nowhere in [s]. *)
Let NoMatch (s : list ascii) : Prop := forall a b, s <> a ++ pat ++ b.

(** [X] has every length [k] such that the first [k] characters of the
    pattern end [s]. *)
Let Cover (s : list ascii) (X : list nat) : Prop :=
  forall k, k <= List.length pat -> Suffix (firstn k pat) s -> In k X.

Lemma firstn_snoc (k : nat) :
  k < List.length pat ->
  exists d, nth_error pat k = Some d /\ firstn (S k) pat = firstn k pat ++ [d].
Proof.
  clear pat_not_empty. revert k. induction pat as [|x l IH]; intros k Hk;
    [cbn in Hk; lia|].
  destruct k as [|k].
  - exists x. now split.
  - cbn in Hk. destruct (IH k ltac:(lia)) as (d & Hd & E).
    exists d. split; [exact Hd|]. cbn [firstn]. cbn [firstn] in E.
    now rewrite E.
Qed.

Lemma suffix_snoc (s : list ascii) (c : ascii) (k : nat) :
  S k <= List.length pat ->
  Suffix (firstn (S k) pat) (s ++ [c]) ->
  Suffix (firstn k pat) s /\ nth_error pat k = Some c.
Proof.
  intros Hk [pre E].
  destruct (firstn_snoc k Hk) as (d & Hd & Ef). rewrite Ef in E.
  rewrite app_assoc in E. apply app_inj_tail in E as [E <-].
  split; [now exists pre | exact Hd].
Qed.

Lemma accepts_In (X : list nat) :
  Scan.accepts pat X = true <-> In (List.length pat) X.
Proof.
  unfold Scan.accepts. rewrite existsb_exists. split.
  - intros (k & Hk & E). apply Nat.eqb_eq in E. now subst.
  - intros H. exists (List.length pat). split; [exact H | apply Nat.eqb_refl].
Qed.

Lemma subset_In (X Y : list nat) :
  Scan.subset X Y = true -> forall k, In k X -> In k Y.
Proof.
  unfold Scan.subset. rewrite forallb_forall. intros H k Hk.
  specialize (H k Hk). apply existsb_exists in H as (j & Hj & E).
  apply Nat.eqb_eq in E. now subst.
Qed.

Lemma step_cover (s : list ascii) (X : list nat) (c : ascii) :
  Cover s X -> Cover (s ++ [c]) (Scan.step pat X c).
Proof.
  intros HX [|k] Hk Hs; [now left|]. right.
  destruct (suffix_snoc s c k Hk Hs) as [Hs' Hc].
  apply in_map, filter_In. split; [apply HX; [lia | exact Hs']|].
  unfold Scan.matchesAt. rewrite Hc. apply Ascii.eqb_refl.
Qed.

(** An occurrence in [s ++ w] lies in [s] or ends inside [w]. *)
Lemma occurrence_cases (s w a b : list ascii) :
  s ++ w = a ++ pat ++ b ->
  (exists b', s = a ++ pat ++ b')
  \/ (exists w1 w2, w = w1 ++ w2 /\ Suffix pat (s ++ w1)).
Proof.
  intros E. rewrite app_assoc in E.
  apply app_eq_app in E as [l [[E1 E2]|[E1 E2]]].
  - left. exists l. now rewrite E1, <- app_assoc.
  - right. exists l, b. split; [exact E2|]. exists a. now rewrite <- E1.
Qed.

Lemma runLit_sound (l s : list ascii) (X X' : list nat) :
  NoMatch s -> Cover s X -> Scan.runLit pat X l = Some X' ->
  NoMatch (s ++ l) /\ Cover (s ++ l) X'.
Proof.
  revert s X. induction l as [|c l IH]; intros s X Hn Hc Hrun.
  - cbn in Hrun. injection Hrun as <-. now rewrite app_nil_r.
  - cbn [Scan.runLit] in Hrun.
    destruct (Scan.accepts pat (Scan.step pat X c)) eqn:Ea; [discriminate|].
    assert (Hc' := step_cover s X c Hc).
    assert (Hn' : NoMatch (s ++ [c])).
    { intros a b E.
      destruct (occurrence_cases s [c] a b E) as [[b' E']|(w1 & w2 & Ew & Hs)].
      - exact (Hn a b' E').
      - destruct w1 as [|x w1].
        + rewrite app_nil_r in Hs. destruct Hs as [pre Hs].
          apply (Hn pre []). now rewrite app_nil_r.
        + injection Ew as <- Ew.
          destruct w1; [|discriminate Ew].
          assert (Hin : In (List.length pat) (Scan.step pat X c)).
          { apply Hc'; [lia|]. now rewrite firstn_all. }
          apply accepts_In in Hin. congruence. }
    replace (s ++ c :: l) with ((s ++ [c]) ++ l) by now rewrite <- app_assoc.
    exact (IH _ _ Hn' Hc' Hrun).
Qed.

Lemma class_cover (A : ascii -> bool) (s : list ascii) (X closed : list nat)
    (w : list ascii) :
  Cover s X ->
  Scan.subset X closed = true ->
  Scan.subset (Scan.stepClass pat A closed) closed = true ->
  Forall (fun c => A c = true) w ->
  Cover (s ++ w) closed.
Proof.
  intros Hc HX Hcl. induction w as [|c w IH] using rev_ind; intros Hw.
  - rewrite app_nil_r. intros k Hk Hs. exact (subset_In _ _ HX k (Hc k Hk Hs)).
  - apply Forall_app in Hw as [Hw Hcc]. inversion Hcc as [|? ? HA _]; subst.
    specialize (IH Hw). rewrite app_assoc.
    intros k Hk Hs. apply (subset_In _ _ Hcl). unfold Scan.stepClass.
    apply nodup_In, in_or_app. right.
    destruct k as [|k]; [now left|]. right.
    destruct (suffix_snoc _ c k Hk Hs) as [Hs' Hd].
    apply in_map, filter_In. split; [apply IH; [lia | exact Hs']|].
    unfold Scan.inClass. now rewrite Hd.
Qed.

Lemma free_align (s : list ascii) (X : list nat) (w : list ascii) :
  Cover s X -> Scan.subset X [0] = true ->
  forall k, k <= List.length pat ->
    Suffix (firstn k pat) (s ++ w) -> Suffix (firstn k pat) w.
Proof.
  intros Hc HX. induction w as [|c w IH] using rev_ind; intros k Hk Hs.
  - rewrite app_nil_r in Hs.
    destruct (subset_In _ _ HX k (Hc k Hk Hs)) as [<-|[]]. now exists [].
  - destruct k as [|k]; [exists (w ++ [c]); now rewrite app_nil_r|].
    rewrite app_assoc in Hs.
    destruct (suffix_snoc _ c k Hk Hs) as [Hs' Hd].
    destruct (IH k ltac:(lia) Hs') as [pre E].
    destruct (firstn_snoc k Hk) as (d & Hd' & Ef).
    exists pre. rewrite Ef, E, <- app_assoc. congruence.
Qed.

Lemma Forall_prefix {A} (P : A -> Prop) (l1 l2 : list A) :
  Forall P (l1 ++ l2) -> Forall P l1.
Proof. intros H. now apply Forall_app in H. Qed.

(** What is assumed of the unknown word of a segment, on lists. *)
Let validL (seg : Scan.Segment) : Prop :=
  match seg with
  | Scan.Lit _ => True
  | Scan.Cls A w => Forall (fun c => A c = true) (list_ascii_of_string w)
  | Scan.Free w => NoMatch (list_ascii_of_string w)
  end.

Lemma runSegment_sound (seg : Scan.Segment) (s : list ascii) (X X' : list nat) :
  NoMatch s -> Cover s X -> validL seg ->
  Scan.runSegment pat X seg = Some X' ->
  NoMatch (s ++ list_ascii_of_string (Scan.word seg))
  /\ Cover (s ++ list_ascii_of_string (Scan.word seg)) X'.
Proof.
  intros Hn Hc Hv Hrun. destruct seg as [l|A w|w]; cbn [Scan.word].
  - exact (runLit_sound _ s X X' Hn Hc Hrun).
  - cbn [Scan.runSegment] in Hrun. cbv zeta in Hrun.
    set (closed := Scan.iterate _ _ _) in Hrun.
    destruct (Scan.subset X closed) eqn:E1; [|discriminate].
    destruct (Scan.subset (Scan.stepClass pat A closed) closed) eqn:E2;
      [|discriminate].
    destruct (Scan.accepts pat closed) eqn:E3; [discriminate|].
    injection Hrun as <-.
    split; [|exact (class_cover A s X closed _ Hc E1 E2 Hv)].
    intros a b E.
    destruct (occurrence_cases _ _ a b E) as [[b' E']|(w1 & w2 & Ew & Hs)].
    + exact (Hn a b' E').
    + cbn [validL] in Hv. rewrite Ew in Hv.
      assert (Hc1 := class_cover A s X closed w1 Hc E1 E2 (Forall_prefix _ _ _ Hv)).
      assert (Hin : In (List.length pat) closed).
      { apply Hc1; [lia|]. now rewrite firstn_all. }
      apply accepts_In in Hin. congruence.
  - cbn [Scan.runSegment] in Hrun.
    destruct (Scan.subset X [0]) eqn:E1; [|discriminate].
    injection Hrun as <-.
    assert (Hn' : NoMatch (s ++ list_ascii_of_string w)).
    { intros a b E.
      destruct (occurrence_cases _ _ a b E) as [[b' E']|(w1 & w2 & Ew & Hs)].
      - exact (Hn a b' E').
      - assert (Hs' : Suffix (firstn (List.length pat) pat) (s ++ w1))
          by now rewrite firstn_all.
        apply (free_align s X w1 Hc E1 _ (Nat.le_refl _)) in Hs'.
        rewrite firstn_all in Hs'. destruct Hs' as [pre Hw1].
        apply (Hv pre w2). now rewrite Ew, Hw1, <- app_assoc. }
    split; [exact Hn'|].
    intros k Hk Hs. apply in_seq. split; [lia|]. cbn.
    destruct (Nat.eq_dec k (List.length pat)) as [->|Hne]; [|lia].
    exfalso. rewrite firstn_all in Hs. destruct Hs as [pre Hs].
    apply (Hn' pre []). now rewrite app_nil_r.
Qed.

Lemma list_ascii_of_string_append (a b : string) :
  list_ascii_of_string (a +:+ b)
  = list_ascii_of_string a ++ list_ascii_of_string b.
Proof.
  induction a as [|c a IH]; [reflexivity|].
  rewrite append_cons. cbn. now rewrite IH.
Qed.

Lemma run_sound (segs : list Scan.Segment) (s : list ascii) (X : list nat) :
  NoMatch s -> Cover s X -> Forall validL segs ->
  Scan.run pat X segs = true ->
  NoMatch (s ++ list_ascii_of_string (Scan.text segs)).
Proof.
  revert s X. induction segs as [|seg segs IH]; intros s X Hn Hc Hv Hrun.
  - cbn. now rewrite app_nil_r.
  - inversion Hv as [|? ? Hv1 Hv2]; subst. cbn [Scan.run] in Hrun.
    destruct (Scan.runSegment pat X seg) as [X'|] eqn:E; [|discriminate].
    destruct (runSegment_sound seg s X X' Hn Hc Hv1 E) as [Hn' Hc'].
    cbn [Scan.text fold_right]. rewrite list_ascii_of_string_append, app_assoc.
    exact (IH _ _ Hn' Hc' Hv2 Hrun).
Qed.

Lemma run_from_start (segs : list Scan.Segment) :
  Forall validL segs -> Scan.run pat [0] segs = true ->
  NoMatch (list_ascii_of_string (Scan.text segs)).
Proof.
  intros Hv Hrun. apply (run_sound segs [] [0]); try assumption.
  - intros a b E. symmetry in E. apply app_eq_nil in E as [_ E].
    apply app_eq_nil in E as [E _]. contradiction.
  - intros k Hk [pre E]. symmetry in E. apply app_eq_nil in E as [_ E].
    assert (Hl : List.length (firstn k pat) = k) by (apply firstn_length_le; lia).
    rewrite E in Hl. cbn in Hl. now left.
Qed.

End ScanSound.

Section ScanStrings.

Lemma string_of_list_ascii_app (a b : list ascii) :
  string_of_list_ascii (a ++ b)
  = string_of_list_ascii a +:+ string_of_list_ascii b.
Proof.
  induction a as [|c a IH]; [reflexivity|].
  cbn. now rewrite IH.
Qed.

Lemma Contains_of_lists (w p : string) (a b : list ascii) :
  list_ascii_of_string w = a ++ list_ascii_of_string p ++ b ->
  Js.Contains w p.
Proof.
  intros E. exists (string_of_list_ascii a), (string_of_list_ascii b).
  rewrite <- (string_of_list_ascii_of_string w), E.
  now rewrite !string_of_list_ascii_app, string_of_list_ascii_of_string.
Qed.

Lemma Forall_allChars (A : ascii -> bool) (w : string) :
  Js.allChars A w = true ->
  Forall (fun c => A c = true) (list_ascii_of_string w).
Proof.
  induction w as [|c w IH]; cbn; [constructor|].
  intros H. apply andb_true_iff in H as [Hc Hw]. constructor; auto.
Qed.

(** Soundness of the scan: a pattern that the scan excludes occurs in no
    text made of the segments. *)
Lemma excludes_sound (pat : string) (segs : list Scan.Segment) :
  Scan.excludes pat segs = true ->
  Forall (Scan.valid pat) segs ->
  Js.includes (Scan.text segs) pat = false.
Proof.
  intros Hex Hv.
  destruct (Js.includes (Scan.text segs) pat) eqn:E; [|reflexivity].
  exfalso. apply includes_Contains in E as (a & b & E).
  assert (Hne : list_ascii_of_string pat <> []).
  { destruct pat; [discriminate Hex | discriminate]. }
  assert (Hrun : Scan.run (list_ascii_of_string pat) [0] segs = true).
  { destruct pat; [discriminate Hex | exact Hex]. }
  refine (run_from_start (list_ascii_of_string pat) Hne segs _ Hrun
            (list_ascii_of_string a) (list_ascii_of_string b) _).
  - eapply Forall_impl; [exact Hv|]. intros seg Hs.
    destruct seg as [l|A w|w]; cbn in *.
    + exact I.
    + now apply Forall_allChars.
    + intros a' b' E'. apply Contains_of_lists in E'.
      apply includes_Contains in E'. congruence.
  - now rewrite E, !list_ascii_of_string_append.
Qed.

End ScanStrings.

(** ** The safety of the scripts of parsed designs *)

Section NumberTexts.

Lemma allChars_toLowerCase (A : ascii -> bool) (w : string) :
  (forall c, A c = true -> A (Js.lowerChar c) = true) ->
  Js.allChars A w = true -> Js.allChars A (Js.toLowerCase w) = true.
Proof.
  intros HA. unfold Js.toLowerCase.
  induction w as [|c w IH]; cbn; [reflexivity|].
  intros H. apply andb_true_iff in H as [Hc Hw].
  now rewrite (HA c Hc), (IH Hw).
Qed.

Lemma lowerChar_classes (c : ascii) :
  (Js.isAlnum c = true -> Js.isAlnum (Js.lowerChar c) = true)
  /\ (isNumberChar c = true -> isNumberChar (Js.lowerChar c) = true)
  /\ (isIdentChar c = true -> isIdentChar (Js.lowerChar c) = true).
Proof.
  destruct c as [[] [] [] [] [] [] [] []]; repeat split; intros H;
    try exact H; try reflexivity; try discriminate H.
Qed.

End NumberTexts.

Section ParsedScript.

Lemma lowered_text (nameIsFree : bool) (pieces : list Piece) :
  Scan.text (map (lowered nameIsFree) pieces)
  = Js.toLowerCase (piecesText pieces).
Proof.
  induction pieces as [|piece pieces IH]; [reflexivity|].
  cbn [map Scan.text piecesText fold_right].
  fold (Scan.text (map (lowered nameIsFree) pieces)).
  fold (piecesText pieces).
  rewrite toLowerCase_append, IH. f_equal.
  destruct piece as [s|A w|w]; [reflexivity | reflexivity|].
  now destruct nameIsFree.
Qed.

Lemma Contains_piece (piece : Piece) (pieces : list Piece) :
  In piece pieces -> Js.Contains (piecesText pieces) (pieceText piece).
Proof.
  induction pieces as [|q pieces IH]; [intros []|].
  cbn [piecesText fold_right]. fold (piecesText pieces).
  intros [->|Hin].
  - now exists "", (piecesText pieces).
  - destruct (IH Hin) as (a & b & E). exists (pieceText q +:+ a), b.
    rewrite E. now rewrite !append_assoc.
Qed.

(** The code of the script of a design the parser makes. *)
Lemma parsed_code (env : Env) (intent : DesignIntent) (t : PrimitiveType)
    (params : gmap string JsValue) (size : number) (u : string) :
  (t = cube /\ params = {[ "length" := JNum size; "width" := JNum size;
                           "height" := JNum size; "unit" := JStr u ]})
  \/ (t = sphere /\ params = {[ "radius" := JNum (Number.half size);
                                "unit" := JStr u ]})
  \/ (t = cylinder /\ params = {[ "radius" := JNum (Number.half size);
                                  "height" := JNum size; "unit" := JStr u ]}) ->
  code (generateFreeCADCode
          {| primitives := [parsedPrimitive env t params];
             operations := [];
             metadata := parsedMetadata env intent |})
  = piecesText
      (parsedScriptPieces t (String.substring 2 9 (randomBase36 env))
         (parsedArguments t size)
         (sanitizeName (name (parsedMetadata env intent)))).
Proof.
  intros Hshape.
  unfold generateFreeCADCode. cbn [code].
  rewrite generateCodeLines_blocks.
  cbn [primitives operations flat_map operationsSection metadata].
  unfold primitiveBlock.
  rewrite generatePrimitiveCode_statements, creationStatement_call.
  unfold makerCall, translationStatements, rotationStatements,
    bindingStatements, scriptFooter, scriptHeader, standardImports,
    parsedPrimitive, generateId.
  destruct Hshape as [[-> ->]|[[-> ->]|[-> ->]]];
    cbn [p_id p_type p_parameters p_position p_rotation app
         primitiveTypeName metadata];
    unfold parsedArguments; generalize (Number.half size); intros halfSize;
    repeat match goal with
           | |- context [Value.prop ?m ?k] =>
               let v := eval cbv in (m !! k) in
               match v with
               | Some ?x => change (Value.prop m k) with x
               end
           end.
  all: cbn [Value.toString Js.join];
    unfold parsedScriptPieces, parsedArguments, piecesText;
    cbn [argumentPieces app fold_right pieceText makerName primitiveTypeName
         Js.join];
    rewrite !append_assoc; reflexivity.
Qed.

Lemma argumentPieces_valid (pat : string) (b : bool) (args : list string) :
  Forall (fun a => Js.allChars isNumberChar a = true) args ->
  Forall (Scan.valid pat) (map (lowered b) (argumentPieces args)).
Proof.
  induction 1 as [|a args Ha Hargs IH]; [constructor|].
  assert (Hla : Js.allChars isNumberChar (Js.toLowerCase a) = true).
  { apply allChars_toLowerCase; [|exact Ha]. intros c. apply lowerChar_classes. }
  destruct args as [|a' args'].
  - repeat constructor. exact Hla.
  - cbn [argumentPieces map]. constructor; [exact Hla|].
    constructor; [exact I | exact IH].
Qed.

(** A pattern the scan excludes from the pieces of the script of a parsed
    design is not in its lower-cased code. *)
Lemma parsed_script_excludes (t : PrimitiveType) (chunk : string)
    (args : list string) (sanitized pat : string) (b : bool) :
  Js.allChars Js.isAlnum chunk = true ->
  Forall (fun a => Js.allChars isNumberChar a = true) args ->
  isIdentifier sanitized = true ->
  (b = true -> Js.includes (Js.toLowerCase sanitized) pat = false) ->
  Scan.excludes pat
    (map (lowered b) (parsedScriptPieces t chunk args sanitized)) = true ->
  Js.includes
    (Js.toLowerCase (piecesText (parsedScriptPieces t chunk args sanitized)))
    pat = false.
Proof.
  intros Hchunk Hargs Hname Hfree Hex.
  rewrite <- (lowered_text b). apply excludes_sound; [exact Hex|].
  assert (Hlc : Js.allChars Js.isAlnum (Js.toLowerCase chunk) = true).
  { apply allChars_toLowerCase; [|exact Hchunk].
    intros c. apply lowerChar_classes. }
  unfold parsedScriptPieces. rewrite !map_app.
  apply Forall_app. split; [repeat constructor; exact Hlc|].
  apply Forall_app. split; [now apply argumentPieces_valid|].
  cbn [map lowered]. constructor; [exact I|]. constructor; [exact Hlc|].
  constructor; [exact I|]. constructor; [|repeat constructor].
  destruct b; cbn [Scan.valid].
  - now apply Hfree.
  - apply allChars_toLowerCase; [|exact Hname].
    intros c. apply lowerChar_classes.
Qed.

Lemma existsb_false {A} (f : A -> bool) (l : list A) :
  (forall x, In x l -> f x = false) -> existsb f l = false.
Proof.
  intros H. induction l as [|x l IH]; [reflexivity|].
  cbn. rewrite (H x (or_introl eq_refl)). apply IH.
  intros y Hy. apply H. now right.
Qed.

Lemma Contains_toLowerCase (a b : string) :
  Js.Contains a b -> Js.Contains (Js.toLowerCase a) (Js.toLowerCase b).
Proof.
  intros (p & q & ->). exists (Js.toLowerCase p), (Js.toLowerCase q).
  now rewrite !toLowerCase_append.
Qed.

(** The verdict of the validator on the script of a parsed shape. *)
Lemma parsed_script_verdict (t : PrimitiveType) (chunk sanitized : string)
    (size : number) :
  In t [cube; sphere; cylinder] ->
  Js.allChars Js.isAlnum chunk = true ->
  isIdentifier sanitized = true ->
  existsb
    (fun pattern =>
       Js.includes
         (Js.toLowerCase
            (piecesText
               (parsedScriptPieces t chunk (parsedArguments t size) sanitized)))
         (Js.toLowerCase pattern))
    dangerousPatterns
  = Js.includes (Js.toLowerCase sanitized) "__import__".
Proof.
  intros Ht Hchunk Hname.
  assert (Hargs : Forall (fun a => Js.allChars isNumberChar a = true)
                    (parsedArguments t size)).
  { destruct t; repeat constructor; apply numberChars_toString. }
  destruct (Js.includes (Js.toLowerCase sanitized) "__import__") eqn:EN.
  - apply existsb_exists. exists "__import__". split; [cbn; tauto|].
    apply includes_Contains.
    apply (Contains_trans _ (Js.toLowerCase sanitized));
      [|now apply includes_Contains].
    apply Contains_toLowerCase.
    apply (Contains_piece (NameWord sanitized)).
    unfold parsedScriptPieces. apply in_or_app. right.
    apply in_or_app. right. cbn. tauto.
  - apply existsb_false. intros pattern Hin.
    rewrite (dangerousPatterns_lowercase _ Hin).
    unfold dangerousPatterns in Hin.
    destruct Ht as [<-|[<-|[<-|[]]]];
      repeat (destruct Hin as [<-|Hin];
              [first
                 [ apply (parsed_script_excludes _ _ _ _ _ false Hchunk Hargs Hname);
                   [discriminate | vm_compute; reflexivity]
                 | apply (parsed_script_excludes _ _ _ _ _ true Hchunk Hargs Hname);
                   [intros _; exact EN | vm_compute; reflexivity] ]|]);
      destruct Hin.
Qed.

End ParsedScript.

(** The verdict of the validator on the script of a parsed design. *)
Lemma parsed_script_safety_core
    (env : Env) (intent : DesignIntent) (design : StructuredDesign) :
  Js.allChars Js.isAlnum (String.substring 2 9 (randomBase36 env)) = true ->
  outcome (parseDesignIntent env intent) = Returned (inl design) ->
  name (metadata design) = "Design from " +:+ dquote +:+ prompt intent +:+ dquote
  /\ validateScriptSafety (generateFreeCADCode design)
     = negb (Js.includes
               (Js.toLowerCase (sanitizeName (name (metadata design))))
               "__import__").
Proof.
  intros Hchunk Hparse.
  rewrite parseDesignIntent_cases in Hparse. cbn [outcome snd] in Hparse.
  cbv zeta in Hparse.
  assert (Hname : isIdentifier (sanitizeName (name (parsedMetadata env intent)))
                  = true).
  { apply allChars_mapChars. intros c.
    destruct c as [[] [] [] [] [] [] [] []]; reflexivity. }
  set (p := Js.toLowerCase (prompt intent)) in *.
  destruct (Js.includes p "cube" || Js.includes p "box");
    [|destruct (Js.includes p "sphere");
      [|destruct (Js.includes p "cylinder")]];
    try discriminate Hparse; injection Hparse as <-;
    (split; [reflexivity|]); unfold validateScriptSafety;
    cbn [metadata].
  - rewrite (parsed_code env intent cube _ (promptSize p) (promptUnit p))
      by (left; now split).
    rewrite parsed_script_verdict; [reflexivity | cbn; tauto | exact Hchunk
                                    | exact Hname].
  - rewrite (parsed_code env intent sphere _ (promptSize p) (promptUnit p))
      by (right; left; now split).
    rewrite parsed_script_verdict; [reflexivity | cbn; tauto | exact Hchunk
                                    | exact Hname].
  - rewrite (parsed_code env intent cylinder _ (promptSize p) (promptUnit p))
      by (right; right; now split).
    rewrite parsed_script_verdict; [reflexivity | cbn; tauto | exact Hchunk
                                    | exact Hname].
Qed.

(** X20. When the prompt is ASCII text and the random part of the id is
    made of letters and digits, the script generated from a design the
    parser returned fails the safety check exactly when the sanitized
    design name, in lower case, contains [__import__]: no other part of
    such a script can contain a denylisted pattern, whatever the size
    read from the prompt is, be it printed in plain digits, in exponent
    form or as [Infinity]. The design name is the prompt between double
    quotes after [Design from], so the verdict depends on the prompt
    alone. *)
Theorem parsed_script_safety
    (env : Env) (intent : DesignIntent) (design : StructuredDesign) :
  Js.allChars Js.isAscii (prompt intent) = true ->
  Js.allChars Js.isAlnum (String.substring 2 9 (randomBase36 env)) = true ->
  outcome (parseDesignIntent env intent) = Returned (inl design) ->
  name (metadata design) = "Design from " +:+ dquote +:+ prompt intent +:+ dquote
  /\ validateScriptSafety (generateFreeCADCode design)
     = negb (Js.includes
               (Js.toLowerCase (sanitizeName (name (metadata design))))
               "__import__").
Proof. intros _. exact (parsed_script_safety_core env intent design). Qed.

Lemma parsed_script_safety_witness :
  let env := {| randomBase36 := "0.4fzyo82mvyr"; nowISO := "2024-05-01T10:00:00.000Z" |} in
  let intent := {| prompt := "Import: a 5mm cube"; contextId := "ctx";
                   constraints := None |} in
  let large := {| prompt := "A cube of 12345678901234567890123 mm";
                  contextId := "ctx"; constraints := None |} in
  (exists design,
     outcome (parseDesignIntent env intent) = Returned (inl design)
     /\ sanitizeName (name (metadata design)) = "Design_from__Import__a_5mm_cube_"
     /\ validateScriptSafety (generateFreeCADCode design) = false)
  /\ (exists design,
        outcome (parseDesignIntent env large) = Returned (inl design)
        /\ Js.includes (code (generateFreeCADCode design))
             "Part.makeBox(1.2345678901234568e+22, " = true
        /\ validateScriptSafety (generateFreeCADCode design) = true).
Proof.
  intros env intent large. split.
  - destruct (outcome (parseDesignIntent env intent)) as [[d|fb]|e] eqn:E;
      try (vm_compute in E; discriminate).
    exists d. split; [reflexivity|].
    destruct (parsed_script_safety env intent d eq_refl eq_refl E) as [Hn Hv].
    rewrite Hv, Hn. split; reflexivity.
  - destruct (outcome (parseDesignIntent env large)) as [[d|fb]|e] eqn:E;
      try (vm_compute in E; discriminate).
    exists d. split; [reflexivity|].
    destruct (parsed_script_safety env large d eq_refl eq_refl E) as [Hn Hv].
    rewrite Hv, Hn. split; [|reflexivity].
    vm_compute in E. injection E as <-. vm_compute. reflexivity.
Defined.

(** X21. The outcome of the pipeline, read off the prompt alone (the
    prompt being ASCII text and the random part of the id being made of
    letters and digits). A prompt
    that needs clarification gets the clarification feedback of the gate.
    Otherwise a prompt without [cube], [box], [sphere] or [cylinder] gets
    the parser's clarification feedback. Otherwise, when the sanitized
    design name contains [__import__] in lower case, the payload has the
    design and the script, no execution result and the unsafe-code error
    feedback, and nothing is sent to the engine stand-in; and in every
    other case the script is executed and the payload has the design, the
    script, the successful result and a success feedback with the single
    action accept. *)
Theorem pipeline_outcome_by_prompt (env : Env) (intent : DesignIntent) :
  Js.allChars Js.isAscii (prompt intent) = true ->
  Js.allChars Js.isAlnum (String.substring 2 9 (randomBase36 env)) = true ->
  let p := Js.toLowerCase (prompt intent) in
  let sanitized :=
    sanitizeName ("Design from " +:+ dquote +:+ prompt intent +:+ dquote) in
  (needsClarification intent = true ->
   processDesignIntent env intent =
     ([], Returned (feedbackOnly
            (clarificationFeedback (generateClarificationQuestions intent)))))
  /\ (needsClarification intent = false -> hasParsedKeyword p = false ->
      processDesignIntent env intent =
        ([], Returned (feedbackOnly clarifyShapeFeedback)))
  /\ (needsClarification intent = false -> hasParsedKeyword p = true ->
      exists design,
        outcome (parseDesignIntent env intent) = Returned (inl design)
        /\ processDesignIntent env intent =
             if Js.includes (Js.toLowerCase sanitized) "__import__"
             then ([], Returned (unsafePayload design (generateFreeCADCode design)))
             else (engineEvents (generateFreeCADCode design),
                   Returned (executedPayload design (generateFreeCADCode design))))
  /\ status unsafeFeedback = StError
  /\ actionTypes unsafeFeedback = Some [modify]
  /\ status (generateUserFeedback mockSuccess) = StSuccess
  /\ actionTypes (generateUserFeedback mockSuccess) = Some [accept].
Proof.
  intros _ Hchunk p sanitized.
  split; [exact (pipeline_at_gate env intent)|].
  destruct (parseDesignIntent_run env intent) as (parsed & Hrun & Hnone & Hsome).
  split; [|split; [|repeat split]].
  - intros Hn Hk. rewrite (pipeline_after_gate env intent parsed Hn Hrun).
    now rewrite (Hnone Hk).
  - intros Hn Hk. destruct (Hsome Hk) as [design ->].
    exists design. split; [now rewrite Hrun|].
    rewrite (pipeline_after_gate env intent _ Hn Hrun). cbv zeta.
    assert (Hout : outcome (parseDesignIntent env intent) = Returned (inl design))
      by now rewrite Hrun.
    destruct (parsed_script_safety_core env intent design Hchunk Hout)
      as [Hname ->].
    rewrite Hname. fold sanitized.
    now destruct (Js.includes (Js.toLowerCase sanitized) "__import__").
Qed.

Lemma pipeline_outcome_by_prompt_witness :
  let env := {| randomBase36 := "0.4fzyo82mvyr"; nowISO := "2024-05-01T10:00:00.000Z" |} in
  let intent := {| prompt := "A 25mm ball (sphere)"; contextId := "ctx";
                   constraints := None |} in
  exists design,
    processDesignIntent env intent =
      (engineEvents (generateFreeCADCode design),
       Returned (executedPayload design (generateFreeCADCode design))).
Proof.
  intros env intent.
  destruct (pipeline_outcome_by_prompt env intent eq_refl eq_refl)
    as (_ & _ & H & _).
  destruct (H eq_refl eq_refl) as (design & _ & Hrun).
  exists design. exact Hrun.
Defined.
